(** * Lighthouse expense management: a shallow embedding and its properties

    The TypeScript sources embedded here are the admin log viewer
    (LogsPage), the new-expense form (NewExpensePage) and the n8n client
    service (n8nClient).  Pure functions become Rocq functions, code that
    can throw returns an [outcome], and the asynchronous functions of the
    client thread the network through a state-and-exception monad.  The
    back end is an n8n workflow that is not among the sources: the policy
    resolver, the validator, the scorer and the router are modelled from
    the specification, and of the webhooks only the documented success
    response is used, as the body of a sample answer. *)

From Stdlib Require Import List String Ascii Bool NArith ZArith QArith Lia.
From Stdlib Require Import DecimalString Sorted Permutation.
From Stdlib Require DecimalPos.
Import ListNotations.
Open Scope string_scope.
Set Warnings "-register-all".

(** ** The JavaScript values and built-ins the sources rely on *)

Module Js.

(** Strings are sequences of 8-bit characters; [toLowerCase] acts on the
    ASCII letters, as the JavaScript method does on that range. *)
Definition lowerChar (c : ascii) : ascii :=
  let n := nat_of_ascii c in
  if (65 <=? n)%nat && (n <=? 90)%nat then ascii_of_nat (n + 32) else c.

Fixpoint toLowerCase (s : string) : string :=
  match s with
  | EmptyString => EmptyString
  | String c s' => String (lowerChar c) (toLowerCase s')
  end.

(** [s.includes(t)]: [t] occurs in [s] at some position. *)
Fixpoint includes (s t : string) : bool :=
  prefix t s ||
  match s with
  | EmptyString => false
  | String _ s' => includes s' t
  end.

Definition isWhitespace (c : ascii) : bool :=
  let n := nat_of_ascii c in
  ((9 <=? n)%nat && (n <=? 13)%nat) || (n =? 32)%nat.

Fixpoint trimStart (s : string) : string :=
  match s with
  | EmptyString => EmptyString
  | String c s' => if isWhitespace c then trimStart s' else s
  end.

(** [trimEnd] keeps a character when it is not white space or when
    something that is not white space follows it. *)
Fixpoint trimEnd (s : string) : string :=
  match s with
  | EmptyString => EmptyString
  | String c s' =>
      match trimEnd s' with
      | EmptyString => if isWhitespace c then EmptyString else String c EmptyString
      | rest => String c rest
      end
  end.

Definition trim (s : string) : string := trimEnd (trimStart s).

(** [!s] on a string. *)
Definition isEmpty (s : string) : bool :=
  match s with EmptyString => true | _ => false end.

(** A JavaScript number, as far as the sources look at one: they test it
    for truthiness and compare it with zero. *)
Inductive number : Type :=
  | NaN
  | Finite (q : Q)
  | PosInfinity
  | NegInfinity.

Definition truthyNumber (n : number) : bool :=
  match n with
  | NaN => false
  | Finite q => negb (Qeq_bool q 0)
  | PosInfinity | NegInfinity => true
  end.

(** [n <= 0]; every comparison with [NaN] is false. *)
Definition leZero (n : number) : bool :=
  match n with
  | NaN => false
  | Finite q => Qle_bool q 0
  | PosInfinity => false
  | NegInfinity => true
  end.

(** What a [throw] carries: an [Error] object with its message, or some
    other value ([error instanceof Error] tells them apart). *)
Inductive thrown : Type :=
  | ErrorObject (message : string)
  | OtherValue.

(** The result of running code that may throw. *)
Inductive outcome (A : Type) : Type :=
  | Returned (a : A)
  | Threw (t : thrown).
Arguments Returned {A} a.
Arguments Threw {A} t.

Definition bind {A B : Type} (m : outcome A) (k : A -> outcome B) : outcome B :=
  match m with
  | Returned a => k a
  | Threw t => Threw t
  end.

(** [try { body } catch (error) { handler }] *)
Definition tryCatch {A : Type} (body : outcome A) (handler : thrown -> outcome A)
  : outcome A :=
  match body with
  | Returned a => Returned a
  | Threw t => handler t
  end.

(** [String(n)] for a non-negative integer. *)
Definition N_toString (n : N) : string :=
  NilZero.string_of_uint (N.to_uint n).

(** [s.slice(-k)]: the last [k] characters, the whole string when it is
    shorter. *)
Definition sliceLast (k : nat) (s : string) : string :=
  substring (String.length s - k) k s.

Fixpoint repeatChar (c : ascii) (n : nat) : string :=
  match n with
  | O => EmptyString
  | S n' => String c (repeatChar c n')
  end.

(** [s.padStart(k, c)] for a one-character filler. *)
Definition padStart (k : nat) (c : ascii) (s : string) : string :=
  repeatChar c (k - String.length s) ++ s.

(** A JavaScript value as [JSON.parse] and property reads produce it.  An
    object is its list of own properties, first binding of a key first. *)
Inductive value : Type :=
  | VUndefined
  | VNull
  | VBool (b : bool)
  | VNumber (n : number)
  | VString (s : string)
  | VArray (items : list value)
  | VObject (fields : list (string * value)).

Definition truthy (v : value) : bool :=
  match v with
  | VUndefined | VNull => false
  | VBool b => b
  | VNumber n => truthyNumber n
  | VString s => negb (isEmpty s)
  | VArray _ | VObject _ => true
  end.

(** [a || b] on values whose evaluation cannot throw. *)
Definition or_ (a b : value) : value := if truthy a then a else b.

Fixpoint lookup (key : string) (fields : list (string * value)) : value :=
  match fields with
  | [] => VUndefined
  | (k, v) :: rest => if String.eqb k key then v else lookup key rest
  end.

(** The message of the [TypeError] for a property read on [null] or
    [undefined] (V8's wording). *)
Definition readOfNullish (what key : string) : thrown :=
  ErrorObject ("Cannot read properties of " ++ what ++ " (reading '" ++ key ++ "')").

(** [v.key] for a key that is no built-in property of strings, numbers,
    booleans or arrays: only an object can hold it, and reading it from
    [null] or [undefined] throws. *)
Definition get (v : value) (key : string) : outcome value :=
  match v with
  | VUndefined => Threw (readOfNullish "undefined" key)
  | VNull => Threw (readOfNullish "null" key)
  | VObject fields => Returned (lookup key fields)
  | _ => Returned VUndefined
  end.

(** [v?.key] *)
Definition getOptional (v : value) (key : string) : value :=
  match v with
  | VObject fields => lookup key fields
  | _ => VUndefined
  end.

Definition isArray (v : value) : bool :=
  match v with VArray _ => true | _ => false end.

(** [v === s] for a string literal [s]. *)
Definition strictEqString (v : value) (s : string) : bool :=
  match v with VString t => String.eqb t s | _ => false end.

Definition eqNumber (a b : number) : bool :=
  match a, b with
  | Finite p, Finite q => Qeq_bool p q
  | PosInfinity, PosInfinity | NegInfinity, NegInfinity => true
  | _, _ => false
  end.

(** [a === b] on primitive values.  Arrays and objects compare by
    reference, which [value] does not record: two of them are taken to be
    distinct. *)
Definition strictEq (a b : value) : bool :=
  match a, b with
  | VUndefined, VUndefined | VNull, VNull => true
  | VBool x, VBool y => Bool.eqb x y
  | VNumber x, VNumber y => eqNumber x y
  | VString x, VString y => String.eqb x y
  | _, _ => false
  end.

(** Whether [key] is a property of the object's own. *)
Definition hasOwn (key : string) (fields : list (string * value)) : bool :=
  existsb (fun field => String.eqb (fst field) key) fields.

(** Whether the conversion of [v] to a string, or to a number, throws.  A
    [value] holds no function, so an object with a [toString] of its own
    has no method left that gives a primitive and the conversion is a
    [TypeError]; an object without one is converted by
    [Object.prototype.toString].  An array is converted through [join],
    element by element. *)
Fixpoint toStringThrows (v : value) : bool :=
  match v with
  | VObject fields => hasOwn "toString" fields
  | VArray items => existsb toStringThrows items
  | _ => false
  end.

Definition cannotConvert : thrown :=
  ErrorObject "Cannot convert object to primitive value".

(** [items.map(f)] where [f] may throw: the first throw ends the loop. *)
Fixpoint mapM {A B : Type} (f : A -> outcome B) (items : list A)
  : outcome (list B) :=
  match items with
  | [] => Returned []
  | x :: rest =>
      match f x with
      | Threw t => Threw t
      | Returned y =>
          match mapM f rest with
          | Threw t => Threw t
          | Returned ys => Returned (y :: ys)
          end
      end
  end.

End Js.

Notation "x <- m ;; k" := (Js.bind m (fun x => k))
  (at level 61, m at next level, right associativity).

(** ** Types of the front end (types/expense.ts) *)

Module Types.
Import Js.

(** ["pending" | "approved" | "denied" | "flagged"] *)
Inductive ExpenseStatus : Type := Pending | Approved | Denied | Flagged.

(** ["employee" | "admin"] *)
Inductive UserRole : Type := Employee | Admin.

Module Form.
(** [ExpenseFormData]; a [File] is known by its name. *)
Record ExpenseFormData : Type := {
    employeeId : string;
    category : string;
    amount : number;
    currency : string;
    description : string;
    vendor : string;
    paymentMethod : string;
    dateIncurred : string;
    reimbursementType : string;
    receiptFile : option string
}.
End Form.

Module Complete.
(** The object [handleManualSubmit] builds: the form's fields spread,
    plus the three generated ones. *)
Record CompleteExpenseData : Type := {
    formFields : Form.ExpenseFormData;
    transactionId : string;
    dateSubmitted : string;
    receiptAttached : string
}.
End Complete.

Module Sheet.
(** [Expense], with the fields [mapSheetRowToExpense] fills.  A field
    the mapper copies from the row holds whatever value the row had. *)
Record Expense : Type := {
    id : value;
    transactionId : value;
    employeeId : value;
    category : value;
    amount : number;
    amountUSD : option number;
    currency : value;
    description : value;
    vendor : value;
    dateIncurred : value;
    dateSubmitted : value;
    status : ExpenseStatus;
    paymentMethod : value;
    reimbursementType : value;
    receiptAttached : string
}.
End Sheet.

Record ExpenseSubmissionPayload : Type := {
  idToken : option string;
  role : UserRole;
  submissionType : string;
  expense : Complete.CompleteExpenseData
}.

End Types.

(** ** n8nClient: the service that talks to the n8n webhooks *)

Module N8nClient.
Import Js Types.

(** *** The world a call runs in *)

Inductive RequestBody : Type :=
  | SubmitExpenseBody (payload : ExpenseSubmissionPayload)
  | FetchExpensesBody (action employeeId role : string) (idToken : option string).

Record Request : Type := {
  url : string;
  method : string;
  body : RequestBody
}.

(** A [Response]: [text] is what awaiting [response.text()] gives, a
    failure while the body is read included. *)
Record Response : Type := {
  ok : bool;
  status : N;
  text : outcome string
}.

(** What the browser provides during one call: the build-time setting, the
    signed-in Firebase user (with what [getIdToken(true)] gives), the
    built-ins and the clock. *)
Record World : Type := {
  REACT_APP_N8N_BASE_URL : option string;
  currentUser : option (outcome string);
  JSON_parse : string -> outcome value;
  parseFloat : value -> number;
  Date_now : N;
  Date_toISOString : string
}.

(** The network: the requests sent so far, and the answer to a request,
    which may depend on all those sent before it. *)
Record Net : Type := {
  respond : list Request -> Request -> outcome Response;
  sent : list Request
}.

(** An asynchronous function of the client: it may throw, and it may send
    requests. *)
Definition Client (A : Type) : Type := Net -> outcome A * Net.

Definition retC {A : Type} (a : A) : Client A := fun net => (Returned a, net).

Definition throwC {A : Type} (t : thrown) : Client A := fun net => (Threw t, net).

Definition lift {A : Type} (m : outcome A) : Client A := fun net => (m, net).

Definition bindC {A B : Type} (m : Client A) (k : A -> Client B) : Client B :=
  fun net =>
    match m net with
    | (Returned a, net') => k a net'
    | (Threw t, net') => (Threw t, net')
    end.

Definition tryCatchC {A : Type} (body : Client A) (handler : thrown -> Client A)
  : Client A :=
  fun net =>
    match body net with
    | (Returned a, net') => (Returned a, net')
    | (Threw t, net') => handler t net'
    end.

(** [await fetch(url, init)] *)
Definition fetch (request : Request) : Client Response :=
  fun net =>
    (respond net (sent net) request,
     {| respond := respond net; sent := (sent net ++ [request])%list |}).

Notation "x <~ m ;; k" := (bindC m (fun x => k))
  (at level 61, m at next level, right associativity).

(** [response.json()]: read the body, then parse it. *)
Definition json (w : World) (response : Response) : outcome value :=
  t <- text response ;; JSON_parse w t.

Definition N8N_BASE_URL (w : World) : string :=
  match REACT_APP_N8N_BASE_URL w with
  | Some s => if isEmpty s then "http://localhost:5678" else s
  | None => "http://localhost:5678"
  end.

Definition getIdToken (w : World) : outcome (option string) :=
  match currentUser w with
  | None => Returned None
  | Some token => t <- token ;; Returned (Some t)
  end.

(** *** Employee endpoints *)

(** The object the client functions resolve to; a property the source
    leaves out reads as [undefined]. *)
Record CallResult : Type := {
  success : bool;
  message : value;
  expenseId : value
}.

Definition submitExpense (w : World) (expenseData : Complete.CompleteExpenseData)
    (role : UserRole) : Client CallResult :=
  idToken <~ lift (getIdToken w) ;;
  let payload :=
    {| idToken := idToken; role := role;
       submissionType := "manual"; expense := expenseData |} in
  tryCatchC
    (response <~ fetch {| url := N8N_BASE_URL w ++ "/webhook/submit-expense";
                          method := "POST";
                          body := SubmitExpenseBody payload |} ;;
     if negb (ok response) then
       errorText <~ lift (text response) ;;
       throwC (ErrorObject ("HTTP error! status: " ++ N_toString (status response)))
     else
       result <~ lift (json w response) ;;
       resultMessage <~ lift (get result "message") ;;
       resultExpenseId <~ lift (get result "expenseId") ;;
       resultTransactionID <~ lift (get result "TransactionID") ;;
       retC {| success := true;
               message := or_ resultMessage (VString "Expense submitted successfully");
               expenseId := or_ resultExpenseId resultTransactionID |})
    (fun error =>
       retC {| success := false;
               message :=
                 VString match error with
                         | ErrorObject m => m
                         | OtherValue => "Failed to submit expense. Please try again."
                         end;
               expenseId := VUndefined |}).

Definition mapStatus (status : value) : outcome ExpenseStatus :=
  if negb (truthy status) then Returned Pending
  else
    match status with
    | VString str =>
        let s := toLowerCase str in
        if String.eqb s "approved" then Returned Approved
        else if String.eqb s "denied" || String.eqb s "rejected" then Returned Denied
        else if String.eqb s "flagged" then Returned Flagged
        else Returned Pending
    | _ => Threw (ErrorObject "status.toLowerCase is not a function")
    end.

(** [parseFloat(v)]: the argument is converted to a string first, and that
    conversion may throw. *)
Definition parseFloatOf (w : World) (v : value) : outcome number :=
  if toStringThrows v then Threw cannotConvert else Returned (parseFloat w v).

Definition mapSheetRowToExpense (w : World) (row : value) : outcome Sheet.Expense :=
  rowTransactionID <- get row "TransactionID" ;;
(* the first read has succeeded: [row] is neither null nor undefined *)
  let r := getOptional row in
  rowAmount <- parseFloatOf w (or_ (or_ (r "Amount") (r "amount")) (VNumber (Finite 0))) ;;
  rowAmountUSD <- (if truthy (r "AmountUSD")
                   then n <- parseFloatOf w (r "AmountUSD") ;; Returned (Some n)
                   else Returned None) ;;
  st <- mapStatus (or_ (r "Status") (r "status")) ;;
  Returned
    {| Sheet.id := or_ (or_ rowTransactionID (r "id"))
                       (VString ("exp-" ++ N_toString (Date_now w)));
       Sheet.transactionId := or_ (r "TransactionID") (r "transactionId");
       Sheet.employeeId := or_ (or_ (r "EmployeeID") (r "employeeId")) (VString EmptyString);
       Sheet.category := or_ (or_ (r "Category") (r "category")) (VString "Other");
       Sheet.amount := rowAmount;
       Sheet.amountUSD := rowAmountUSD;
       Sheet.currency := or_ (or_ (r "Currency") (r "currency")) (VString "USD");
       Sheet.description :=
         or_ (or_ (r "Description") (r "description")) (VString EmptyString);
       Sheet.vendor := or_ (r "Vendor") (r "vendor");
       Sheet.dateIncurred :=
         or_ (or_ (r "DateIncurred") (r "dateIncurred")) (VString (Date_toISOString w));
       Sheet.dateSubmitted := or_ (r "DateSubmitted") (r "dateSubmitted");
       Sheet.status := st;
       Sheet.paymentMethod :=
         or_ (or_ (r "PaymentMethod") (r "paymentMethod")) (VString EmptyString);
       Sheet.reimbursementType :=
         or_ (or_ (r "ReimbursementType") (r "reimbursementType")) (VString EmptyString);
       Sheet.receiptAttached :=
         if strictEqString (r "ReceiptAttached") "Y"
            || strictEqString (r "receiptAttached") "Y"
         then "Y" else "N" |}.

Definition arrayItems (v : value) : list value :=
  match v with VArray items => items | _ => [] end.

(** The end of [fetchEmployeeExpenses]: a response that is itself a string
    holding JSON.  Whatever is thrown inside is dropped by the inner
    [catch], and the function goes on to return the empty list. *)
Definition expensesOfStringData (w : World) (data : value) : outcome (list Sheet.Expense) :=
  match data with
  | VString str =>
      tryCatch
        (parsed <- JSON_parse w str ;;
         if isArray parsed then mapM (mapSheetRowToExpense w) (arrayItems parsed)
         else Returned [])
        (fun _ => Returned [])
  | _ => Returned []
  end.

(** [fetchEmployeeExpenses] after the array wrapper has been taken off. *)
Definition expensesOfUnwrapped (w : World) (data : value) : outcome (list Sheet.Expense) :=
  dataExpenses <- get data "expenses" ;;
  if truthy dataExpenses && isArray dataExpenses
  then mapM (mapSheetRowToExpense w) (arrayItems dataExpenses)
  else
    dataBody <- get data "body" ;;
    let bodyExpenses := getOptional dataBody "expenses" in
    if truthy bodyExpenses && isArray bodyExpenses
    then mapM (mapSheetRowToExpense w) (arrayItems bodyExpenses)
    else
      dataTransactionID <- get data "TransactionID" ;;
      dataEmployeeID <- get data "EmployeeID" ;;
      if truthy (or_ dataTransactionID dataEmployeeID)
      then e <- mapSheetRowToExpense w data ;; Returned [e]
      else expensesOfStringData w data.

(** What [fetchEmployeeExpenses] makes of the parsed response. *)
Definition expensesOfData (w : World) (data : value) : outcome (list Sheet.Expense) :=
  match data with
  | VArray (first :: rest) =>
      firstTransactionID <- get first "TransactionID" ;;
      if truthy firstTransactionID
      then mapM (mapSheetRowToExpense w) (first :: rest)
      else expensesOfUnwrapped w first
  | _ => expensesOfUnwrapped w data
  end.

Definition fetchEmployeeExpenses (w : World) (employeeId : string)
  : Client (list Sheet.Expense) :=
  idToken <~ lift (getIdToken w) ;;
  tryCatchC
    (response <~ fetch {| url := N8N_BASE_URL w ++ "/webhook/fetch-expenses";
                          method := "POST";
                          body := FetchExpensesBody "fetch_expenses" employeeId
                                    "employee" idToken |} ;;
     responseText <~ lift (text response) ;;
     if isEmpty responseText || isEmpty (trim responseText) then retC []
     else
       data <~ lift (JSON_parse w responseText) ;;
       lift (expensesOfData w data))
    (fun error => retC []).

(** *** Admin endpoints *)

(** ["approve" | "deny"] *)
Inductive AdminDecision : Type := Approve | Deny.

Definition decisionString (decision : AdminDecision) : string :=
  match decision with Approve => "approve" | Deny => "deny" end.

(** The request is built and logged, never sent. *)
Definition sendAdminDecision (w : World) (expenseId : value)
    (decision : AdminDecision) (reason : option string) : Client CallResult :=
  idToken <~ lift (getIdToken w) ;;
  retC {| success := true;
          message := VString ("Expense " ++ decisionString decision
                              ++ "d successfully (MOCK)");
          expenseId := VUndefined |}.

End N8nClient.

(** ** PendingExpensesPage and FlaggedExpensesPage: the admin's review

    The two pages differ in the list they load; state and handlers are the
    same text. *)

Module AdminReviewPage.
Import Js Types N8nClient.

Record PageState : Type := {
  expenses : list Sheet.Expense;
  selectedExpense : option Sheet.Expense;
  decisionReason : string;
  processing : bool;
  error : option value;
  success : option value
}.

Definition handleRowClick (expense : Sheet.Expense) (st : PageState) : PageState :=
  {| expenses := expenses st; selectedExpense := Some expense;
     decisionReason := EmptyString; processing := processing st;
     error := error st; success := success st |}.

Definition handleDecision (w : World) (decision : AdminDecision) (st : PageState)
  : Net -> PageState * Net :=
  fun net =>
    match selectedExpense st with
    | None => (st, net)
    | Some selected =>
        match sendAdminDecision w (Sheet.id selected) decision
                (if isEmpty (decisionReason st) then None else Some (decisionReason st))
                net with
        | (Returned result, net') =>
            if N8nClient.success result
            then ({| expenses :=
                       filter (fun e => negb (strictEq (Sheet.id e) (Sheet.id selected)))
                              (expenses st);
                     selectedExpense := None;
                     decisionReason := EmptyString;
                     processing := false;
                     error := None;
                     success := Some (message result) |}, net')
            else ({| expenses := expenses st; selectedExpense := selectedExpense st;
                     decisionReason := decisionReason st; processing := false;
                     error := Some (message result); success := success st |}, net')
        | (Threw err, net') =>
            ({| expenses := expenses st; selectedExpense := selectedExpense st;
                decisionReason := decisionReason st; processing := false;
                error := Some (VString "Failed to process decision. Please try again.");
                success := success st |}, net')
        end
    end.

End AdminReviewPage.

(** ** NewExpensePage: the manual expense form *)

Module NewExpensePage.
Import Js Types N8nClient.

(** [generateTransactionId()]: [now] is [Date.now()] and [randomThousand]
    is [Math.floor(Math.random() * 1000)]. *)
Definition generateTransactionId (now randomThousand : N) : string :=
  let timestamp := sliceLast 6 (N_toString now) in
  let random := padStart 3 "0" (N_toString randomThousand) in
  "T-" ++ sliceLast 3 timestamp ++ sliceLast 3 random.

(** The component's state, and whether the redirect to the dashboard has
    been scheduled. *)
Record PageState : Type := {
  formData : Form.ExpenseFormData;
  loading : bool;
  error : option value;
  success : option value;
  navigateScheduled : bool
}.

Definition initialFormData (today : string) : Form.ExpenseFormData :=
  {| Form.employeeId := EmptyString;
     Form.category := EmptyString;
     Form.amount := Finite 0;
     Form.currency := "USD";
     Form.description := EmptyString;
     Form.vendor := EmptyString;
     Form.paymentMethod := EmptyString;
     Form.dateIncurred := today;
     Form.reimbursementType := EmptyString;
     Form.receiptFile := None |}.

(** [parseFloat(value) || 0] *)
Definition parseAmount (w : World) (value : string) : number :=
  let n := parseFloat w (VString value) in
  if truthyNumber n then n else Finite 0.

(** [handleInputChange]: [name] is the [name] attribute of the input that
    changed, which is one of the nine names below (the handler writes the
    property [name]; the inputs it is attached to have eight of these
    names, and a name that is no field of the form is outside this
    definition). *)
Definition handleInputChange (w : World) (name value : string)
    (prev : Form.ExpenseFormData) : Form.ExpenseFormData :=
  let set employeeId category amount currency description vendor paymentMethod
          dateIncurred reimbursementType :=
    {| Form.employeeId := employeeId; Form.category := category;
       Form.amount := amount; Form.currency := currency;
       Form.description := description; Form.vendor := vendor;
       Form.paymentMethod := paymentMethod; Form.dateIncurred := dateIncurred;
       Form.reimbursementType := reimbursementType;
       Form.receiptFile := Form.receiptFile prev |} in
  let named field := String.eqb name field in
  set (if named "employeeId" then value else Form.employeeId prev)
      (if named "category" then value else Form.category prev)
      (if named "amount" then parseAmount w value else Form.amount prev)
      (if named "currency" then value else Form.currency prev)
      (if named "description" then value else Form.description prev)
      (if named "vendor" then value else Form.vendor prev)
      (if named "paymentMethod" then value else Form.paymentMethod prev)
      (if named "dateIncurred" then value else Form.dateIncurred prev)
      (if named "reimbursementType" then value else Form.reimbursementType prev).

Definition validateManualForm (formData : Form.ExpenseFormData) : option string :=
  if isEmpty (Form.category formData) then Some "Please select a category."
  else if leZero (Form.amount formData) then Some "Amount must be greater than 0."
  else if isEmpty (trim (Form.description formData)) then Some "Description is required."
  else if isEmpty (Form.paymentMethod formData) then Some "Please select a payment method."
  else if isEmpty (Form.reimbursementType formData)
       then Some "Please select a reimbursement type."
  else None.

(** [new Date().toISOString().split("T")[0]] *)
Fixpoint beforeT (s : string) : string :=
  match s with
  | EmptyString => EmptyString
  | String c s' => if Ascii.eqb c "T" then EmptyString else String c (beforeT s')
  end.

(** [handleManualSubmit]: [role] is the signed-in user's role, if any, and
    [randomThousand] what the id generator draws. *)
Definition handleManualSubmit (w : World) (role : option UserRole)
    (randomThousand : N) (st : PageState) : Net -> PageState * Net :=
  fun net =>
    let finish error success navigate :=
      {| formData := formData st; loading := false; error := error;
         success := success; navigateScheduled := navigate |} in
    match validateManualForm (formData st) with
    | Some validationError =>
        ({| formData := formData st; loading := loading st;
            error := Some (VString validationError); success := None;
            navigateScheduled := navigateScheduled st |}, net)
    | None =>
        let completeExpenseData :=
          {| Complete.formFields := formData st;
             Complete.transactionId := generateTransactionId (Date_now w) randomThousand;
             Complete.dateSubmitted := beforeT (Date_toISOString w);
             Complete.receiptAttached :=
               match Form.receiptFile (formData st) with
               | Some _ => "Y"
               | None => "N"
               end |} in
        match submitExpense w completeExpenseData
                (match role with Some r => r | None => Employee end) net with
        | (Returned result, net') =>
            if N8nClient.success result
            then (finish None (Some (message result)) true, net')
            else (finish (Some (message result)) None (navigateScheduled st), net')
        | (Threw err, net') =>
            (finish (Some (VString "Failed to submit expense. Please try again."))
                    None (navigateScheduled st), net')
        end
    end.

End NewExpensePage.

(** ** The answer of the submit-expense webhook

    The workflow file of the n8n back end is not among the sources; its
    documentation (n8n/WORKFLOW_DOCUMENTATION.md, Flow 3: Direct Expense
    Submit) gives the success response that Edit Fields1 creates and the
    webhook returns to the front end.  The examples use it as the body of
    an ok answer. *)

Module Workflow.
Import Js Types N8nClient.

Definition dq : string := String (ascii_of_nat 34) EmptyString.

(** The body Edit Fields1 returns. *)
Definition successResponseText : string :=
  "{" ++ dq ++ "success" ++ dq ++ ": " ++ dq ++ "true" ++ dq ++ ", "
      ++ dq ++ "message" ++ dq ++ ": " ++ dq ++ "Expense submitted successfully" ++ dq
      ++ "}".

Definition successResponseValue : value :=
  VObject [ ("success", VString "true");
            ("message", VString "Expense submitted successfully") ].

End Workflow.

(** ** LogsPage: security-threat highlighting in the log viewer *)

Module LogsPage.
Import Js.

Record LogEntry : Type := {
  timestamp : string;
  message : string;
  workflow : string;
  node : string;
  eventType : string;
  executionId : string;
  userId : string
}.

Definition SECURITY_THREAT_TAGS : list string :=
  [ "injection detected";
    "injection_detected";
    "prompt injection";
    "prompt_injection";
    "filtering detected";
    "blacklisted";
    "blacklist";
    "blacklisted_word";
    "blacklisted word";
    "bad_prompt";
    "bad prompt";
    "malicious";
    "blocked";
    "threat detected";
    "security_alert";
    "flagged_dangerous";
    "vulnerability";
    "exploit";
    "attack" ].

Definition isSecurityThreat (eventType : string) : bool :=
  let type := toLowerCase eventType in
  if includes type "not detected" || includes type "no prompt"
     || includes type "not_detected" || includes type "no filtering"
     || includes type "safe model" || includes type "passed"
  then false
  else existsb (fun tag => includes type tag) SECURITY_THREAT_TAGS.

Definition getEventTypeClass (eventType : string) : string :=
  let type := toLowerCase eventType in
  if isSecurityThreat type then "log-badge log-badge--critical"
  else if includes type "error" || includes type "fail"
  then "log-badge log-badge--error"
  else if includes type "warn" || includes type "detected" || includes type "flag"
  then "log-badge log-badge--warning"
  else if includes type "success" || includes type "complete"
          || includes type "passed" || includes type "clean"
  then "log-badge log-badge--success"
  else "log-badge log-badge--info".

(** The markers the first test of [isSecurityThreat] looks for. *)
Definition negativeMarkers : list string :=
  [ "not detected"; "no prompt"; "not_detected";
    "no filtering"; "safe model"; "passed" ].

(** The row renderer holds a [LogEntry] and asks for the verdict on one of
    its fields; a read is the only access it makes.  [Render A] threads the
    entry through such a computation. *)
Definition Render (A : Type) : Type := LogEntry -> A * LogEntry.

Definition readField (f : LogEntry -> string) : Render string :=
  fun log => (f log, log).

Definition classify (f : LogEntry -> string) : Render bool :=
  fun log => let (text, log') := readField f log in (isSecurityThreat text, log').

(** [isSecurityThreat(log.message) || isSecurityThreat(log.node) ||
    isSecurityThreat(log.workflow)], the test behind [log-message--threat]. *)
Definition messageIsThreat : Render bool :=
  fun log =>
    let (m, log1) := classify message log in
    if m then (true, log1)
    else let (n, log2) := classify node log1 in
         if n then (true, log2)
         else classify workflow log2.

End LogsPage.

(** ** The decision pipeline of the specification

    Policy resolution, validation, anomaly scoring and decision routing run
    in the n8n back end, whose workflow file is not among the sources.  The
    definitions of this module follow sections 3 and 4 of the specification. *)

Module Pipeline.
Import Types.

(** [PolicyStatus] of types/policy.ts: ["active" | "inactive"]. *)
Inductive PolicyStatus : Type := Active | Inactive.

Module Policy.
(** Modelled from the spec: the Policy of section 3, as the pipeline reads
    it (the n8n workflow that stores and reads policies is missing; the
    front end's [Policy] interface lists the same fields as optional ones
    next to those it displays). *)
Record Policy : Type := {
    id : string;
    category : string;
    maxAmount : Q;
    currency : string;
    requiresReceipt : bool;
    requiresApproval : bool;
    approvalThreshold : Q;
    status : PolicyStatus
}.
End Policy.

Module Submission.
(** Modelled from the spec: the ExpenseSubmission of section 3 (the Row
    Normalizer that builds it is missing). *)
Record ExpenseSubmission : Type := {
    transactionId : string;
    employeeId : string;
    dateIncurred : string;
    dateSubmitted : string;
    description : string;
    vendor : option string;
    paymentMethod : string;
    currency : string;
    amount : Q;
    category : string;
    receiptAttached : bool;
    reimbursementType : string
}.
End Submission.

(** Modelled from the spec: the kinds of violation section 3 names (the
    validator is missing). *)
Inductive ViolationKind : Type :=
  | amount_exceeds_limit
  | receipt_required
  | category_unmatched.

(** Modelled from the spec: a Violation of section 3 (the validator is
    missing). *)
Record Violation : Type := { kind : ViolationKind; reason : string }.

(** Modelled from the spec: the ValidationResult of section 3 (the
    validator is missing). *)
Record ValidationResult : Type := { ok : bool; violations : list Violation }.

(** Modelled from the spec: the AnomalySignal of section 3 (the scorer is
    missing). *)
Record AnomalySignal : Type := { score : Z; reasons : list string }.

(** Modelled from the spec: the Decision of section 3 (the router is
    missing); its states are the front end's [ExpenseStatus]. *)
Record Decision : Type := { state : ExpenseStatus; decisionReason : string }.

(** Modelled from the spec: the failure of section 4.3 (the resolver is
    missing). *)
Inductive ResolutionError : Type := NoPolicyError.

(** Modelled from the spec: a policy counts when its status is active
    (the resolver is missing). *)
Definition isActive (p : Policy.Policy) : bool :=
  match Policy.status p with Active => true | Inactive => false end.

(** Modelled from the spec: the Policy Resolver of section 4.3 (missing
    from the sources): the exact category among the active policies, else
    the active Global policy, else NoPolicyError. *)
Definition resolvePolicy (policies : list Policy.Policy) (category : string)
  : ResolutionError + Policy.Policy :=
  match find (fun p => isActive p && String.eqb (Policy.category p) category) policies with
  | Some p => inr p
  | None =>
      match find (fun p => isActive p && String.eqb (Policy.category p) "Global") policies with
      | Some p => inr p
      | None => inl NoPolicyError
      end
  end.

(** Modelled from the spec: the Policy Validator of section 4.4 (missing
    from the sources): three checks, all run, every violation collected. *)
Definition validate (recognized : list string) (p : Policy.Policy)
    (sub : Submission.ExpenseSubmission) : ValidationResult :=
  let found :=
    ((if Qle_bool (Submission.amount sub) (Policy.maxAmount p) then []
     else [ {| kind := amount_exceeds_limit; reason := "amount exceeds the policy limit" |} ])
    ++ (if Policy.requiresReceipt p && negb (Submission.receiptAttached sub)
        then [ {| kind := receipt_required; reason := "a receipt is required" |} ]
        else [])
    ++ (if existsb (String.eqb (Submission.category sub)) recognized then []
        else [ {| kind := category_unmatched; reason := "category is not recognized" |} ]))%list in
  {| ok := match found with [] => true | _ => false end; violations := found |}.

(** Modelled from the spec: the signals of section 4.5 that add to the
    score (the scorer is missing). *)
Inductive Signal : Type :=
  | AmountAboveTrailingMean
  | DateOutOfRange
  | PersonalUseTerms
  | SubmissionLag
  | CurrencyMismatch.

(** Modelled from the spec: the signals in the order section 4.5 lists
    them (the scorer is missing). *)
Definition allSignals : list Signal :=
  [ AmountAboveTrailingMean; DateOutOfRange; PersonalUseTerms;
    SubmissionLag; CurrencyMismatch ].

(** Modelled from the spec: the illustrative weights of section 4.5. *)
Definition defaultWeight (s : Signal) : Z :=
  match s with
  | AmountAboveTrailingMean => 40
  | DateOutOfRange => 35
  | PersonalUseTerms => 25
  | SubmissionLag => 15
  | CurrencyMismatch => 10
  end.

(** Modelled from the spec: the reason a signal contributes, after the
    wording of section 4.5 (the scorer is missing). *)
Definition signalReason (s : Signal) : string :=
  match s with
  | AmountAboveTrailingMean => "amount more than 3x the trailing mean"
  | DateOutOfRange => "date incurred in the future or too old"
  | PersonalUseTerms => "description suggests personal use"
  | SubmissionLag => "submission lag beyond the threshold"
  | CurrencyMismatch => "currency mismatch without a USD amount"
  end.

Section Scorer.
(** The weights are configurable (section 9); which conditions a
    submission triggers is decided against the history the store
    provides. *)
Variable weight : Signal -> Z.
Variable triggered : Signal -> bool.

(** Modelled from the spec: the signals a submission triggers (the scorer
    is missing). *)
Definition contributing : list Signal := filter triggered allSignals.

(** Modelled from the spec: the additive score of section 4.5 before the
    cap (the scorer is missing). *)
Definition sumWeights (l : list Signal) : Z :=
    fold_right (fun s acc => weight s + acc)%Z 0%Z l.

(** Modelled from the spec: the stable, highest-weight-first order of
    section 4.5 (the scorer is missing); insertion keeps [s] ahead of what
    weighs no more. *)
Fixpoint insertByWeight (s : Signal) (l : list Signal) : list Signal :=
    match l with
    | [] => [s]
    | x :: rest =>
      if (weight x <=? weight s)%Z then s :: x :: rest
      else x :: insertByWeight s rest
    end.

(** Modelled from the spec: the same order, for a whole list (the scorer
    is missing). *)
Definition sortByWeight (l : list Signal) : list Signal :=
    fold_right insertByWeight [] l.

(** Modelled from the spec: the contributing signals, highest weight first
    (the scorer is missing). *)
Definition rankedSignals : list Signal := sortByWeight contributing.

(** Modelled from the spec: the Anomaly Scorer of section 4.5 (missing
    from the sources): the sum of the triggered weights capped at 100,
    and the contributing signals, highest weight first. *)
Definition scoreSubmission : AnomalySignal :=
    {| score := Z.min 100 (sumWeights contributing);
     reasons := map signalReason rankedSignals |}.
End Scorer.

Section Router.
(** [separator] joins the reasons; the specification asks for their
    concatenation and names no separator. *)
Variable separator : string.
Variable FLAG_THRESHOLD : Z.

(** Modelled from the spec: the concatenation of reasons of section 4.6
    (the router is missing). *)
Definition concatReasons (l : list string) : string := String.concat separator l.

(** Modelled from the spec: the Decision Router of section 4.6 (missing
    from the sources), its four rules in order. *)
Definition route (p : Policy.Policy) (amount : Q)
    (v : ValidationResult) (a : AnomalySignal) : Decision :=
    if negb (ok v)
    then {| state := Denied; decisionReason := concatReasons (map reason (violations v)) |}
    else if (FLAG_THRESHOLD <=? score a)%Z
    then {| state := Flagged; decisionReason := concatReasons (reasons a) |}
    else if Policy.requiresApproval p
          && negb (Qle_bool amount (Policy.approvalThreshold p))
    then {| state := Flagged; decisionReason := "explicit approval required" |}
    else {| state := Approved; decisionReason := "within policy, no anomalies" |}.

(** Modelled from the spec: sections 4.3 to 4.6 chained (the workflow
    that chains them is missing); a failed resolution denies with the
    reason of section 4.3. *)
Definition decide (policies : list Policy.Policy) (recognized : list string)
    (weight : Signal -> Z) (triggered : Signal -> bool)
    (sub : Submission.ExpenseSubmission) : Decision :=
    match resolvePolicy policies (Submission.category sub) with
    | inl NoPolicyError => {| state := Denied; decisionReason := "no applicable policy" |}
    | inr p =>
      route p (Submission.amount sub) (validate recognized p sub)
            (scoreSubmission weight triggered)
    end.
End Router.

End Pipeline.

(** ** More of the log viewer: labels and filters *)

Module LogsPageView.
Import Js LogsPage.

(** [toUpperCase] on the ASCII letters, the counterpart of [toLowerCase]. *)
Definition upperChar (c : ascii) : ascii :=
  let n := nat_of_ascii c in
  if (97 <=? n)%nat && (n <=? 122)%nat then ascii_of_nat (n - 32) else c.

Fixpoint toUpperCase (s : string) : string :=
  match s with
  | EmptyString => EmptyString
  | String c s' => String (upperChar c) (toUpperCase s')
  end.

Definition getSecurityTagLabel (eventType : string) : string :=
  let type := toLowerCase eventType in
  if includes type "not detected" || includes type "no prompt"
     || includes type "not_detected" || includes type "no filtering"
     || includes type "safe model" || includes type "passed"
  then toUpperCase eventType
  else if includes type "prompt injection" || includes type "prompt_injection"
          || includes type "injection detected" || includes type "filtering detected"
  then "⚠️ PROMPT INJECTION DETECTED"
  else if includes type "blacklist" then "⚠️ BLACKLISTED WORD DETECTED"
  else if includes type "bad_prompt" || includes type "bad prompt"
  then "⚠️ BAD PROMPT DETECTED"
  else if includes type "malicious" then "⚠️ MALICIOUS CONTENT"
  else if includes type "blocked" then "🚫 BLOCKED"
  else if includes type "vulnerability" then "⚠️ VULNERABILITY DETECTED"
  else if includes type "exploit" then "⚠️ EXPLOIT ATTEMPT"
  else if includes type "attack" then "⚠️ ATTACK DETECTED"
  else if includes type "threat" || includes type "security_alert"
  then "⚠️ SECURITY THREAT"
  else toUpperCase eventType.


(** The test [filteredLogs] applies to each log: the search box first,
    then the event-type selector. *)
Definition matchesFilters (searchQuery selectedEventType : string) (log : LogEntry)
  : bool :=
  let matchesSearch :=
    if isEmpty searchQuery then true
    else
      let query := toLowerCase searchQuery in
      includes (toLowerCase (message log)) query
      || includes (toLowerCase (workflow log)) query
      || includes (toLowerCase (node log)) query
      || includes (toLowerCase (executionId log)) query
      || includes (toLowerCase (userId log)) query in
  if negb matchesSearch then false
  else if negb (String.eqb selectedEventType "all")
          && negb (String.eqb (eventType log) selectedEventType)
  then false
  else true.

Definition filteredLogs (searchQuery selectedEventType : string) (logs : list LogEntry)
  : list LogEntry :=
  filter (matchesFilters searchQuery selectedEventType) logs.

End LogsPageView.

(** ** A row of the log list *)

Module LogsPageRow.
Import Js LogsPage.

(** What the row of a log shows of the verdicts: the class of the
    event-type badge and whether the badge holds the siren with the threat
    label, whether the workflow and the node are shown as critical badges,
    and whether the message has the class [log-message--threat]. *)
Record Row : Type := {
  eventTypeClass : string;
  eventTypeAlarm : bool;
  workflowAlarm : bool;
  nodeAlarm : bool;
  messageThreat : bool
}.

(** The body of [filteredLogs.map] in the page's JSX; the node is shown
    when it is not empty and not unknown. *)
Definition renderRow (log : LogEntry) : Row :=
  {| eventTypeClass := getEventTypeClass (eventType log);
     eventTypeAlarm := isSecurityThreat (eventType log);
     workflowAlarm := isSecurityThreat (workflow log);
     nodeAlarm := negb (isEmpty (node log))
                  && negb (String.eqb (node log) "unknown")
                  && isSecurityThreat (node log);
     messageThreat := fst (messageIsThreat log) |}.

(** A row is highlighted as a security threat when one of its parts is. *)
Definition highlighted (row : Row) : bool :=
  String.eqb (eventTypeClass row) "log-badge log-badge--critical"
  || eventTypeAlarm row || workflowAlarm row || nodeAlarm row || messageThreat row.

End LogsPageRow.

(** ** More of the new-expense form: the receipt input and the edits *)

Module NewExpensePageView.
Import Js Types N8nClient NewExpensePage.

(** [handleReceiptChange]: [file] is [e.target.files?.[0] || null]. *)
Definition handleReceiptChange (file : option string) (prev : Form.ExpenseFormData)
  : Form.ExpenseFormData :=
  {| Form.employeeId := Form.employeeId prev; Form.category := Form.category prev;
     Form.amount := Form.amount prev; Form.currency := Form.currency prev;
     Form.description := Form.description prev; Form.vendor := Form.vendor prev;
     Form.paymentMethod := Form.paymentMethod prev;
     Form.dateIncurred := Form.dateIncurred prev;
     Form.reimbursementType := Form.reimbursementType prev;
     Form.receiptFile := file |}.

(** The [name] attributes of the inputs whose [onChange] is
    [handleInputChange]; the employee id is shown read-only and the receipt
    has a handler of its own. *)
Definition inputNames : list string :=
  [ "category"; "amount"; "currency"; "dateIncurred"; "vendor";
    "paymentMethod"; "reimbursementType"; "description" ].

(** What the user can do to the form: change an input, or pick a receipt. *)
Inductive FormEvent : Type :=
  | InputChange (name value : string)
  | ReceiptChange (file : option string).

Definition applyEvent (w : World) (form : Form.ExpenseFormData) (event : FormEvent)
  : Form.ExpenseFormData :=
  match event with
  | InputChange name value => handleInputChange w name value form
  | ReceiptChange file => handleReceiptChange file form
  end.

(** The form after a sequence of events, the first one first. *)
Definition applyEvents (w : World) (events : list FormEvent) (form : Form.ExpenseFormData)
  : Form.ExpenseFormData :=
  fold_left (applyEvent w) events form.

(** The transactionId a request carries, when it submits an expense. *)
Definition submittedTransactionId (request : Request) : option string :=
  match body request with
  | SubmitExpenseBody payload => Some (Complete.transactionId (expense payload))
  | _ => None
  end.

(** The decimal digit [d], for [d] below ten. *)
Definition digitChar (d : N) : ascii := ascii_of_N (48 + d).

(** The last three decimal digits of [n], zeros included. *)
Definition threeDigits (n : N) : string :=
  String (digitChar (n / 100 mod 10))
    (String (digitChar (n / 10 mod 10)) (String (digitChar (n mod 10)) EmptyString)).

End NewExpensePageView.

(** ** The names of the statuses *)

Module StatusNames.
Import Types.

(** The string each [ExpenseStatus] is in types/expense.ts. *)
Definition statusName (status : ExpenseStatus) : string :=
  match status with
  | Pending => "pending"
  | Approved => "approved"
  | Denied => "denied"
  | Flagged => "flagged"
  end.

End StatusNames.

(** ** What the remaining functions need of the JavaScript engine *)

Module JsEngine.
Import Js.

(** The conversions [Js] does not compute itself. *)
Record Engine : Type := {
(** [String(n)] for a number that is no whole number up to 2^53 *)
  numberToString : number -> string;
(** [Number(s)] *)
  stringToNumber : string -> number;
(** [s.length], in UTF-16 code units *)
  utf16Length : string -> N;
(** [a + b] on two numbers, rounded as the engine rounds it *)
  plus : number -> number -> number;
(** [JSON.stringify(v)] for a value [JSON.parse] returned *)
  JSON_stringify : value -> string
}.

Definition ofZ (z : Z) : number := Finite (inject_Z z).

Definition ofNat (n : nat) : number := ofZ (Z.of_nat n).

Definition wholeNumber (q : Q) : option Z :=
  if (Qnum q mod Z.pos (Qden q) =? 0)%Z
  then Some (Qnum q / Z.pos (Qden q))%Z
  else None.

(** [String(n)]: a whole number up to 2^53 is written with all its
    digits. *)
Definition numberText (engine : Engine) (n : number) : string :=
  match n with
  | NaN => "NaN"
  | PosInfinity => "Infinity"
  | NegInfinity => "-Infinity"
  | Finite q =>
      match wholeNumber q with
      | Some z =>
          if (Z.abs z <=? 2 ^ 53)%Z
          then if (z <? 0)%Z then "-" ++ N_toString (Z.abs_N z)
               else N_toString (Z.to_N z)
          else numberToString engine n
      | None => numberToString engine n
      end
  end.

(** The string a value converts to, when the conversion does not throw:
    an object without a [toString] of its own is converted by
    [Object.prototype.toString], an array by [join] with a comma. *)
Fixpoint textOf (engine : Engine) (v : value) {struct v} : string :=
  match v with
  | VUndefined => "undefined"
  | VNull => "null"
  | VBool true => "true"
  | VBool false => "false"
  | VNumber n => numberText engine n
  | VString s => s
  | VArray items =>
      String.concat ","
        (map (fun item =>
                match item with
                | VUndefined | VNull => EmptyString
                | _ => textOf engine item
                end) items)
  | VObject _ => "[object Object]"
  end.

(** [String(v)], which is also what a template literal does to [v]. *)
Definition ToString (engine : Engine) (v : value) : outcome string :=
  if toStringThrows v then Threw cannotConvert else Returned (textOf engine v).

(** [items.join(separator)] *)
Definition join (engine : Engine) (separator : string) (items : list value)
  : outcome string :=
  if existsb toStringThrows items then Threw cannotConvert
  else Returned
         (String.concat separator
            (map (fun item =>
                    match item with
                    | VUndefined | VNull => EmptyString
                    | _ => textOf engine item
                    end) items)).

(** The number a value converts to, when the conversion does not throw. *)
Definition numberOf (engine : Engine) (v : value) : number :=
  match v with
  | VUndefined => NaN
  | VNull => Finite 0
  | VBool b => Finite (if b then 1 else 0)
  | VNumber n => n
  | VString s => stringToNumber engine s
  | VArray _ => stringToNumber engine (textOf engine v)
  | VObject _ => NaN
  end.

(** [Number(v)]: an object or an array is converted to a primitive first,
    which throws where the conversion to a string does. *)
Definition ToNumber (engine : Engine) (v : value) : outcome number :=
  if toStringThrows v then Threw cannotConvert else Returned (numberOf engine v).

(** [v > 0] *)
Definition greaterThanZero (engine : Engine) (v : value) : outcome bool :=
  n <- ToNumber engine v ;;
  Returned match n with
           | NaN => false
           | _ => negb (leZero n)
           end.

(** [v?.length] *)
Definition lengthOf (engine : Engine) (v : value) : value :=
  match v with
  | VArray items => VNumber (ofNat (List.length items))
  | VString s => VNumber (ofZ (Z.of_N (utf16Length engine s)))
  | VObject fields => lookup "length" fields
  | _ => VUndefined
  end.

End JsEngine.

(** ** n8nClient.ts: the dashboard, the file upload and the chat *)

Module EmployeeDashboard.
Import Js Types N8nClient JsEngine.

(** [e.status === "pending"] and the like. *)
Definition statusIs (wanted : string) (e : Sheet.Expense) : bool :=
  String.eqb (StatusNames.statusName (Sheet.status e)) wanted.

Record Stats : Type := {
  pendingCount : nat;
  approvedCount : nat;
  deniedCount : nat;
  reimbursementTotal : number
}.


Definition statsOf (engine : Engine) (expenses : list Sheet.Expense) : Stats :=
  {| pendingCount := List.length (filter (statusIs "pending") expenses);
     approvedCount := List.length (filter (statusIs "approved") expenses);
     deniedCount := List.length (filter (statusIs "denied") expenses);
     reimbursementTotal :=
       fold_left (fun sum e => plus engine sum (Sheet.amount e))
                 (filter (statusIs "approved") expenses) (Finite 0) |}.


End EmployeeDashboard.

Module CsvUpload.
Import Js Types N8nClient JsEngine.

(** A [File]: its name, its type and its bytes. *)
Record File : Type := {
  fileName : string;
  fileType : string;
  fileData : string
}.

(** An entry of a [FormData]. *)
Inductive FormDataEntry : Type :=
  | FileEntry (file : File) (filename : string)
  | TextEntry (text : string).

Record UploadRequest : Type := {
  uploadUrl : string;
  uploadMethod : string;
  formData : list (string * FormDataEntry)
}.

(** The object [submitExpenseCSV] resolves to; a property the source
    leaves out reads as [undefined]. *)
Record CsvResult : Type := {
  success : bool;
  message : value;
  validatedRows : value;
  errors : value
}.

Definition roleString (role : UserRole) : string :=
  match role with Employee => "employee" | Admin => "admin" end.

Definition uploadForm (file : File) (role : UserRole) (idToken : option string)
  : list (string * FormDataEntry) :=
  ([ ("data", FileEntry file (fileName file)) ]
   ++ match idToken with
      | Some token => if isEmpty token then [] else [ ("idToken", TextEntry token) ]
      | None => []
      end
   ++ [ ("role", TextEntry (roleString role)) ])%list.

(** The body the answer is about: n8n answers with an array
    [[{body, statusCode}]], an object [{body}] or the body itself. *)
Definition extractBody (result : value) : outcome value :=
  match result with
  | VArray (first :: _) =>
      firstBody <- get first "body" ;;
      Returned (or_ firstBody first)
  | _ =>
      resultBody <- get result "body" ;;
      Returned (or_ resultBody result)
  end.

(** [messages?.join(", ")]: only an array has a [join] to call. *)
Definition joinMessages (engine : Engine) (messages : value) : outcome value :=
  match messages with
  | VUndefined | VNull => Returned VUndefined
  | VArray items => joined <- join engine ", " items ;; Returned (VString joined)
  | _ => Threw (ErrorObject "body.messages?.join is not a function")
  end.

(** The part of [submitExpenseCSV] after [JSON.parse] has succeeded. *)
Definition resultOfParsed (engine : Engine) (result : value) : outcome CsvResult :=
  body <- extractBody result ;;
  allowed <- get body "allowed" ;;
  if strictEq allowed (VBool false) then
    joined <- joinMessages engine (getOptional body "messages") ;;
    Returned {| success := false;
                message := or_ (or_ joined (getOptional body "error"))
                               (VString "Validation failed");
                validatedRows := VUndefined;
                errors := or_ (getOptional body "messages")
                              (VArray [ getOptional body "error" ]) |}
  else
    let validatedCount :=
      or_ (lengthOf engine (getOptional body "validated_data")) (VNumber (Finite 0)) in
    positive <- greaterThanZero engine validatedCount ;;
    summary <- (if positive : bool
                then count <- ToString engine validatedCount ;;
                     Returned ("Successfully processed " ++ count ++ " expense(s)")
                else Returned "File uploaded and processed successfully") ;;
    Returned {| success := true;
                message := VString summary;
                validatedRows := validatedCount;
                errors := VUndefined |}.

(** [fetchUpload] is [fetch] on the request of this function. *)
Definition submitExpenseCSV (engine : Engine) (w : World)
    (fetchUpload : UploadRequest -> outcome Response)
    (file : File) (role : UserRole) : outcome CsvResult :=
  idToken <- getIdToken w ;;
  tryCatch
    (response <- fetchUpload
                   {| uploadUrl := N8N_BASE_URL w ++ "/webhook/Lighthouse-input";
                      uploadMethod := "POST";
                      formData := uploadForm file role idToken |} ;;
     responseText <- text response ;;
     if negb (ok response) then
       Threw (ErrorObject ("HTTP error! status: " ++ N_toString (status response)))
     else if isEmpty responseText || isEmpty (trim responseText) then
       Returned {| success := true;
                   message := VString "File uploaded and processed successfully.";
                   validatedRows := VUndefined;
                   errors := VUndefined |}
     else
       match JSON_parse w responseText with
       | Threw _ =>
           Returned {| success := true;
                       message := VString responseText;
                       validatedRows := VUndefined;
                       errors := VUndefined |}
       | Returned result => resultOfParsed engine result
       end)
    (fun error =>
       Returned {| success := false;
                   message :=
                     VString match error with
                             | ErrorObject m => m
                             | OtherValue => "Failed to upload file. Please try again."
                             end;
                   validatedRows := VUndefined;
                   errors := VUndefined |}).

End CsvUpload.

(** ** NewExpensePage: the CSV tab *)

Module CsvUploadPage.
Import Js Types N8nClient JsEngine.

Record PageState : Type := {
  csvFile : option CsvUpload.File;
  csvFileData : option string;
  loading : bool;
  error : option value;
  success : option value;
  navigateScheduled : bool
}.

(** [handleCsvChange] up to its [await]: [file] is
    [e.target.files?.[0] || null].  The file is set at once; with no file
    the bytes are cleared and the handler is done. *)
Definition handleCsvChangeBegins (file : option CsvUpload.File) (st : PageState)
  : PageState :=
  match file with
  | Some f =>
      {| csvFile := Some f; csvFileData := csvFileData st;
         loading := loading st; error := error st; success := success st;
         navigateScheduled := navigateScheduled st |}
  | None =>
      {| csvFile := None; csvFileData := None;
         loading := loading st; error := error st; success := success st;
         navigateScheduled := navigateScheduled st |}
  end.

(** [handleCsvChange] after its [await], on the state of that moment:
    [read] is what [file.arrayBuffer()] settled to. *)
Definition handleCsvChangeSettles (read : outcome string) (st : PageState) : PageState :=
  match read with
  | Returned arrayBuffer =>
      {| csvFile := csvFile st; csvFileData := Some arrayBuffer;
         loading := loading st; error := error st; success := success st;
         navigateScheduled := navigateScheduled st |}
  | Threw _ =>
      {| csvFile := None; csvFileData := None;
         loading := loading st;
         error := Some (VString "Failed to read file. Please try again.");
         success := success st;
         navigateScheduled := navigateScheduled st |}
  end.

(** [handleCsvChange] when nothing else happens between its two halves. *)
Definition handleCsvChange (file : option CsvUpload.File) (read : outcome string)
    (st : PageState) : PageState :=
  match file with
  | Some _ => handleCsvChangeSettles read (handleCsvChangeBegins file st)
  | None => handleCsvChangeBegins file st
  end.

(** [handleCsvSubmit]; [role] is the role of [useAuth()]. *)
Definition handleCsvSubmit (engine : Engine) (w : World)
    (fetchUpload : CsvUpload.UploadRequest -> outcome Response)
    (role : option UserRole) (st : PageState) : PageState :=
  match csvFile st, csvFileData st with
  | Some file, Some data =>
      let freshFile :=
        {| CsvUpload.fileName := CsvUpload.fileName file;
           CsvUpload.fileType := CsvUpload.fileType file;
           CsvUpload.fileData := data |} in
      match CsvUpload.submitExpenseCSV engine w fetchUpload freshFile
              (match role with Some r => r | None => Employee end) with
      | Returned result =>
          if CsvUpload.success result
          then match (shown <- ToString engine (CsvUpload.message result) ;;
                      rows <- ToString engine (CsvUpload.validatedRows result) ;;
                      Returned (shown ++ " (" ++ rows ++ " rows processed)")) with
               | Returned text =>
                   {| csvFile := csvFile st; csvFileData := csvFileData st;
                      loading := false;
                      error := None;
                      success := Some (VString text);
                      navigateScheduled := true |}
               | Threw _ =>
                   {| csvFile := csvFile st; csvFileData := csvFileData st;
                      loading := false;
                      error := Some (VString "Failed to upload CSV. Please try again.");
                      success := None;
                      navigateScheduled := navigateScheduled st |}
               end
          else {| csvFile := csvFile st; csvFileData := csvFileData st;
                  loading := false;
                  error := Some (CsvUpload.message result);
                  success := None;
                  navigateScheduled := navigateScheduled st |}
      | Threw _ =>
          {| csvFile := csvFile st; csvFileData := csvFileData st;
             loading := false;
             error := Some (VString "Failed to upload CSV. Please try again.");
             success := None;
             navigateScheduled := navigateScheduled st |}
      end
  | _, _ =>
      {| csvFile := csvFile st; csvFileData := csvFileData st;
         loading := loading st;
         error := Some (VString "Please select a CSV file to upload.");
         success := None;
         navigateScheduled := navigateScheduled st |}
  end.

End CsvUploadPage.

Module Chat.
Import Js Types N8nClient JsEngine.

Record ChatPayload : Type := {
  text : string;
  role : UserRole;
  idToken : option string
}.

Record ChatRequest : Type := {
  url : string;
  method : string;
  contentType : string;
  body : ChatPayload
}.

Record ChatResult : Type := {
  success : bool;
  message : value
}.

(** [jsonResult.output || jsonResult.text || jsonResult.message ||
    jsonResult.response || JSON.stringify(jsonResult)] *)
Definition replyOf (engine : Engine) (jsonResult : value) : outcome value :=
  output <- get jsonResult "output" ;;
(* the first read has succeeded: [jsonResult] is neither null nor undefined *)
  let r := getOptional jsonResult in
  Returned (or_ (or_ (or_ (or_ output (r "text")) (r "message")) (r "response"))
                (VString (JSON_stringify engine jsonResult))).

(** [fetchChat] is [fetch] on the request of this function. *)
Definition sendChatMessage (engine : Engine) (w : World)
    (fetchChat : ChatRequest -> outcome Response)
    (message : string) (role : UserRole) : outcome ChatResult :=
  idToken <- getIdToken w ;;
  tryCatch
    (response <- fetchChat
                   {| url := N8N_BASE_URL w ++ "/webhook/Lighthouse-input";
                      method := "POST";
                      contentType := "application/json";
                      body := {| text := message; role := role; idToken := idToken |} |} ;;
     responseText <- N8nClient.text response ;;
     if negb (ok response) then
       Threw (ErrorObject ("HTTP error! status: " ++ N_toString (status response)))
     else if isEmpty responseText || isEmpty (trim responseText) then
       Returned {| success := true;
                   message :=
                     VString "Request processed, but no response was returned." |}
     else
       result <- tryCatch (jsonResult <- JSON_parse w responseText ;;
                           replyOf engine jsonResult)
                          (fun _ => Returned (VString responseText)) ;;
       Returned {| success := true; message := result |})
    (fun error =>
       Returned {| success := false;
                   message :=
                     VString match error with
                             | ErrorObject m => m
                             | OtherValue =>
                                 "Sorry, I couldn't process your request. Please try again."
                             end |}).

End Chat.

(** ** Concrete worlds for the examples *)

Module Samples.
Import Js Types N8nClient.

Definition digitValue (c : ascii) : option Z :=
  let n := nat_of_ascii c in
  if (48 <=? n)%nat && (n <=? 57)%nat then Some (Z.of_nat (n - 48)) else None.

(** The digits at the head of [s], as (value, how many, the rest). *)
Fixpoint readDigits (s : string) (acc : Z) (count : nat) : Z * nat * string :=
  match s with
  | EmptyString => (acc, count, s)
  | String c s' =>
    match digitValue c with
    | Some d => readDigits s' (acc * 10 + d)%Z (S count)
    | None => (acc, count, s)
    end
  end.

(** [parseFloat] on plain decimal text: white space, a sign, digits, a
    fraction; what follows the number is ignored, and text that starts with
    no number gives [NaN].  Exponents and [Infinity] are left out. *)
Definition parseDecimal (text : string) : number :=
  let s := trimStart text in
  let (negative, s1) :=
  match s with
  | String "-" r => (true, r)
  | String "+" r => (false, r)
  | _ => (false, s)
  end in
  let '(whole, nWhole, s2) := readDigits s1 0%Z 0%nat in
  let '(frac, nFrac, _) :=
  match s2 with
  | String "." r => readDigits r 0%Z 0%nat
  | _ => (0%Z, 0%nat, s2)
  end in
  if (nWhole + nFrac =? 0)%nat then NaN
  else
  let scale := Z.pow 10 (Z.of_nat nFrac) in
  let magnitude := (whole * scale + frac)%Z in
  Finite (Qmake (if negative then - magnitude else magnitude) (Z.to_pos scale)).

Definition parseFloatSample (v : value) : number :=
  match v with
  | VNumber n => n
  | VString s => parseDecimal s
  | _ => NaN
  end.

(** [JSON.parse] on the one body the examples receive; other text is
    refused with a [SyntaxError]. *)
Definition parseKnownBody (text : string) : outcome value :=
  if String.eqb text Workflow.successResponseText
  then Returned Workflow.successResponseValue
  else Threw (ErrorObject "Unexpected token in JSON").

(** A signed-in employee at the given instant. *)
Definition worldAt (now : N) (iso : string) : World :=
  {| REACT_APP_N8N_BASE_URL := None;
   currentUser := Some (Returned "id-token");
   JSON_parse := parseKnownBody;
   parseFloat := parseFloatSample;
   Date_now := now;
   Date_toISOString := iso |}.

(** The same, with a token refresh that fails. *)
Definition worldWithoutToken (now : N) (iso : string) : World :=
  {| REACT_APP_N8N_BASE_URL := None;
   currentUser := Some (Threw (ErrorObject "auth/network-request-failed"));
   JSON_parse := parseKnownBody;
   parseFloat := parseFloatSample;
   Date_now := now;
   Date_toISOString := iso |}.

(** A network that is down: every [fetch] rejects. *)
Definition offline : Net :=
  {| respond := fun _ _ => Threw (ErrorObject "Failed to fetch"); sent := [] |}.

(** A network whose every answer is an empty body. *)
Definition emptyAnswers : Net :=
  {| respond := fun _ _ =>
     Returned {| ok := true; status := 200%N; text := Returned EmptyString |};
   sent := [] |}.

(** A network, nothing sent yet, whose every answer is ok and holds the
    documented success response. *)
Definition workflowNet : Net :=
  {| respond := fun _ _ =>
       Returned {| ok := true; status := 200%N;
                   text := Returned Workflow.successResponseText |};
     sent := [] |}.

(** A filled-in form. *)
Definition taxiForm (amount : Q) : Form.ExpenseFormData :=
  {| Form.employeeId := "EMP-401";
   Form.category := "Travel";
   Form.amount := Finite amount;
   Form.currency := "USD";
   Form.description := "Taxi to the airport";
   Form.vendor := "City Cabs";
   Form.paymentMethod := "Personal Card";
   Form.dateIncurred := "2025-09-10";
   Form.reimbursementType := "Employee";
   Form.receiptFile := None |}.

(** An expense as the mock lists of the admin pages hold it. *)
Definition mockExpense (id transactionId employeeId category description : string)
    (amount : Q) (status : ExpenseStatus) : Sheet.Expense :=
  {| Sheet.id := VString id;
     Sheet.transactionId := VString transactionId;
     Sheet.employeeId := VString employeeId;
     Sheet.category := VString category;
     Sheet.amount := Finite amount;
     Sheet.amountUSD := Some (Finite amount);
     Sheet.currency := VString "USD";
     Sheet.description := VString description;
     Sheet.vendor := VUndefined;
     Sheet.dateIncurred := VString "2024-01-20";
     Sheet.dateSubmitted := VString "2024-01-21";
     Sheet.status := status;
     Sheet.paymentMethod := VString "Personal Card";
     Sheet.reimbursementType := VString "Employee";
     Sheet.receiptAttached := "Y" |}.

(** exp-201 of [mockFlaggedExpenses] and exp-101 of [mockPendingExpenses]. *)
Definition exp201 : Sheet.Expense :=
  mockExpense "exp-201" "T-201" "EMP-405" "Meals & Entertainment"
    "Client dinner - high-end restaurant" 1250 Flagged.

Definition exp101 : Sheet.Expense :=
  mockExpense "exp-101" "T-101" "EMP-402" "Travel"
    "Hotel stay - 3 nights in San Francisco" 750 Pending.

(** An admin's review page after a click on [expense]. *)
Definition reviewing (listed : list Sheet.Expense) (expense : Sheet.Expense)
  : AdminReviewPage.PageState :=
  AdminReviewPage.handleRowClick expense
    {| AdminReviewPage.expenses := listed;
       AdminReviewPage.selectedExpense := None;
       AdminReviewPage.decisionReason := EmptyString;
       AdminReviewPage.processing := false;
       AdminReviewPage.error := None;
       AdminReviewPage.success := None |}.

Definition pageWith (form : Form.ExpenseFormData) : NewExpensePage.PageState :=
  {| NewExpensePage.formData := form;
   NewExpensePage.loading := false;
   NewExpensePage.error := None;
   NewExpensePage.success := None;
   NewExpensePage.navigateScheduled := false |}.

End Samples.

(** ** Answers for the examples of the dashboard, the upload and the chat *)

Module Replies.
Import Js Types N8nClient JsEngine.

(** An engine for the examples, which meet whole numbers and ASCII text
    only: the length of a text is its number of characters, a sum is the
    exact one, and the two printers are never reached. *)
Definition plainEngine : Engine :=
  {| numberToString := fun _ => "NaN";
     stringToNumber := Samples.parseDecimal;
     utf16Length := fun s => N.of_nat (String.length s);
     plus := fun a b =>
               match a, b with
               | Finite p, Finite q => Finite (p + q)
               | _, _ => NaN
               end;
     JSON_stringify := fun _ => "null" |}.

(** A signed-in employee whose [JSON.parse] knows the one text [known],
    which it reads as [parsed]; other text is refused with a
    [SyntaxError]. *)
Definition worldParsing (known : string) (parsed : value) : World :=
  {| REACT_APP_N8N_BASE_URL := None;
     currentUser := Some (Returned "id-token");
     JSON_parse := fun text =>
                     if String.eqb text known then Returned parsed
                     else Threw (ErrorObject "Unexpected token in JSON");
     parseFloat := Samples.parseFloatSample;
     Date_now := 1700000000123%N;
     Date_toISOString := "2023-11-14T22:13:20.123Z" |}.

(** An answer with status 200 and the given body. *)
Definition okResponse (body : string) : Response :=
  {| ok := true; status := 200%N; text := Returned body |}.

(** A network whose every answer is [okResponse body]. *)
Definition answering (body : string) : Net :=
  {| respond := fun _ _ => Returned (okResponse body); sent := [] |}.

(** Two rows of the sheet, as the fetch-expenses webhook lists them. *)
Definition sheetRows : list value :=
  [ VObject [ ("TransactionID", VString "T-123500"); ("EmployeeID", VString "EMP-401");
              ("Category", VString "Travel"); ("Status", VString "Approved") ];
    VObject [ ("TransactionID", VString "T-123501"); ("EmployeeID", VString "EMP-401");
              ("Category", VString "Meals"); ("Status", VString "Flagged") ] ].

Definition report : CsvUpload.File :=
  {| CsvUpload.fileName := "report.csv";
     CsvUpload.fileType := "text/csv";
     CsvUpload.fileData := "EmployeeID,Amount" |}.

(** The CSV tab with [report] chosen and read. *)
Definition reportChosen : CsvUploadPage.PageState :=
  CsvUploadPage.handleCsvChange (Some report) (Returned (CsvUpload.fileData report))
    {| CsvUploadPage.csvFile := None;
       CsvUploadPage.csvFileData := None;
       CsvUploadPage.loading := false;
       CsvUploadPage.error := None;
       CsvUploadPage.success := None;
       CsvUploadPage.navigateScheduled := false |}.

End Replies.

(** * Properties *)

(** ** Strings *)

Lemma lowerChar_idempotent (c : ascii) :
  Js.lowerChar (Js.lowerChar c) = Js.lowerChar c.
Proof.
  destruct c as [[] [] [] [] [] [] [] []]; reflexivity.
Qed.

Lemma toLowerCase_idempotent (s : string) :
  Js.toLowerCase (Js.toLowerCase s) = Js.toLowerCase s.
Proof.
  induction s as [| c s IH]; simpl.
  - reflexivity.
  - now rewrite lowerChar_idempotent, IH.
Qed.

(** ** The log viewer *)

Section LogsPageFacts.
Import Js LogsPage.

(** The verdict is computed from the lower-cased copy alone, so text that
    is already lower case gets the verdict of the original. *)
Lemma isSecurityThreat_toLowerCase (eventType : string) :
  isSecurityThreat (toLowerCase eventType) = isSecurityThreat eventType.
Proof.
  unfold isSecurityThreat.
  now rewrite toLowerCase_idempotent.
Qed.

Lemma isSecurityThreat_marker (eventType marker : string) :
  In marker negativeMarkers ->
  includes (toLowerCase eventType) marker = true ->
  isSecurityThreat eventType = false.
Proof.
  unfold negativeMarkers, isSecurityThreat.
  intros Hin Hinc.
  simpl in Hin.
  repeat (destruct Hin as [<- | Hin];
          [ rewrite Hinc; rewrite ?orb_true_r; reflexivity | ]).
  contradiction.
Qed.

Lemma messageIsThreat_fst (log : LogEntry) :
  fst (messageIsThreat log)
  = isSecurityThreat (message log) || isSecurityThreat (node log)
    || isSecurityThreat (workflow log).
Proof.
  unfold messageIsThreat, classify, readField.
  destruct (isSecurityThreat (message log)); [reflexivity |].
  destruct (isSecurityThreat (node log)); reflexivity.
Qed.

(** C10, as the code has it. An event type that contains, in any letter
    case, one of the markers "not detected", "no prompt", "not_detected",
    "no filtering", "safe model" or "passed" is no security threat for
    [isSecurityThreat], whatever threat keywords it also contains, so the
    event-type badge of its row is not the critical one and holds no
    alarm.  The rest of the row is judged on its own text: the row is
    highlighted exactly when [isSecurityThreat] holds of the log's message,
    node or workflow. *)
Theorem negative_marker_clears_the_event_type_badge_only
    (eventType marker : string) :
  In marker negativeMarkers ->
  includes (toLowerCase eventType) marker = true ->
  isSecurityThreat eventType = false
  /\ (forall tag, In tag SECURITY_THREAT_TAGS ->
                  includes (toLowerCase eventType) tag = true ->
                  isSecurityThreat eventType = false)
  /\ getEventTypeClass eventType <> "log-badge log-badge--critical"
  /\ (forall log,
        LogsPage.eventType log = eventType ->
        LogsPageRow.eventTypeAlarm (LogsPageRow.renderRow log) = false
        /\ LogsPageRow.eventTypeClass (LogsPageRow.renderRow log)
           <> "log-badge log-badge--critical"
        /\ LogsPageRow.highlighted (LogsPageRow.renderRow log)
           = isSecurityThreat (message log) || isSecurityThreat (node log)
             || isSecurityThreat (workflow log)).
Proof.
  intros Hin Hinc.
  assert (Hno : isSecurityThreat eventType = false)
    by (eapply isSecurityThreat_marker; eassumption).
  assert (Hclass : getEventTypeClass eventType <> "log-badge log-badge--critical").
  { unfold getEventTypeClass.
    rewrite isSecurityThreat_toLowerCase, Hno.
    repeat match goal with
           | |- context [if ?b then _ else _] => destruct b
           end; discriminate. }
  split; [exact Hno |]. split; [auto |]. split; [exact Hclass |].
  intros log <-.
  unfold LogsPageRow.highlighted, LogsPageRow.renderRow.
  cbn [LogsPageRow.eventTypeAlarm LogsPageRow.eventTypeClass LogsPageRow.workflowAlarm
       LogsPageRow.nodeAlarm LogsPageRow.messageThreat].
  split; [exact Hno |]. split; [exact Hclass |].
  apply String.eqb_neq in Hclass. rewrite Hclass, Hno, messageIsThreat_fst.
  destruct (isSecurityThreat (message log)), (isSecurityThreat (node log)),
    (isSecurityThreat (workflow log)), (negb (isEmpty (node log))),
    (negb (String.eqb (node log) "unknown")); reflexivity.
Qed.

(** Here the event type holds three threat keywords next to the marker, and
    nothing else in the row is a threat. *)
Lemma negative_marker_clears_the_event_type_badge_only_witness :
  let log := {| timestamp := "2025-09-11T10:00:00.000Z";
                message := "Description screened";
                workflow := "expense-intake";
                node := "Security Filter";
                eventType := "Exploit ATTACK on blacklist: PASSED";
                executionId := "41";
                userId := "EMP-401" |} in
  isSecurityThreat "Exploit ATTACK on blacklist: PASSED" = false
  /\ getEventTypeClass "Exploit ATTACK on blacklist: PASSED"
     = "log-badge log-badge--success"
  /\ LogsPageRow.highlighted (LogsPageRow.renderRow log) = false.
Proof.
  intros log.
  destruct (negative_marker_clears_the_event_type_badge_only
              "Exploit ATTACK on blacklist: PASSED" "passed")
    as (Hno & _ & _ & Hrow); [simpl; tauto | reflexivity |].
  split; [exact Hno |]. split; [reflexivity |].
  destruct (Hrow log eq_refl) as (_ & _ & ->). reflexivity.
Defined.

(** C10 as stated fails: the event type of this log holds the marker
    passed, and its row is highlighted all the same, by its message. *)
Lemma marked_event_is_highlighted_by_its_message :
  let log := {| timestamp := "2025-09-11T10:00:00.000Z";
                message := "Prompt injection detected in description";
                workflow := "expense-intake";
                node := "Security Filter";
                eventType := "Schema check PASSED";
                executionId := "42";
                userId := "EMP-401" |} in
  includes (toLowerCase (eventType log)) "passed" = true
  /\ isSecurityThreat (eventType log) = false
  /\ LogsPageRow.messageThreat (LogsPageRow.renderRow log) = true
  /\ LogsPageRow.highlighted (LogsPageRow.renderRow log) = true.
Proof. repeat split. Qed.

(** C8. Classifying a field of a log entry is deterministic and reads
    only: the entry is the same after the call, a second run on it gives
    the same verdict, the verdict is a function of the text, and it is the
    verdict of the lower-cased copy the function works on, so any text with
    the same lower-cased copy gets it too. *)
Theorem classification_is_deterministic_and_read_only
    (field : LogEntry -> string) (log : LogEntry) :
  let (verdict1, log1) := classify field log in
  let (verdict2, log2) := classify field log1 in
  log1 = log /\ log2 = log /\ verdict2 = verdict1
  /\ verdict1 = isSecurityThreat (field log)
  /\ isSecurityThreat (toLowerCase (field log)) = verdict1
  /\ (forall other, toLowerCase other = toLowerCase (field log) ->
                    isSecurityThreat other = verdict1)
  /\ snd (messageIsThreat log) = log
  /\ fst (messageIsThreat (snd (messageIsThreat log))) = fst (messageIsThreat log).
Proof.
  unfold classify, readField; simpl.
  repeat split; auto using isSecurityThreat_toLowerCase.
  - intros other Hsame. unfold isSecurityThreat. now rewrite Hsame.
  - unfold messageIsThreat, classify, readField.
    destruct (isSecurityThreat (message log)); [reflexivity |].
    destruct (isSecurityThreat (node log)); reflexivity.
  - assert (Hsame : snd (messageIsThreat log) = log).
    { unfold messageIsThreat, classify, readField.
      destruct (isSecurityThreat (message log)); [reflexivity |].
      destruct (isSecurityThreat (node log)); reflexivity. }
    now rewrite Hsame.
Qed.

Example prompt_injection_detected_is_a_threat :
  isSecurityThreat "Prompt Injection Detected" = true
  /\ getEventTypeClass "Prompt Injection Detected" = "log-badge log-badge--critical".
Proof. split; reflexivity. Qed.

Example no_prompt_injection_is_no_threat :
  isSecurityThreat "No Prompt Injection" = false
  /\ isSecurityThreat "prompt_injection_not_detected" = false
  /\ getEventTypeClass "Filter PASSED, attack blocked" = "log-badge log-badge--success".
Proof. repeat split; reflexivity. Qed.

End LogsPageFacts.

(** ** The new-expense form *)

Section NewExpensePageFacts.
Import Js Types N8nClient NewExpensePage.

(** What [handleInputChange] stores as the amount is a number, never [NaN]. *)
Lemma parseAmount_is_a_number (w : World) (text : string) :
  parseAmount w text <> NaN.
Proof.
  unfold parseAmount.
  destruct (parseFloat w (VString text)); simpl; try discriminate.
  destruct (negb (Qeq_bool q 0)); discriminate.
Qed.

(** Text that is no number is stored as 0. *)
Lemma parseAmount_of_non_numeric (w : World) (text : string) :
  parseFloat w (VString text) = NaN -> parseAmount w text = Finite 0.
Proof.
  unfold parseAmount. intros ->. reflexivity.
Qed.

Lemma handleInputChange_amount (w : World) (text : string) (prev : Form.ExpenseFormData) :
  Form.amount (handleInputChange w "amount" text prev) = parseAmount w text.
Proof. reflexivity. Qed.

Lemma validateManualForm_amount (form : Form.ExpenseFormData) :
  leZero (Form.amount form) = true ->
  validateManualForm form =
    Some (if isEmpty (Form.category form)
          then "Please select a category."
          else "Amount must be greater than 0.").
Proof.
  intros H. unfold validateManualForm. rewrite H.
  destruct (isEmpty (Form.category form)); reflexivity.
Qed.

(** C5, as the code has it. A manual form whose amount is not positive, or
    whose amount was last typed as text that is no number, is refused by
    [handleManualSubmit]: the validator returns a message, the page shows it
    and no request is sent, so nothing downstream sees the submission.  The
    message is the amount error when a category is selected; without a
    category it is the category error, which the validator tests first. *)
Theorem amount_not_positive_is_refused
    (w : World) (role : option UserRole) (randomThousand : N)
    (st : PageState) (net : Net) :
  (leZero (Form.amount (formData st)) = true
   \/ exists text prev,
        parseFloat w (VString text) = NaN
        /\ formData st = handleInputChange w "amount" text prev) ->
  exists msg,
    validateManualForm (formData st) = Some msg
    /\ msg = (if isEmpty (Form.category (formData st))
              then "Please select a category."
              else "Amount must be greater than 0.")
    /\ handleManualSubmit w role randomThousand st net =
         ({| formData := formData st; loading := loading st;
             error := Some (VString msg); success := None;
             navigateScheduled := navigateScheduled st |}, net)
    /\ sent (snd (handleManualSubmit w role randomThousand st net)) = sent net.
Proof.
  intros H.
  assert (Hle : leZero (Form.amount (formData st)) = true).
  { destruct H as [H | (text & prev & Hnan & Hform)]; [exact H |].
    rewrite Hform, handleInputChange_amount, (parseAmount_of_non_numeric _ _ Hnan).
    reflexivity. }
  pose proof (validateManualForm_amount _ Hle) as Hv.
  eexists; split; [exact Hv |]; split; [reflexivity |].
  unfold handleManualSubmit. rewrite Hv. split; reflexivity.
Qed.

(** The amount of a complete form is retyped as "abc". *)
Lemma amount_not_positive_is_refused_witness :
  let w := Samples.worldAt 1700000000123 "2025-09-11T10:00:00.000Z" in
  let st := Samples.pageWith (handleInputChange w "amount" "abc" (Samples.taxiForm 42.10)) in
  exists msg,
    validateManualForm (formData st) = Some msg
    /\ msg = (if isEmpty (Form.category (formData st))
              then "Please select a category."
              else "Amount must be greater than 0.")
    /\ handleManualSubmit w None 500 st Samples.workflowNet =
         ({| formData := formData st; loading := loading st;
             error := Some (VString msg); success := None;
             navigateScheduled := navigateScheduled st |}, Samples.workflowNet)
    /\ sent (snd (handleManualSubmit w None 500 st Samples.workflowNet))
       = sent Samples.workflowNet.
Proof.
  intros w st.
  apply (amount_not_positive_is_refused w None 500 st Samples.workflowNet).
  right. exists "abc", (Samples.taxiForm 42.10). split; reflexivity.
Defined.

(** C5 as stated fails on the untouched form: its amount is 0, and the
    validator reports the missing category, not the amount. *)
Lemma untouched_form_reports_the_category :
  leZero (Form.amount (initialFormData "2025-09-11")) = true
  /\ validateManualForm (initialFormData "2025-09-11") = Some "Please select a category."
  /\ validateManualForm (initialFormData "2025-09-11")
     <> Some "Amount must be greater than 0.".
Proof.
  repeat split; discriminate.
Qed.

End NewExpensePageFacts.

(** ** The n8n client *)

Section N8nClientFacts.
Import Js Types N8nClient.

(** Once one property of a value has been read, reading another cannot
    throw: [mapSheetRowToExpense] reads the rest of the row with
    [getOptional]. *)
Lemma get_not_nullish (v : value) (key : string) :
  v <> VNull -> v <> VUndefined -> get v key = Returned (getOptional v key).
Proof.
  destruct v; intros Hn Hu; try reflexivity; congruence.
Qed.

(** The two calls once the id token has been obtained: each sends its one
    request and resolves; [submitExpense] turns every failure into
    [success: false] with a message, [fetchEmployeeExpenses] into the empty
    list. *)
Lemma calls_with_a_token
    (w : World) (net : Net) (token : option string) :
  getIdToken w = Returned token ->
  (forall data role,
     let request :=
       {| url := N8N_BASE_URL w ++ "/webhook/submit-expense"; method := "POST";
          body := SubmitExpenseBody
                    {| idToken := token; role := role;
                       submissionType := "manual"; expense := data |} |} in
     exists result,
       submitExpense w data role net
       = (Returned result,
          {| respond := respond net; sent := (sent net ++ [request])%list |})
       /\ (forall t, respond net (sent net) request = Threw t ->
             result = {| success := false;
                         message := VString match t with
                                            | ErrorObject m => m
                                            | OtherValue =>
                                                "Failed to submit expense. Please try again."
                                            end;
                         expenseId := VUndefined |})
       /\ (forall response errorText,
             respond net (sent net) request = Returned response ->
             ok response = false -> text response = Returned errorText ->
             result = {| success := false;
                         message := VString ("HTTP error! status: "
                                             ++ N_toString (status response));
                         expenseId := VUndefined |})
       /\ (success result = true ->
             exists response parsed,
               respond net (sent net) request = Returned response
               /\ ok response = true /\ json w response = Returned parsed))
  /\ (forall employeeId,
        let request :=
          {| url := N8N_BASE_URL w ++ "/webhook/fetch-expenses"; method := "POST";
             body := FetchExpensesBody "fetch_expenses" employeeId "employee" token |} in
        exists expenses,
          fetchEmployeeExpenses w employeeId net
          = (Returned expenses,
             {| respond := respond net; sent := (sent net ++ [request])%list |})
          /\ (forall t, respond net (sent net) request = Threw t -> expenses = [])
          /\ (forall response t,
                respond net (sent net) request = Returned response ->
                text response = Threw t -> expenses = [])
          /\ (forall response responseText t,
                respond net (sent net) request = Returned response ->
                text response = Returned responseText ->
                JSON_parse w responseText = Threw t -> expenses = [])).
Proof.
  intros Htoken. split.
  - intros data role request.
    unfold submitExpense, bindC, tryCatchC, lift, fetch, retC, throwC.
    rewrite Htoken. fold request.
    destruct (respond net (sent net) request) as [response | t] eqn:Hresp.
    + destruct (ok response) eqn:Hok; simpl.
      * unfold json, bind.
        destruct (text response) as [bodyText | t] eqn:Htext.
        -- destruct (JSON_parse w bodyText) as [parsed | t] eqn:Hparse.
           ++ destruct parsed; simpl;
                (eexists; split; [reflexivity |]);
                (split; [discriminate |]);
                (split; [intros ? ? [= <-] Hno; congruence |]);
                try discriminate;
                intros _; exists response; eexists;
                (split; [reflexivity |]); (split; [assumption |]);
                rewrite Htext; exact Hparse.
           ++ eexists; split; [reflexivity |].
              split; [discriminate |].
              split; [intros ? ? [= <-] Hno; congruence | discriminate].
        -- eexists; split; [reflexivity |].
           split; [discriminate |].
           split; [intros ? ? [= <-] Hno; congruence | discriminate].
      * destruct (text response) as [errorText | t] eqn:Htext; simpl;
          (eexists; split; [reflexivity |]);
          (split; [discriminate |]).
        -- split; [| discriminate].
           intros ? ? [= <-] _ _. reflexivity.
        -- split; [| discriminate].
           intros ? ? [= <-] _ Hread. congruence.
    + eexists; split; [reflexivity |].
      split; [intros ? [= <-]; reflexivity |].
      split; [discriminate | discriminate].
  - intros employeeId request.
    unfold fetchEmployeeExpenses, bindC, tryCatchC, lift, fetch, retC.
    rewrite Htoken. fold request.
    destruct (respond net (sent net) request) as [response | t] eqn:Hresp.
    + destruct (text response) as [responseText | t] eqn:Htext.
      * destruct (isEmpty responseText || isEmpty (trim responseText)) eqn:Hblank.
        -- exists []. split; [reflexivity |]. repeat split; reflexivity.
        -- destruct (JSON_parse w responseText) as [data | t] eqn:Hparse.
           ++ destruct (expensesOfData w data) as [expenses | t] eqn:Hdata.
              ** exists expenses. split; [reflexivity |].
                 split; [discriminate |].
                 split; [intros ? ? [= <-] Hread; congruence |].
                 intros ? ? ? [= <-] Hread Hbad. congruence.
              ** exists []. split; [reflexivity |]. repeat split; reflexivity.
           ++ exists []. split; [reflexivity |]. repeat split; reflexivity.
      * exists []. split; [reflexivity |]. repeat split; reflexivity.
    + exists []. split; [reflexivity |]. repeat split; reflexivity.
Qed.

(** C9, as the code has it. With a token at hand, [submitExpense] never
    throws and never hides a failure of its call: it resolves to
    [success: false] with the thrown [Error]'s own message (for a response
    that is not ok, the HTTP status line), or with the generic text that asks
    to try again when what was thrown is no [Error]; it reports success only
    for an ok response whose body parsed.  [fetchEmployeeExpenses] never
    throws either, and it reports every failure of its call, be it the
    request, the reading of the body or its parsing, as the empty list.  A
    token refresh that fails is the one failure [submitExpense] throws, and
    the form shows it as the text that asks to try again.  A form that fails
    validation is shown the validator's message: nothing is thrown and
    nothing is sent. *)
Theorem submit_failures_are_returned_fetch_failures_are_empty
    (w : World) (net : Net) :
  (forall token, getIdToken w = Returned token ->
     (forall data role,
        let request :=
          {| url := N8N_BASE_URL w ++ "/webhook/submit-expense"; method := "POST";
             body := SubmitExpenseBody
                       {| idToken := token; role := role;
                          submissionType := "manual"; expense := data |} |} in
        exists result,
          submitExpense w data role net
          = (Returned result,
             {| respond := respond net; sent := (sent net ++ [request])%list |})
          /\ (forall t, respond net (sent net) request = Threw t ->
                result = {| success := false;
                            message := VString match t with
                                               | ErrorObject m => m
                                               | OtherValue =>
                                                   "Failed to submit expense. Please try again."
                                               end;
                            expenseId := VUndefined |})
          /\ (forall response errorText,
                respond net (sent net) request = Returned response ->
                ok response = false -> text response = Returned errorText ->
                result = {| success := false;
                            message := VString ("HTTP error! status: "
                                                ++ N_toString (status response));
                            expenseId := VUndefined |})
          /\ (success result = true ->
                exists response parsed,
                  respond net (sent net) request = Returned response
                  /\ ok response = true /\ json w response = Returned parsed))
     /\ (forall employeeId,
           let request :=
             {| url := N8N_BASE_URL w ++ "/webhook/fetch-expenses"; method := "POST";
                body := FetchExpensesBody "fetch_expenses" employeeId "employee" token |} in
           exists expenses,
             fetchEmployeeExpenses w employeeId net
             = (Returned expenses,
                {| respond := respond net; sent := (sent net ++ [request])%list |})
             /\ (forall t, respond net (sent net) request = Threw t -> expenses = [])
             /\ (forall response t,
                   respond net (sent net) request = Returned response ->
                   text response = Threw t -> expenses = [])
             /\ (forall response responseText t,
                   respond net (sent net) request = Returned response ->
                   text response = Returned responseText ->
                   JSON_parse w responseText = Threw t -> expenses = [])))
  /\ (forall t, getIdToken w = Threw t ->
        (forall data role, submitExpense w data role net = (Threw t, net))
        /\ (forall role randomThousand st,
              NewExpensePage.validateManualForm (NewExpensePage.formData st) = None ->
              NewExpensePage.handleManualSubmit w role randomThousand st net
              = ({| NewExpensePage.formData := NewExpensePage.formData st;
                    NewExpensePage.loading := false;
                    NewExpensePage.error :=
                      Some (VString "Failed to submit expense. Please try again.");
                    NewExpensePage.success := None;
                    NewExpensePage.navigateScheduled :=
                      NewExpensePage.navigateScheduled st |}, net)))
  /\ (forall role randomThousand st msg,
        NewExpensePage.validateManualForm (NewExpensePage.formData st) = Some msg ->
        NewExpensePage.handleManualSubmit w role randomThousand st net
        = ({| NewExpensePage.formData := NewExpensePage.formData st;
              NewExpensePage.loading := NewExpensePage.loading st;
              NewExpensePage.error := Some (VString msg);
              NewExpensePage.success := None;
              NewExpensePage.navigateScheduled := NewExpensePage.navigateScheduled st |},
            net)).
Proof.
  split; [intros token Htoken; exact (calls_with_a_token w net token Htoken) |].
  split.
  - intros t Htoken.
    assert (Hsubmit : forall data role, submitExpense w data role net = (Threw t, net)).
    { intros data role. unfold submitExpense, bindC, lift. rewrite Htoken. reflexivity. }
    split; [exact Hsubmit |].
    intros role randomThousand st Hvalid.
    unfold NewExpensePage.handleManualSubmit.
    rewrite Hvalid, Hsubmit. reflexivity.
  - intros role randomThousand st msg Hinvalid.
    unfold NewExpensePage.handleManualSubmit.
    rewrite Hinvalid. reflexivity.
Qed.

(** A signed-in employee, the network down; then an employee whose token
    cannot be refreshed. *)
Lemma submit_failures_are_returned_fetch_failures_are_empty_witness :
  let w := Samples.worldAt 1700000000123 "2025-09-11T10:00:00.000Z" in
  let w' := Samples.worldWithoutToken 1700000000123 "2025-09-11T10:00:00.000Z" in
  let data :=
    {| Complete.formFields := Samples.taxiForm 42.10;
       Complete.transactionId := "T-123500";
       Complete.dateSubmitted := "2025-09-11";
       Complete.receiptAttached := "N" |} in
  (exists result,
     submitExpense w data Employee Samples.offline
     = (Returned result,
        {| respond := respond Samples.offline;
           sent := [ {| url := "http://localhost:5678/webhook/submit-expense";
                        method := "POST";
                        body := SubmitExpenseBody
                                  {| idToken := Some "id-token"; role := Employee;
                                     submissionType := "manual";
                                     expense := data |} |} ] |})
     /\ result = {| success := false; message := VString "Failed to fetch";
                    expenseId := VUndefined |})
  /\ (exists expenses,
        fst (fetchEmployeeExpenses w "EMP-401" Samples.offline) = Returned expenses
        /\ expenses = [])
  /\ submitExpense w' data Employee Samples.offline
     = (Threw (ErrorObject "auth/network-request-failed"), Samples.offline).
Proof.
  intros w w' data.
  destruct (submit_failures_are_returned_fetch_failures_are_empty w Samples.offline)
    as [Hcalls _].
  destruct (Hcalls (Some "id-token") eq_refl) as [Hsubmit Hfetch].
  split; [| split].
  - destruct (Hsubmit data Employee) as (result & Hrun & Hthrown & _).
    exists result. split; [exact Hrun |].
    exact (Hthrown (ErrorObject "Failed to fetch") eq_refl).
  - destruct (Hfetch "EMP-401") as (expenses & Hrun & Hthrown & _).
    exists expenses. split.
    + rewrite Hrun. reflexivity.
    + exact (Hthrown (ErrorObject "Failed to fetch") eq_refl).
  - destruct (submit_failures_are_returned_fetch_failures_are_empty w' Samples.offline)
      as (_ & Hthrows & _).
    destruct (Hthrows (ErrorObject "auth/network-request-failed") eq_refl) as [Hsubmit' _].
    exact (Hsubmit' data Employee).
Defined.

(** C9 as stated fails for [fetchEmployeeExpenses]: with the network down
    the caller gets the empty list, the very result of an empty answer, and
    no failure; and what [submitExpense] hands back for the same failure is
    the error's message alone, with no hint to retry. *)
Lemma failed_fetch_looks_like_an_empty_sheet :
  let w := Samples.worldAt 1700000000123 "2025-09-11T10:00:00.000Z" in
  respond Samples.offline []
    {| url := "http://localhost:5678/webhook/fetch-expenses"; method := "POST";
       body := FetchExpensesBody "fetch_expenses" "EMP-401" "employee" (Some "id-token") |}
  = Threw (ErrorObject "Failed to fetch")
  /\ fst (fetchEmployeeExpenses w "EMP-401" Samples.offline) = Returned []
  /\ fst (fetchEmployeeExpenses w "EMP-401" Samples.emptyAnswers) = Returned []
  /\ fst (submitExpense w
            {| Complete.formFields := Samples.taxiForm 42.10;
               Complete.transactionId := "T-123500";
               Complete.dateSubmitted := "2025-09-11";
               Complete.receiptAttached := "N" |} Employee Samples.offline)
     = Returned {| success := false; message := VString "Failed to fetch";
                   expenseId := VUndefined |}.
Proof.
  repeat split.
Qed.

(** C4, as the code has it. [sendAdminDecision] looks at no state and sends
    nothing: with a token at hand every call resolves to [success: true],
    whatever the expense, the decision and the calls made before, so a second
    attempt on the same expense succeeds like the first.  The review pages
    call it for the expense the admin selected, whatever its status, show
    the success and take the expense off their own list. *)
Theorem every_admin_decision_reports_success
    (w : World) (token : option string) (net : Net)
    (expenseId : value) (decision : AdminDecision) (reason : option string) :
  getIdToken w = Returned token ->
  sendAdminDecision w expenseId decision reason net
  = (Returned {| success := true;
                 message := VString ("Expense " ++ decisionString decision
                                     ++ "d successfully (MOCK)");
                 N8nClient.expenseId := VUndefined |}, net)
  /\ (forall decision2 reason2,
        fst (sendAdminDecision w expenseId decision2 reason2
               (snd (sendAdminDecision w expenseId decision reason net)))
        = Returned {| success := true;
                      message := VString ("Expense " ++ decisionString decision2
                                          ++ "d successfully (MOCK)");
                      N8nClient.expenseId := VUndefined |})
  /\ (forall st selected,
        AdminReviewPage.selectedExpense st = Some selected ->
        AdminReviewPage.handleDecision w decision st net
        = ({| AdminReviewPage.expenses :=
                filter (fun e => negb (strictEq (Sheet.id e) (Sheet.id selected)))
                       (AdminReviewPage.expenses st);
              AdminReviewPage.selectedExpense := None;
              AdminReviewPage.decisionReason := EmptyString;
              AdminReviewPage.processing := false;
              AdminReviewPage.error := None;
              AdminReviewPage.success :=
                Some (VString ("Expense " ++ decisionString decision
                               ++ "d successfully (MOCK)")) |}, net)).
Proof.
  intros Htoken.
  assert (Hcall : forall id d r n,
             sendAdminDecision w id d r n
             = (Returned {| success := true;
                            message := VString ("Expense " ++ decisionString d
                                                ++ "d successfully (MOCK)");
                            N8nClient.expenseId := VUndefined |}, n)).
  { intros id d r n. unfold sendAdminDecision, bindC, lift, retC.
    rewrite Htoken. reflexivity. }
  split; [apply Hcall |].
  split; [intros decision2 reason2; rewrite !Hcall; reflexivity |].
  intros st selected Hselected.
  unfold AdminReviewPage.handleDecision.
  rewrite Hselected, Hcall. reflexivity.
Qed.

(** An admin approves exp-201 from the flagged list, the network down. *)
Lemma every_admin_decision_reports_success_witness :
  let w := Samples.worldAt 1700000000123 "2025-09-11T10:00:00.000Z" in
  sendAdminDecision w (VString "exp-201") Approve None Samples.offline
  = (Returned {| success := true;
                 message := VString "Expense approved successfully (MOCK)";
                 N8nClient.expenseId := VUndefined |}, Samples.offline)
  /\ fst (AdminReviewPage.handleDecision w Approve
            (Samples.reviewing [Samples.exp201] Samples.exp201) Samples.offline)
     = {| AdminReviewPage.expenses := [];
          AdminReviewPage.selectedExpense := None;
          AdminReviewPage.decisionReason := EmptyString;
          AdminReviewPage.processing := false;
          AdminReviewPage.error := None;
          AdminReviewPage.success :=
            Some (VString "Expense approved successfully (MOCK)") |}.
Proof.
  intros w.
  destruct (every_admin_decision_reports_success
              w (Some "id-token") Samples.offline (VString "exp-201") Approve None eq_refl)
    as (Hcall & _ & Hpage).
  split; [exact Hcall |].
  rewrite (Hpage (Samples.reviewing [Samples.exp201] Samples.exp201) Samples.exp201 eq_refl).
  reflexivity.
Defined.

(** C4 as stated fails: two admins have the flagged expense exp-201 on
    their pages; one approves it, then the other denies it.  Both calls
    succeed and both pages show the success; none gets an error.  The same
    call resolves exp-101, whose status is pending, not flagged. *)
Lemma two_resolutions_both_succeed :
  let w := Samples.worldAt 1700000000123 "2025-09-11T10:00:00.000Z" in
  let first := sendAdminDecision w (VString "exp-201") Approve None Samples.offline in
  let second :=
    sendAdminDecision w (VString "exp-201") Deny (Some "not a business meal") (snd first) in
  let adminA := AdminReviewPage.handleDecision w Approve
                  (Samples.reviewing [Samples.exp201] Samples.exp201) Samples.offline in
  let adminB := AdminReviewPage.handleDecision w Deny
                  (Samples.reviewing [Samples.exp201] Samples.exp201) (snd adminA) in
  let pending := AdminReviewPage.handleDecision w Approve
                   (Samples.reviewing [Samples.exp101] Samples.exp101) Samples.offline in
  fst first = Returned {| success := true;
                          message := VString "Expense approved successfully (MOCK)";
                          expenseId := VUndefined |}
  /\ fst second = Returned {| success := true;
                              message := VString "Expense denyd successfully (MOCK)";
                              expenseId := VUndefined |}
  /\ AdminReviewPage.success (fst adminA)
     = Some (VString "Expense approved successfully (MOCK)")
  /\ AdminReviewPage.success (fst adminB)
     = Some (VString "Expense denyd successfully (MOCK)")
  /\ AdminReviewPage.error (fst adminB) = None
  /\ Sheet.status Samples.exp101 = Pending
  /\ AdminReviewPage.success (fst pending)
     = Some (VString "Expense approved successfully (MOCK)").
Proof.
  repeat split.
Qed.

(** C2, at the failing input.  Two manual submissions, a thousand seconds
    apart and with different amounts, for which [Math.random] gives the same
    three digits: [generateTransactionId], whose comment promises a unique
    id, gives both the id T-123500.  [handleManualSubmit] compares the id
    with nothing and sends both; the answers being ok, both are shown as
    submitted. *)
Theorem same_transaction_id_is_generated_and_sent_twice :
  let w1 := Samples.worldAt 1700000000123 "2025-09-11T10:00:00.000Z" in
  let w2 := Samples.worldAt 1700001000123 "2025-09-11T10:16:40.000Z" in
  let run1 := NewExpensePage.handleManualSubmit w1 (Some Employee) 500
                (Samples.pageWith (Samples.taxiForm 42.10)) Samples.workflowNet in
  let run2 := NewExpensePage.handleManualSubmit w2 (Some Employee) 500
                (Samples.pageWith (Samples.taxiForm 980)) (snd run1) in
  NewExpensePage.generateTransactionId 1700000000123 500 = "T-123500"
  /\ NewExpensePage.generateTransactionId 1700001000123 500 = "T-123500"
  /\ map NewExpensePageView.submittedTransactionId (sent (snd run2))
     = [ Some "T-123500"; Some "T-123500" ]
  /\ NewExpensePage.success (fst run1) = Some (VString "Expense submitted successfully")
  /\ NewExpensePage.error (fst run2) = None
  /\ NewExpensePage.success (fst run2) = Some (VString "Expense submitted successfully").
Proof.
  repeat split.
Qed.


Example mapStatus_rejected : mapStatus (VString "Rejected") = Returned Denied.
Proof. reflexivity. Qed.

End N8nClientFacts.

(** ** The decision pipeline of the specification *)

Section RouterFacts.
Import Types Pipeline.

(** C1. When validation has failed the router denies, with the violations'
    reasons joined as the reason: the decision is not Flagged, and it is the
    same for every anomaly signal, flag threshold, policy and amount. *)
Theorem validation_failure_is_denied
    (separator : string) (FLAG_THRESHOLD : Z) (p : Policy.Policy) (amount : Q)
    (v : ValidationResult) (a : AnomalySignal) :
  ok v = false ->
  route separator FLAG_THRESHOLD p amount v a
  = {| state := Denied;
       decisionReason := concatReasons separator (map reason (violations v)) |}
  /\ state (route separator FLAG_THRESHOLD p amount v a) <> Flagged
  /\ (forall threshold' p' amount' a',
        route separator threshold' p' amount' v a'
        = route separator FLAG_THRESHOLD p amount v a).
Proof.
  intros Hok. unfold route. rewrite Hok. simpl.
  repeat split; discriminate.
Qed.

(** Section 8, scenario 2 with a maximal anomaly score on top: 6000 under a
    Travel policy that allows 5000. *)
Lemma validation_failure_is_denied_witness :
  let travel :=
    {| Policy.id := "pol-travel"; Policy.category := "Travel";
       Policy.maxAmount := 5000; Policy.currency := "USD";
       Policy.requiresReceipt := false; Policy.requiresApproval := true;
       Policy.approvalThreshold := 1000; Policy.status := Active |} in
  let sub :=
    {| Submission.transactionId := "T-002"; Submission.employeeId := "EMP-401";
       Submission.dateIncurred := "2025-09-10"; Submission.dateSubmitted := "2025-09-11";
       Submission.description := "Flight"; Submission.vendor := None;
       Submission.paymentMethod := "Corporate Card"; Submission.currency := "USD";
       Submission.amount := 6000; Submission.category := "Travel";
       Submission.receiptAttached := true; Submission.reimbursementType := "Employee" |} in
  let v := validate ["Travel"] travel sub in
  let a := {| score := 100; reasons := ["amount more than 3x the trailing mean"] |} in
  route "; " 50 travel 6000 v a
  = {| state := Denied;
       decisionReason := concatReasons "; " (map reason (violations v)) |}
  /\ state (route "; " 50 travel 6000 v a) <> Flagged
  /\ (forall threshold' p' amount' a',
        route "; " threshold' p' amount' v a' = route "; " 50 travel 6000 v a).
Proof.
  intros travel sub v a.
  exact (validation_failure_is_denied "; " 50 travel 6000 v a eq_refl).
Defined.

End RouterFacts.

(** ** The statuses and the admin's decision *)

Section DecisionStatusFacts.
Import Js Types N8nClient AdminReviewPage.




End DecisionStatusFacts.

Section ScorerFacts.
Import Types Pipeline.
Open Scope Z_scope.

Variable weight : Signal -> Z.
Hypothesis weight_nonneg : forall s, 0 <= weight s.

Lemma sumWeights_nonneg (l : list Signal) : 0 <= sumWeights weight l.
Proof.
  induction l as [| s l IH]; simpl.
  - lia.
  - specialize (weight_nonneg s). lia.
Qed.

Lemma sumWeights_filter_mono (t t' : Signal -> bool) (l : list Signal) :
  (forall s, t s = true -> t' s = true) ->
  sumWeights weight (filter t l) <= sumWeights weight (filter t' l).
Proof.
  intros Hsub. induction l as [| s l IH]; simpl.
  - lia.
  - destruct (t s) eqn:Hts.
    + rewrite (Hsub s Hts). simpl. lia.
    + destruct (t' s); simpl; [specialize (weight_nonneg s) |]; lia.
Qed.

Lemma sumWeights_none (t : Signal -> bool) (l : list Signal) :
  (forall s, t s = false) -> filter t l = [].
Proof.
  intros Hnone. induction l as [| s l IH]; simpl.
  - reflexivity.
  - now rewrite Hnone.
Qed.

Lemma insertByWeight_perm (s : Signal) (l : list Signal) :
  Permutation (s :: l) (insertByWeight weight s l).
Proof.
  induction l as [| x l IH]; simpl.
  - apply Permutation_refl.
  - destruct (weight x <=? weight s).
    + apply Permutation_refl.
    + eapply Permutation_trans; [apply perm_swap |].
      apply perm_skip. exact IH.
Qed.

Lemma sortByWeight_perm (l : list Signal) :
  Permutation l (sortByWeight weight l).
Proof.
  induction l as [| s l IH]; simpl.
  - apply Permutation_refl.
  - eapply Permutation_trans; [| apply insertByWeight_perm].
    apply perm_skip. exact IH.
Qed.

Lemma insertByWeight_sorted (s : Signal) (l : list Signal) :
  StronglySorted (fun a b => weight b <= weight a) l ->
  StronglySorted (fun a b => weight b <= weight a) (insertByWeight weight s l).
Proof.
  induction l as [| x l IH]; simpl; intros Hsorted.
  - constructor; constructor.
  - inversion Hsorted as [| ? ? Hrest Hall]; subst.
    destruct (weight x <=? weight s) eqn:Hcmp.
    + apply Z.leb_le in Hcmp.
      constructor; [exact Hsorted |].
      constructor; [exact Hcmp |].
      eapply Forall_impl; [| exact Hall].
      simpl. intros y Hy. lia.
    + apply Z.leb_gt in Hcmp.
      constructor; [apply IH; exact Hrest |].
      eapply Permutation_Forall; [apply insertByWeight_perm |].
      constructor; [lia | exact Hall].
Qed.

Lemma sortByWeight_sorted (l : list Signal) :
  StronglySorted (fun a b => weight b <= weight a) (sortByWeight weight l).
Proof.
  induction l as [| s l IH]; simpl.
  - constructor.
  - apply insertByWeight_sorted. exact IH.
Qed.

(** Sorting is stable: a list that is already by non-increasing weight,
    ties included, is left as it is. *)
Lemma sortByWeight_of_sorted (l : list Signal) :
  StronglySorted (fun a b => weight b <= weight a) l ->
  sortByWeight weight l = l.
Proof.
  induction l as [| s l IH]; simpl; intros Hsorted.
  - reflexivity.
  - inversion Hsorted as [| ? ? Hrest Hall]; subst.
    rewrite (IH Hrest).
    destruct l as [| x l]; simpl.
    + reflexivity.
    + inversion Hall as [| ? ? Hx _]; subst.
      apply Z.leb_le in Hx. now rewrite Hx.
Qed.

Lemma filter_sorted (t : Signal -> bool) (l : list Signal) :
  StronglySorted (fun a b => weight b <= weight a) l ->
  StronglySorted (fun a b => weight b <= weight a) (filter t l).
Proof.
  induction l as [| s l IH]; simpl; intros Hsorted.
  - constructor.
  - inversion Hsorted as [| ? ? Hrest Hall]; subst.
    destruct (t s).
    + constructor; [apply IH; exact Hrest |].
      apply Forall_forall. intros y Hy.
      apply filter_In in Hy as [Hy _].
      rewrite Forall_forall in Hall. exact (Hall y Hy).
    + apply IH. exact Hrest.
Qed.

Lemma allSignals_NoDup : NoDup allSignals.
Proof.
  unfold allSignals.
  repeat (constructor; [simpl; intuition discriminate |]).
  constructor.
Qed.

Lemma allSignals_complete (s : Signal) : In s allSignals.
Proof.
  destruct s; simpl; tauto.
Qed.

(** C6. The anomaly score is the sum of the weights of the triggered
    signals capped at 100, and lies between 0 and 100; a submission that
    triggers more never scores less; one that triggers nothing scores 0.
    The reasons are those of the triggered signals, each once, by
    decreasing weight, and the order is stable: when the signals are listed
    by non-increasing weight, as with the weights of section 4.5, the
    reasons keep the order of the listing. *)
Theorem anomaly_score_is_monotone_and_capped (t t' : Signal -> bool) :
  (forall s, t s = true -> t' s = true) ->
  score (scoreSubmission weight t) <= score (scoreSubmission weight t')
  /\ score (scoreSubmission weight t)
     = Z.min 100 (sumWeights weight (filter t allSignals))
  /\ 0 <= score (scoreSubmission weight t) <= 100
  /\ ((forall s, t s = false) -> score (scoreSubmission weight t) = 0)
  /\ reasons (scoreSubmission weight t) = map signalReason (rankedSignals weight t)
  /\ (forall s, In s (rankedSignals weight t) <-> t s = true)
  /\ NoDup (rankedSignals weight t)
  /\ StronglySorted (fun a b => weight b <= weight a) (rankedSignals weight t)
  /\ (StronglySorted (fun a b => weight b <= weight a) allSignals ->
      rankedSignals weight t = filter t allSignals)
  /\ rankedSignals defaultWeight t = filter t allSignals.
Proof.
  intros Hsub.
  pose proof (sumWeights_filter_mono t t' allSignals Hsub) as Hmono.
  pose proof (sumWeights_nonneg (filter t allSignals)) as Hpos.
  unfold scoreSubmission, rankedSignals, contributing; cbn [score reasons].
  split; [lia |].
  split; [reflexivity |].
  split; [lia |].
  split; [intros Hnone; rewrite (sumWeights_none t allSignals Hnone); reflexivity |].
  split; [reflexivity |].
  split.
  { intros s. split.
    - intros Hin.
      apply (Permutation_in _ (Permutation_sym (sortByWeight_perm _))) in Hin.
      apply filter_In in Hin. tauto.
    - intros Hts.
      apply (Permutation_in _ (sortByWeight_perm _)).
      apply filter_In. split; [apply allSignals_complete | exact Hts]. }
  split.
  { eapply Permutation_NoDup; [apply sortByWeight_perm |].
    apply NoDup_filter, allSignals_NoDup. }
  split; [apply sortByWeight_sorted |].
  split; [intros Hlisted; apply sortByWeight_of_sorted, filter_sorted, Hlisted |].
  unfold allSignals. simpl.
  destruct (t AmountAboveTrailingMean), (t DateOutOfRange), (t PersonalUseTerms),
    (t SubmissionLag), (t CurrencyMismatch); reflexivity.
Qed.

End ScorerFacts.

Section ScorerExamples.
Import Types Pipeline.

(** A late submission (15), then the same one with a future date on top
    (35 more), under the weights of section 4.5. *)
Lemma anomaly_score_is_monotone_and_capped_witness :
  let late := fun s => match s with SubmissionLag => true | _ => false end in
  let lateAndFuture :=
    fun s => match s with SubmissionLag | DateOutOfRange => true | _ => false end in
  (score (scoreSubmission defaultWeight late)
   <= score (scoreSubmission defaultWeight lateAndFuture))%Z
  /\ score (scoreSubmission defaultWeight late)
     = Z.min 100 (sumWeights defaultWeight (filter late allSignals))
  /\ (0 <= score (scoreSubmission defaultWeight late) <= 100)%Z
  /\ ((forall s, late s = false) -> score (scoreSubmission defaultWeight late) = 0%Z)
  /\ reasons (scoreSubmission defaultWeight late)
     = map signalReason (rankedSignals defaultWeight late)
  /\ (forall s, In s (rankedSignals defaultWeight late) <-> late s = true)
  /\ NoDup (rankedSignals defaultWeight late)
  /\ StronglySorted (fun a b => (defaultWeight b <= defaultWeight a)%Z)
       (rankedSignals defaultWeight late)
  /\ (StronglySorted (fun a b => (defaultWeight b <= defaultWeight a)%Z) allSignals ->
      rankedSignals defaultWeight late = filter late allSignals)
  /\ rankedSignals defaultWeight late = filter late allSignals.
Proof.
  intros late lateAndFuture.
  apply (anomaly_score_is_monotone_and_capped defaultWeight).
  - intros s. destruct s; simpl; lia.
  - intros s. destruct s; simpl; intros H; now try discriminate.
Defined.

Example all_signals_score_100 :
  scoreSubmission defaultWeight (fun _ => true)
  = {| score := 100;
       reasons := [ "amount more than 3x the trailing mean";
                    "date incurred in the future or too old";
                    "description suggests personal use";
                    "submission lag beyond the threshold";
                    "currency mismatch without a USD amount" ] |}.
Proof. reflexivity. Qed.

End ScorerExamples.

Section ResolverFacts.
Import Types Pipeline.

Lemma find_active_category (policies : list Policy.Policy) (category : string)
    (p : Policy.Policy) :
  find (fun q => isActive q && String.eqb (Policy.category q) category) policies = Some p ->
  In p policies /\ isActive p = true /\ Policy.category p = category.
Proof.
  intros Hfind. apply find_some in Hfind as [Hin Hp].
  apply andb_true_iff in Hp as [Hactive Hcat].
  apply String.eqb_eq in Hcat. auto.
Qed.

Lemma find_no_active_category (policies : list Policy.Policy) (category : string) :
  find (fun q => isActive q && String.eqb (Policy.category q) category) policies = None ->
  forall q, In q policies -> isActive q = true -> Policy.category q <> category.
Proof.
  intros Hfind q Hin Hactive Hcat.
  pose proof (find_none _ _ Hfind q Hin) as Hq. simpl in Hq.
  rewrite Hactive in Hq. simpl in Hq.
  apply String.eqb_neq in Hq. contradiction.
Qed.

(** C7. Resolution returns one policy or NoPolicyError.  The policy it
    returns is an active one of the set, of the submission's category when
    an active policy of that category exists (whatever the Global policy
    allows), and the active Global policy otherwise; when each category has
    at most one active policy it is the only candidate.  When no active
    policy has the category and none is Global, resolution fails with
    NoPolicyError and the submission is Denied with the reason "no applicable
    policy". *)
Theorem resolution_prefers_the_category_then_global
    (policies : list Policy.Policy) (category : string) :
  match resolvePolicy policies category with
  | inr p =>
      In p policies /\ isActive p = true
      /\ (Policy.category p = category
          \/ (Policy.category p = "Global"
              /\ forall q, In q policies -> isActive q = true ->
                           Policy.category q <> category))
  | inl NoPolicyError =>
      forall q, In q policies -> isActive q = true ->
                Policy.category q <> category /\ Policy.category q <> "Global"
  end
  /\ ((exists q, In q policies /\ isActive q = true /\ Policy.category q = category) ->
      exists p, resolvePolicy policies category = inr p
                /\ isActive p = true /\ Policy.category p = category)
  /\ ((forall q1 q2, In q1 policies -> In q2 policies ->
                     isActive q1 = true -> isActive q2 = true ->
                     Policy.category q1 = Policy.category q2 -> q1 = q2) ->
      forall q, In q policies -> isActive q = true -> Policy.category q = category ->
                resolvePolicy policies category = inr q)
  /\ ((forall q, In q policies -> isActive q = true ->
                 Policy.category q <> category /\ Policy.category q <> "Global") ->
      resolvePolicy policies category = inl NoPolicyError
      /\ forall separator threshold recognized weight triggered sub,
           Submission.category sub = category ->
           decide separator threshold policies recognized weight triggered sub
           = {| state := Denied; decisionReason := "no applicable policy" |}).
Proof.
  unfold resolvePolicy.
  destruct (find (fun p => isActive p && String.eqb (Policy.category p) category) policies)
    as [p |] eqn:Hexact.
  - destruct (find_active_category _ _ _ Hexact) as (Hin & Hactive & Hcat).
    split; [auto |]. split; [eauto |]. split.
    + intros Hunique q Hq Hqa Hqc. f_equal.
      apply Hunique; auto. congruence.
    + intros Hnone. destruct (Hnone p Hin Hactive) as [Hneq _]. contradiction.
  - pose proof (find_no_active_category _ _ Hexact) as Hnoexact.
    destruct (find (fun p => isActive p && String.eqb (Policy.category p) "Global") policies)
      as [g |] eqn:Hglobal.
    + destruct (find_active_category _ _ _ Hglobal) as (Hin & Hactive & Hcat).
      split; [auto |]. split.
      { intros (q & Hq & Hqa & Hqc). exfalso. exact (Hnoexact q Hq Hqa Hqc). }
      split.
      { intros _ q Hq Hqa Hqc. exfalso. exact (Hnoexact q Hq Hqa Hqc). }
      intros Hnone. destruct (Hnone g Hin Hactive) as [_ Hneq]. contradiction.
    + pose proof (find_no_active_category _ _ Hglobal) as Hnoglobal.
      split; [auto |]. split.
      { intros (q & Hq & Hqa & Hqc). exfalso. exact (Hnoexact q Hq Hqa Hqc). }
      split.
      { intros _ q Hq Hqa Hqc. exfalso. exact (Hnoexact q Hq Hqa Hqc). }
      intros _. split; [reflexivity |].
      intros separator threshold recognized weight triggered sub Hsub.
      unfold decide, resolvePolicy. rewrite Hsub, Hexact, Hglobal. reflexivity.
Qed.

(** A Travel policy that allows 5000 wins over a Global one that allows
    100: a clean Travel expense of 300 is approved under it. *)
Example travel_policy_wins_over_stricter_global :
  let travel :=
    {| Policy.id := "pol-travel"; Policy.category := "Travel";
       Policy.maxAmount := 5000; Policy.currency := "USD";
       Policy.requiresReceipt := false; Policy.requiresApproval := false;
       Policy.approvalThreshold := 0; Policy.status := Active |} in
  let global :=
    {| Policy.id := "pol-global"; Policy.category := "Global";
       Policy.maxAmount := 100; Policy.currency := "USD";
       Policy.requiresReceipt := true; Policy.requiresApproval := false;
       Policy.approvalThreshold := 0; Policy.status := Active |} in
  let sub :=
    {| Submission.transactionId := "T-003"; Submission.employeeId := "EMP-401";
       Submission.dateIncurred := "2025-09-10"; Submission.dateSubmitted := "2025-09-11";
       Submission.description := "Train"; Submission.vendor := None;
       Submission.paymentMethod := "Corporate Card"; Submission.currency := "USD";
       Submission.amount := 300; Submission.category := "Travel";
       Submission.receiptAttached := false; Submission.reimbursementType := "Employee" |} in
  resolvePolicy [global; travel] "Travel" = inr travel
  /\ decide "; " 50 [global; travel] ["Travel"] defaultWeight (fun _ => false) sub
     = {| state := Approved; decisionReason := "within policy, no anomalies" |}
  /\ decide "; " 50 [global] ["Travel"] defaultWeight (fun _ => false) sub
     = {| state := Denied;
          decisionReason := "amount exceeds the policy limit; a receipt is required" |}
  /\ decide "; " 50 [] ["Travel"] defaultWeight (fun _ => false) sub
     = {| state := Denied; decisionReason := "no applicable policy" |}.
Proof.
  repeat split.
Qed.

End ResolverFacts.

(** * Further properties of the code *)

(** ** Substrings *)

Lemma prefix_app_l (t u s : string) :
  prefix (t ++ u) s = true -> prefix t s = true.
Proof.
  revert s. induction t as [| a t IH]; intros s H.
  - destruct s; reflexivity.
  - destruct s as [| b s]; simpl in *; [discriminate |].
    destruct (ascii_dec a b); [eauto | discriminate].
Qed.

(** A text that includes a string includes each of its beginnings. *)
Lemma includes_app_l (s t u : string) :
  Js.includes s (t ++ u) = true -> Js.includes s t = true.
Proof.
  induction s as [| c s IH]; cbn [Js.includes]; intros H.
  - rewrite orb_false_r in *. eapply prefix_app_l; eassumption.
  - apply orb_true_iff in H as [H | H]; apply orb_true_iff.
    + left. eapply prefix_app_l; eassumption.
    + right. auto.
Qed.

Lemma isEmpty_toLowerCase (s : string) :
  Js.isEmpty (Js.toLowerCase s) = Js.isEmpty s.
Proof. destruct s; reflexivity. Qed.

(** ** The log viewer, further *)

Section LogsPageViewFacts.
Import Js LogsPage LogsPageView.

Lemma no_marker_iff (type : string) :
  includes type "not detected" || includes type "no prompt"
  || includes type "not_detected" || includes type "no filtering"
  || includes type "safe model" || includes type "passed" = false
  <-> (forall marker, In marker negativeMarkers -> includes type marker = false).
Proof.
  split.
  - intros H marker Hin.
    repeat (apply orb_false_iff in H; destruct H as [H ?]).
    unfold negativeMarkers in Hin. simpl in Hin.
    repeat (destruct Hin as [<- | Hin]; [assumption |]).
    contradiction.
  - intros H.
    rewrite !orb_false_iff.
    repeat split; apply H; unfold negativeMarkers; simpl; tauto.
Qed.

Lemma isSecurityThreat_true_iff (eventType : string) :
  isSecurityThreat eventType = true <->
  (forall marker, In marker negativeMarkers ->
                  includes (toLowerCase eventType) marker = false)
  /\ (exists tag, In tag SECURITY_THREAT_TAGS
                  /\ includes (toLowerCase eventType) tag = true).
Proof.
  unfold isSecurityThreat.
  set (type := toLowerCase eventType).
  rewrite <- no_marker_iff.
  destruct (includes type "not detected" || includes type "no prompt"
            || includes type "not_detected" || includes type "no filtering"
            || includes type "safe model" || includes type "passed").
  - split; [discriminate | intros [H _]; discriminate].
  - rewrite existsb_exists. split; [intros H; split; [reflexivity | exact H] | tauto].
Qed.

(** X1. The tags blacklisted, blacklisted_word and blacklisted word decide
    nothing: a text that includes one of them includes blacklist, so every
    threat is a threat by one of the other sixteen tags. *)
Theorem blacklisted_tags_are_subsumed (eventType : string) :
  isSecurityThreat eventType = true ->
  exists tag,
    In tag SECURITY_THREAT_TAGS
    /\ ~ In tag ["blacklisted"; "blacklisted_word"; "blacklisted word"]
    /\ includes (toLowerCase eventType) tag = true.
Proof.
  intros H. apply isSecurityThreat_true_iff in H as [_ (tag & Hin & Hinc)].
  assert (Hsub : forall rest, tag = "blacklist" ++ rest ->
                   includes (toLowerCase eventType) "blacklist" = true).
  { intros rest ->. eapply includes_app_l. exact Hinc. }
  assert (Hblacklist : In "blacklist" SECURITY_THREAT_TAGS
                       /\ ~ In "blacklist" ["blacklisted"; "blacklisted_word";
                                            "blacklisted word"]).
  { split; [unfold SECURITY_THREAT_TAGS; simpl; tauto |].
    simpl. intros [Hx | [Hx | [Hx | []]]]; discriminate. }
  unfold SECURITY_THREAT_TAGS in Hin. simpl in Hin.
  repeat (destruct Hin as [<- | Hin];
          [ first
              [ exists "blacklist";
                split; [apply Hblacklist |]; split; [apply Hblacklist |];
                first [ apply (Hsub "ed"); reflexivity
                      | apply (Hsub "ed_word"); reflexivity
                      | apply (Hsub "ed word"); reflexivity ]
              | eexists; split; [| split; [| exact Hinc]];
                [ unfold SECURITY_THREAT_TAGS; simpl; tauto
                | simpl; intros [Hx | [Hx | [Hx | []]]]; discriminate ] ]
          | ]).
  contradiction.
Qed.

Lemma blacklisted_tags_are_subsumed_witness :
  exists tag,
    In tag SECURITY_THREAT_TAGS
    /\ ~ In tag ["blacklisted"; "blacklisted_word"; "blacklisted word"]
    /\ includes (toLowerCase "Blacklisted_Word in description") tag = true.
Proof.
  apply (blacklisted_tags_are_subsumed "Blacklisted_Word in description").
  reflexivity.
Defined.

(** X2. The badge of an event type is the critical one exactly when
    [isSecurityThreat] holds of it: the lower-casing that [getEventTypeClass]
    does before the test changes no verdict. *)
Theorem critical_badge_iff_threat (eventType : string) :
  getEventTypeClass eventType = "log-badge log-badge--critical"
  <-> isSecurityThreat eventType = true.
Proof.
  unfold getEventTypeClass.
  rewrite isSecurityThreat_toLowerCase.
  destruct (isSecurityThreat eventType).
  - tauto.
  - split; [| discriminate].
    repeat match goal with
           | |- context [if ?b then _ else _] => destruct b
           end; discriminate.
Qed.



Example flagged_dangerous_has_no_label :
  isSecurityThreat "flagged_dangerous" = true
  /\ getSecurityTagLabel "flagged_dangerous" = "FLAGGED_DANGEROUS"
  /\ getSecurityTagLabel "injection_detected" = "INJECTION_DETECTED"
  /\ getSecurityTagLabel "Prompt_Injection_Detected" = "⚠️ PROMPT INJECTION DETECTED".
Proof. repeat split; reflexivity. Qed.

Lemma matchesFilters_refines (query longer rest selected : string) (log : LogEntry) :
  toLowerCase longer = toLowerCase query ++ rest ->
  matchesFilters longer selected log = true ->
  matchesFilters query selected log = true.
Proof.
  intros Hextends. unfold matchesFilters.
  destruct (isEmpty query) eqn:Hq.
  - destruct (negb (String.eqb selected "all")
              && negb (String.eqb (eventType log) selected)).
    + destruct (negb _); discriminate.
    + reflexivity.
  - assert (Hl : isEmpty longer = false).
    { rewrite <- isEmpty_toLowerCase, Hextends.
      rewrite <- isEmpty_toLowerCase in Hq.
      destruct (toLowerCase query); [discriminate | reflexivity]. }
    rewrite Hl, Hextends.
    set (q := toLowerCase query).
    assert (Hsub : forall text, includes text (q ++ rest) = true -> includes text q = true)
      by (intros text; apply includes_app_l).
    destruct (includes (toLowerCase (message log)) (q ++ rest)) eqn:E1;
      [rewrite (Hsub _ E1); simpl; tauto |].
    destruct (includes (toLowerCase (workflow log)) (q ++ rest)) eqn:E2;
      [rewrite (Hsub _ E2); rewrite ?orb_true_r; simpl; tauto |].
    destruct (includes (toLowerCase (node log)) (q ++ rest)) eqn:E3;
      [rewrite (Hsub _ E3); rewrite ?orb_true_r; simpl; tauto |].
    destruct (includes (toLowerCase (executionId log)) (q ++ rest)) eqn:E4;
      [rewrite (Hsub _ E4); rewrite ?orb_true_r; simpl; tauto |].
    destruct (includes (toLowerCase (userId log)) (q ++ rest)) eqn:E5;
      [rewrite (Hsub _ E5); rewrite ?orb_true_r; simpl; tauto |].
    simpl. discriminate.
Qed.

Lemma filter_refines {A : Type} (p q : A -> bool) (l : list A) :
  (forall x, p x = true -> q x = true) ->
  filter p (filter q l) = filter p l.
Proof.
  intros Himp. induction l as [| x l IH]; simpl.
  - reflexivity.
  - destruct (q x) eqn:Hq; simpl.
    + destruct (p x); now rewrite IH.
    + destruct (p x) eqn:Hp; [rewrite (Himp x Hp) in Hq; discriminate | exact IH].
Qed.

(** X4. The filters of the log list.  With an empty search box and the
    selector on all, every log is shown.  A query whose lower-cased text
    begins with the lower-cased text of another narrows what the other
    shows: its logs are those of the other that match it.  The search
    ignores the letter case of the query, and a selected event type keeps
    only the logs of exactly that type.  Of [toLowerCase] the proof uses
    that lower-casing twice is lower-casing once and that only the empty
    text has an empty lower-cased copy. *)
Theorem filters_narrow_the_log_list
    (query longer selected : string) (logs : list LogEntry) :
  filteredLogs EmptyString "all" logs = logs
  /\ (forall rest,
        toLowerCase longer = toLowerCase query ++ rest ->
        filteredLogs longer selected logs
        = filteredLogs longer selected (filteredLogs query selected logs))
  /\ filteredLogs (toLowerCase query) selected logs = filteredLogs query selected logs
  /\ (forall log, selected <> "all" ->
                  In log (filteredLogs query selected logs) ->
                  eventType log = selected).
Proof.
  unfold filteredLogs. repeat split.
  - induction logs as [| log logs IH]; simpl; [reflexivity | now rewrite IH].
  - intros rest Hextends. symmetry. apply filter_refines.
    intros log. exact (matchesFilters_refines query longer rest selected log Hextends).
  - apply filter_ext. intros log. unfold matchesFilters.
    now rewrite isEmpty_toLowerCase, toLowerCase_idempotent.
  - intros log Hsel Hin. apply filter_In in Hin as [_ Hm].
    unfold matchesFilters in Hm.
    destruct (negb _); [discriminate |].
    apply String.eqb_neq in Hsel. rewrite Hsel in Hm. simpl in Hm.
    destruct (String.eqb (eventType log) selected) eqn:He; [| discriminate].
    now apply String.eqb_eq.
Qed.

(** Typing on: from inject to INJECTION, on two logs. *)
Example longer_query_narrows :
  let log1 := {| timestamp := "2025-09-11T10:00:00.000Z";
                 message := "Prompt injection detected";
                 workflow := "expense-intake"; node := "Security Filter";
                 eventType := "security"; executionId := "1"; userId := "EMP-401" |} in
  let log2 := {| timestamp := "2025-09-11T10:00:01.000Z";
                 message := "Injected defaults for two columns";
                 workflow := "expense-intake"; node := "Row Normalizer";
                 eventType := "info"; executionId := "2"; userId := "EMP-401" |} in
  filteredLogs "inject" "all" [log1; log2] = [log1; log2]
  /\ filteredLogs "INJECTION" "all" [log1; log2] = [log1]
  /\ filteredLogs "INJECTION" "all" (filteredLogs "inject" "all" [log1; log2]) = [log1].
Proof. repeat split. Qed.

End LogsPageViewFacts.

(** ** Decimal text *)

Section DecimalText.
Open Scope nat_scope.

Ltac euclid := zify; Z.to_euclidean_division_equations; lia.

Lemma string_app_assoc (a b c : string) : (a ++ b) ++ c = a ++ (b ++ c).
Proof. induction a as [| x a IH]; simpl; [reflexivity | now rewrite IH]. Qed.

Lemma string_length_app (a b : string) :
  String.length (a ++ b) = String.length a + String.length b.
Proof. induction a as [| x a IH]; simpl; [reflexivity | now rewrite IH]. Qed.

Lemma to_uint_rev (n : N) : N.to_uint n = Decimal.rev (DecimalPos.Unsigned.to_lu n).
Proof. destruct n; reflexivity. Qed.

Lemma string_of_revapp (x y : Decimal.uint) :
  NilEmpty.string_of_uint (Decimal.revapp x y)
  = NilEmpty.string_of_uint (Decimal.revapp x Decimal.Nil) ++ NilEmpty.string_of_uint y.
Proof.
  revert y. induction x; intros y; simpl; [reflexivity | ..];
    rewrite IHx; symmetry; rewrite IHx; simpl;
    rewrite string_app_assoc; reflexivity.
Qed.

Lemma string_of_uint_nonnil (d : Decimal.uint) :
  d <> Decimal.Nil -> NilZero.string_of_uint d = NilEmpty.string_of_uint d.
Proof. destruct d; [congruence | reflexivity ..]. Qed.

Lemma to_lu_tenfold_plus (q d : N) :
  (0 < q)%N -> (d < 10)%N ->
  exists digit,
    DecimalPos.Unsigned.to_lu (10 * q + d) = digit (DecimalPos.Unsigned.to_lu q)
    /\ (forall x, NilEmpty.string_of_uint (Decimal.revapp (digit x) Decimal.Nil)
                  = NilEmpty.string_of_uint (Decimal.revapp x Decimal.Nil)
                    ++ String (NewExpensePageView.digitChar d) EmptyString).
Proof.
  intros Hq Hd.
  destruct q as [| p]; [lia |].
  pose proof (DecimalPos.Unsigned.to_ldec_tenfold p) as H0.
  assert (Hcases : (d = 0 \/ d = 1 \/ d = 2 \/ d = 3 \/ d = 4 \/ d = 5 \/ d = 6
                    \/ d = 7 \/ d = 8 \/ d = 9)%N) by lia.
  assert (Hs : forall n, (n + 1 = N.succ n)%N) by (intros; lia).
  repeat destruct Hcases as [-> | Hcases]; try subst d.
  - exists Decimal.D0. rewrite N.add_0_r. split; [exact H0 |].
    intros x. simpl. apply string_of_revapp.
  - exists Decimal.D1. split.
    + replace (10 * N.pos p + 1)%N with (N.succ (10 * N.pos p)) by lia.
      now rewrite DecimalPos.Unsigned.to_lu_succ, H0.
    + intros x. simpl. apply string_of_revapp.
  - exists Decimal.D2. split.
    + replace (10 * N.pos p + 2)%N with (N.succ (N.succ (10 * N.pos p))) by lia.
      now rewrite !DecimalPos.Unsigned.to_lu_succ, H0.
    + intros x. simpl. apply string_of_revapp.
  - exists Decimal.D3. split.
    + replace (10 * N.pos p + 3)%N with (N.succ (N.succ (N.succ (10 * N.pos p)))) by lia.
      now rewrite !DecimalPos.Unsigned.to_lu_succ, H0.
    + intros x. simpl. apply string_of_revapp.
  - exists Decimal.D4. split.
    + replace (10 * N.pos p + 4)%N
        with (N.succ (N.succ (N.succ (N.succ (10 * N.pos p))))) by lia.
      now rewrite !DecimalPos.Unsigned.to_lu_succ, H0.
    + intros x. simpl. apply string_of_revapp.
  - exists Decimal.D5. split.
    + replace (10 * N.pos p + 5)%N
        with (N.succ (N.succ (N.succ (N.succ (N.succ (10 * N.pos p)))))) by lia.
      now rewrite !DecimalPos.Unsigned.to_lu_succ, H0.
    + intros x. simpl. apply string_of_revapp.
  - exists Decimal.D6. split.
    + replace (10 * N.pos p + 6)%N
        with (N.succ (N.succ (N.succ (N.succ (N.succ (N.succ (10 * N.pos p))))))) by lia.
      now rewrite !DecimalPos.Unsigned.to_lu_succ, H0.
    + intros x. simpl. apply string_of_revapp.
  - exists Decimal.D7. split.
    + replace (10 * N.pos p + 7)%N
        with (N.succ (N.succ (N.succ (N.succ (N.succ (N.succ (N.succ (10 * N.pos p))))))))
        by lia.
      now rewrite !DecimalPos.Unsigned.to_lu_succ, H0.
    + intros x. simpl. apply string_of_revapp.
  - exists Decimal.D8. split.
    + replace (10 * N.pos p + 8)%N
        with (N.succ (N.succ (N.succ (N.succ (N.succ (N.succ (N.succ (N.succ (10 * N.pos p)))))))))
        by lia.
      now rewrite !DecimalPos.Unsigned.to_lu_succ, H0.
    + intros x. simpl. apply string_of_revapp.
  - exists Decimal.D9. split.
    + replace (10 * N.pos p + 9)%N
        with (N.succ (N.succ (N.succ (N.succ (N.succ (N.succ (N.succ (N.succ (N.succ (10 * N.pos p))))))))))
        by lia.
      now rewrite !DecimalPos.Unsigned.to_lu_succ, H0.
    + intros x. simpl. apply string_of_revapp.
Qed.

Lemma N_toString_tenfold_plus (q d : N) :
  (0 < q)%N -> (d < 10)%N ->
  Js.N_toString (10 * q + d) = Js.N_toString q ++ String (NewExpensePageView.digitChar d) EmptyString.
Proof.
  intros Hq Hd.
  destruct (to_lu_tenfold_plus q d Hq Hd) as (digit & Hlu & Hstr).
  unfold Js.N_toString.
  rewrite !string_of_uint_nonnil.
  - rewrite !to_uint_rev, Hlu. unfold Decimal.rev. apply Hstr.
  - destruct q; [lia | apply DecimalPos.Unsigned.to_uint_nonnil].
  - destruct (10 * q + d)%N eqn:E; [lia | apply DecimalPos.Unsigned.to_uint_nonnil].
Qed.

Lemma N_toString_digit (d : N) :
  (d < 10)%N -> Js.N_toString d = String (NewExpensePageView.digitChar d) EmptyString.
Proof.
  intros Hd.
  assert (Hcases : (d = 0 \/ d = 1 \/ d = 2 \/ d = 3 \/ d = 4 \/ d = 5 \/ d = 6
                    \/ d = 7 \/ d = 8 \/ d = 9)%N) by lia.
  repeat destruct Hcases as [-> | Hcases]; try subst d; reflexivity.
Qed.

Lemma N_toString_step (n : N) :
  (10 <= n)%N ->
  Js.N_toString n = Js.N_toString (n / 10) ++ String (NewExpensePageView.digitChar (n mod 10)) EmptyString.
Proof.
  intros Hn.
  rewrite <- N_toString_tenfold_plus.
  - f_equal. euclid.
  - euclid.
  - euclid.
Qed.

Lemma N_toString_last_three (n : N) :
  (100 <= n)%N -> exists pre, Js.N_toString n = pre ++ NewExpensePageView.threeDigits n.
Proof.
  intros Hn.
  rewrite (N_toString_step n) by lia.
  rewrite (N_toString_step (n / 10)) by euclid.
  replace (n / 10 / 10)%N with (n / 100)%N by euclid.
  destruct (N.le_gt_cases 10 (n / 100)) as [Hbig | Hsmall].
  - rewrite (N_toString_step (n / 100)) by exact Hbig.
    exists (Js.N_toString (n / 100 / 10)).
    unfold NewExpensePageView.threeDigits. rewrite !string_app_assoc. reflexivity.
  - exists EmptyString.
    rewrite (N_toString_digit (n / 100)) by exact Hsmall.
    unfold NewExpensePageView.threeDigits. simpl.
    replace (n / 100 mod 10)%N with (n / 100)%N by euclid. reflexivity.
Qed.

Lemma substring_whole (n : nat) (s : string) :
  String.length s <= n -> substring 0 n s = s.
Proof.
  revert n. induction s as [| c s IH]; intros n Hn; destruct n; simpl in *;
    try reflexivity; try lia.
  now rewrite IH by lia.
Qed.

(** The last [k + |b|] characters of [a ++ b] are the last [k] of [a],
    then [b]. *)
Lemma sliceLast_app (k : nat) (a b : string) :
  Js.sliceLast (k + String.length b) (a ++ b) = Js.sliceLast k a ++ b.
Proof.
  unfold Js.sliceLast. rewrite string_length_app.
  replace (String.length a + String.length b - (k + String.length b))
    with (String.length a - k) by lia.
  induction a as [| c a IH].
  - simpl. rewrite substring_whole by lia. destruct k; reflexivity.
  - destruct (Nat.le_gt_cases (String.length (String c a)) k) as [Hle | Hgt].
    + cbn [String.length] in *.
      replace (S (String.length a) - k) with 0 by lia.
      rewrite (substring_whole k) by (cbn [String.length]; lia).
      rewrite substring_whole; [reflexivity |].
      cbn [String.length append]. rewrite string_length_app. lia.
    + cbn [String.length] in *.
      replace (S (String.length a) - k) with (S (String.length a - k)) by lia.
      simpl. exact IH.
Qed.

Lemma sliceLast_zero (s : string) : Js.sliceLast 0 s = EmptyString.
Proof.
  unfold Js.sliceLast. rewrite Nat.sub_0_r.
  induction s as [| c s IH]; [reflexivity | exact IH].
Qed.

Lemma last_three_of_last_six (pre t : string) :
  String.length t = 3 -> Js.sliceLast 3 (Js.sliceLast 6 (pre ++ t)) = t.
Proof.
  intros Ht.
  pose proof (sliceLast_app 3 pre t) as H6. rewrite Ht in H6.
  change (3 + 3) with 6 in H6. rewrite H6.
  pose proof (sliceLast_app 0 (Js.sliceLast 3 pre) t) as H3. rewrite Ht in H3.
  change (0 + 3) with 3 in H3. rewrite H3, sliceLast_zero. reflexivity.
Qed.

Lemma threeDigits_mod (n : N) :
  NewExpensePageView.threeDigits (n mod 1000) = NewExpensePageView.threeDigits n.
Proof.
  unfold NewExpensePageView.threeDigits.
  replace (n mod 1000 / 100 mod 10)%N with (n / 100 mod 10)%N by euclid.
  replace (n mod 1000 / 10 mod 10)%N with (n / 10 mod 10)%N by euclid.
  replace (n mod 1000 mod 10)%N with (n mod 10)%N by euclid.
  reflexivity.
Qed.

(** The random part: three digits, padded with zeros. *)
Lemma padded_random_part (r : N) :
  (r < 1000)%N ->
  Js.sliceLast 3 (Js.padStart 3 "0" (Js.N_toString r)) = NewExpensePageView.threeDigits r.
Proof.
  intros Hr. unfold NewExpensePageView.threeDigits.
  destruct (N.lt_ge_cases r 10) as [H1 | H1].
  - rewrite (N_toString_digit r H1).
    replace (r / 100 mod 10)%N with 0%N by euclid.
    replace (r / 10 mod 10)%N with 0%N by euclid.
    replace (r mod 10)%N with r by euclid.
    reflexivity.
  - rewrite (N_toString_step r H1).
    destruct (N.lt_ge_cases r 100) as [H2 | H2].
    + rewrite (N_toString_digit (r / 10)) by euclid.
      replace (r / 100 mod 10)%N with 0%N by euclid.
      replace (r / 10 mod 10)%N with (r / 10)%N by euclid.
      reflexivity.
    + rewrite (N_toString_step (r / 10)) by euclid.
      rewrite (N_toString_digit (r / 10 / 10)) by euclid.
      replace (r / 100 mod 10)%N with (r / 10 / 10)%N by euclid.
      replace (r / 10 mod 10)%N with (r / 10 mod 10)%N by euclid.
      reflexivity.
Qed.

(** X5. The transaction id holds no more of the clock than the
    milliseconds within the second: it is T-, the last three digits of
    [Date.now()] and the three digits of the random draw, eight characters
    in all, so two submissions any whole number of seconds apart that draw
    the same number get the same id. *)
Theorem transaction_id_keeps_the_milliseconds_only (now randomThousand : N) :
  (100 <= now)%N -> (randomThousand < 1000)%N ->
  NewExpensePage.generateTransactionId now randomThousand
  = "T-" ++ NewExpensePageView.threeDigits (now mod 1000)
         ++ NewExpensePageView.threeDigits randomThousand
  /\ String.length (NewExpensePage.generateTransactionId now randomThousand) = 8
  /\ (forall seconds,
        NewExpensePage.generateTransactionId (now + 1000 * seconds) randomThousand
        = NewExpensePage.generateTransactionId now randomThousand).
Proof.
  intros Hnow Hr.
  assert (Hid : forall n, (100 <= n)%N ->
            NewExpensePage.generateTransactionId n randomThousand
            = "T-" ++ NewExpensePageView.threeDigits (n mod 1000)
                   ++ NewExpensePageView.threeDigits randomThousand).
  { intros n Hn. unfold NewExpensePage.generateTransactionId.
    destruct (N_toString_last_three n Hn) as [pre Hpre].
    rewrite Hpre, last_three_of_last_six by reflexivity.
    now rewrite padded_random_part, threeDigits_mod. }
  split; [apply Hid; exact Hnow |].
  split; [rewrite (Hid now Hnow); reflexivity |].
  intros seconds. rewrite !Hid by lia.
  replace ((now + 1000 * seconds) mod 1000)%N with (now mod 1000)%N by euclid.
  reflexivity.
Qed.

Lemma transaction_id_keeps_the_milliseconds_only_witness :
  NewExpensePage.generateTransactionId 1700000000123 7 = "T-123007"
  /\ String.length (NewExpensePage.generateTransactionId 1700000000123 7) = 8
  /\ (forall seconds,
        NewExpensePage.generateTransactionId (1700000000123 + 1000 * seconds) 7
        = NewExpensePage.generateTransactionId 1700000000123 7).
Proof.
  exact (transaction_id_keeps_the_milliseconds_only 1700000000123 7
           ltac:(reflexivity || (intros H; discriminate H)) ltac:(reflexivity)).
Defined.

End DecimalText.

(** ** The new-expense form, further *)

Section NewExpensePageViewFacts.
Import Js Types N8nClient NewExpensePage NewExpensePageView.

Lemma applyEvent_amount_is_a_number (w : World) (form : Form.ExpenseFormData)
    (event : FormEvent) :
  Form.amount form <> NaN -> Form.amount (applyEvent w form event) <> NaN.
Proof.
  intros Hform. destruct event as [name value | file]; simpl; [| exact Hform].
  destruct (String.eqb name "amount"); [apply parseAmount_is_a_number | exact Hform].
Qed.

Lemma applyEvents_amount_is_a_number (w : World) (events : list FormEvent)
    (form : Form.ExpenseFormData) :
  Form.amount form <> NaN -> Form.amount (applyEvents w events form) <> NaN.
Proof.
  unfold applyEvents. revert form.
  induction events as [| event events IH]; intros form Hform; simpl.
  - exact Hform.
  - apply IH, applyEvent_amount_is_a_number, Hform.
Qed.

(** X6. Whatever the user types and picks, starting from the empty form,
    the amount the form holds is a number, never [NaN]; and when the
    validator accepts the form the amount is strictly positive (or
    [Infinity], which [parseFloat] can give and the validator lets
    through). *)
Theorem edited_form_holds_a_positive_amount
    (w : World) (today : string) (events : list FormEvent) :
  let form := applyEvents w events (initialFormData today) in
  Form.amount form <> NaN
  /\ (validateManualForm form = None ->
      Form.amount form = PosInfinity
      \/ exists q, Form.amount form = Finite q /\ (0 < q)%Q).
Proof.
  intros form.
  assert (Hnum : Form.amount form <> NaN)
    by (apply applyEvents_amount_is_a_number; discriminate).
  split; [exact Hnum |].
  unfold validateManualForm. intros Hvalid.
  destruct (isEmpty (Form.category form)); [discriminate |].
  destruct (leZero (Form.amount form)) eqn:Hle; [discriminate |].
  destruct (Form.amount form) as [| q | |]; simpl in Hle.
  - contradiction.
  - right. exists q. split; [reflexivity |].
    apply Qnot_le_lt. intros Hq. apply Qle_bool_iff in Hq. congruence.
  - left. reflexivity.
  - discriminate.
Qed.

(** X7. For the inputs the handler is attached to, edits of the form
    compose as writes to its fields: a second change of the same input
    replaces the first, changes of two different inputs can be made in
    either order, and no change touches the receipt or the employee id. *)
Theorem input_changes_are_field_writes
    (w : World) (name other value value' : string) (form : Form.ExpenseFormData) :
  In name inputNames ->
  In other inputNames ->
  handleInputChange w name value' (handleInputChange w name value form)
  = handleInputChange w name value' form
  /\ (name <> other ->
      handleInputChange w name value (handleInputChange w other value' form)
      = handleInputChange w other value' (handleInputChange w name value form))
  /\ Form.receiptFile (handleInputChange w name value form) = Form.receiptFile form
  /\ Form.employeeId (handleInputChange w name value form) = Form.employeeId form.
Proof.
  intros Hname Hother. repeat split.
  - unfold handleInputChange; simpl.
    repeat match goal with
           | |- context [String.eqb name ?f] => destruct (String.eqb name f)
           end; reflexivity.
  - intros Hneq. unfold handleInputChange; simpl.
    f_equal;
      match goal with
      | |- context [String.eqb name ?f] =>
          destruct (String.eqb_spec name f) as [-> |];
          destruct (String.eqb_spec other f) as [-> |];
          try reflexivity; congruence
      end.
  - unfold inputNames in Hname. simpl in Hname.
    repeat (destruct Hname as [<- | Hname]; [reflexivity |]).
    contradiction.
Qed.

(** The category is picked, then the amount is typed and corrected. *)
Lemma input_changes_are_field_writes_witness :
  let w := Samples.worldAt 1700000000123 "2025-09-11T10:00:00.000Z" in
  let form := initialFormData "2025-09-11" in
  handleInputChange w "amount" "42.10" (handleInputChange w "amount" "4" form)
  = handleInputChange w "amount" "42.10" form
  /\ handleInputChange w "amount" "4" (handleInputChange w "category" "Travel" form)
     = handleInputChange w "category" "Travel" (handleInputChange w "amount" "4" form)
  /\ Form.receiptFile (handleInputChange w "amount" "4" form) = Form.receiptFile form
  /\ Form.employeeId (handleInputChange w "amount" "4" form) = Form.employeeId form.
Proof.
  intros w form.
  destruct (input_changes_are_field_writes w "amount" "category" "4" "42.10" form)
    as (Hlast & _ & Hreceipt & Hid); [simpl; tauto | simpl; tauto |].
  destruct (input_changes_are_field_writes w "amount" "category" "4" "Travel" form)
    as (_ & Hswap & _); [simpl; tauto | simpl; tauto |].
  split; [exact Hlast |].
  split; [apply Hswap; discriminate |].
  split; [exact Hreceipt | exact Hid].
Defined.

(** X8. What a click on Submit leaves behind.  The form keeps what was
    typed.  The page shows either a success message, and then the redirect
    is scheduled, or an error message, never both and never neither.  At
    most one request goes out, after those sent before, and a success is
    only shown when one went out. *)
Theorem submit_shows_one_message_and_sends_at_most_once
    (w : World) (role : option UserRole) (randomThousand : N)
    (st : PageState) (net : Net) :
  let after := handleManualSubmit w role randomThousand st net in
  formData (fst after) = formData st
  /\ ((error (fst after) = None /\ success (fst after) <> None
       /\ navigateScheduled (fst after) = true /\ loading (fst after) = false)
      \/ (error (fst after) <> None /\ success (fst after) = None
          /\ navigateScheduled (fst after) = navigateScheduled st))
  /\ respond (snd after) = respond net
  /\ (sent (snd after) = sent net
      \/ exists request, sent (snd after) = (sent net ++ [request])%list)
  /\ (success (fst after) <> None ->
      exists request, sent (snd after) = (sent net ++ [request])%list).
Proof.
  intros after. subst after. unfold handleManualSubmit.
  destruct (validateManualForm (formData st)) as [msg |].
  - simpl. split; [reflexivity |]. split.
    { right. repeat split; [discriminate | ..]; reflexivity. }
    split; [reflexivity |]. split; [left; reflexivity |].
    intros H. contradiction.
  - set (data := {| Complete.formFields := formData st;
                    Complete.transactionId := _;
                    Complete.dateSubmitted := _;
                    Complete.receiptAttached := _ |}).
    set (r := match role with Some r => r | None => Employee end).
    destruct (getIdToken w) as [token | t] eqn:Htoken.
    + destruct (calls_with_a_token w net token Htoken) as [Hsubmit _].
      destruct (Hsubmit data r) as (result & Hrun & _).
      rewrite Hrun.
      destruct (N8nClient.success result); simpl.
      * split; [reflexivity |]. split.
        { left. repeat split; [discriminate | ..]; reflexivity. }
        split; [reflexivity |]. split; [right; eauto |].
        intros _. eauto.
      * split; [reflexivity |]. split.
        { right. repeat split; [discriminate | ..]; reflexivity. }
        split; [reflexivity |]. split; [right; eauto |].
        intros _. eauto.
    + assert (Hrun : submitExpense w data r net = (Threw t, net)).
      { unfold submitExpense, bindC, lift. rewrite Htoken. reflexivity. }
      rewrite Hrun. simpl. split; [reflexivity |]. split.
      { right. repeat split; [discriminate | ..]; reflexivity. }
      split; [reflexivity |]. split; [left; reflexivity |].
      intros H. contradiction.
Qed.

End NewExpensePageViewFacts.

(** ** The n8n client, further *)

Section N8nClientDecodingFacts.
Import Js Types N8nClient.

Lemma mapM_length {A B : Type} (f : A -> outcome B) (items : list A) (results : list B) :
  mapM f items = Returned results -> List.length results = List.length items.
Proof.
  revert results. induction items as [| x items IH]; intros results H; simpl in H.
  - injection H as <-. reflexivity.
  - destruct (f x); [| discriminate].
    destruct (mapM f items); [| discriminate].
    injection H as <-. simpl. f_equal. apply IH. reflexivity.
Qed.

Lemma mapM_throws {A B : Type} (f : A -> outcome B) (items : list A) (x : A) (t : thrown) :
  In x items -> f x = Threw t -> exists t', mapM f items = Threw t'.
Proof.
  intros Hin Hx. induction items as [| y items IH]; simpl in *; [contradiction |].
  destruct Hin as [-> | Hin].
  - rewrite Hx. eauto.
  - destruct (f y); [| eauto].
    destruct (IH Hin) as [t' ->]. eauto.
Qed.

(** X9. [mapStatus] reads the name of a status back in any letter case,
    reads rejected as denied, and reads every other text, the empty one
    included, as pending. *)
Theorem status_names_are_read_back (text : string) :
  (forall status, toLowerCase text = StatusNames.statusName status ->
                  mapStatus (VString text) = Returned status)
  /\ (toLowerCase text = "rejected" -> mapStatus (VString text) = Returned Denied)
  /\ ((forall status, toLowerCase text <> StatusNames.statusName status) ->
      toLowerCase text <> "rejected" ->
      mapStatus (VString text) = Returned Pending)
  /\ mapStatus (VString (toLowerCase text)) = mapStatus (VString text).
Proof.
  assert (Hempty : isEmpty text = true -> toLowerCase text = EmptyString)
    by (destruct text; [reflexivity | discriminate]).
  unfold mapStatus. simpl truthy. rewrite isEmpty_toLowerCase, toLowerCase_idempotent.
  destruct (isEmpty text) eqn:He; simpl negb; cbv iota.
  - rewrite (Hempty eq_refl). repeat split; try reflexivity.
    + intros status H. destruct status; simpl in H; discriminate H.
    + intros H. discriminate H.
  - repeat split.
    + intros status ->. destruct status; reflexivity.
    + intros ->. reflexivity.
    + intros Hnone Hrej.
      destruct (String.eqb_spec (toLowerCase text) "approved") as [E |];
        [exfalso; exact (Hnone Approved E) |].
      destruct (String.eqb_spec (toLowerCase text) "denied") as [E |];
        [exfalso; exact (Hnone Denied E) |].
      destruct (String.eqb_spec (toLowerCase text) "rejected") as [E |];
        [contradiction |].
      destruct (String.eqb_spec (toLowerCase text) "flagged") as [E |];
        [exfalso; exact (Hnone Flagged E) |].
      reflexivity.
Qed.

Lemma mapStatus_throws_iff (status : value) :
  (exists t, mapStatus status = Threw t)
  <-> (truthy status = true /\ forall text, status <> VString text).
Proof.
  unfold mapStatus.
  destruct (truthy status) eqn:Htruthy; simpl negb; cbv iota.
  - destruct status;
      try (split; [intros _; split; [reflexivity | discriminate] | intros _; eauto]; fail).
    split.
    + intros [t H].
      repeat match type of H with
             | context [if ?b then _ else _] => destruct b
             end; discriminate.
    + intros [_ H]. exfalso. eapply H. reflexivity.
  - split; [intros [t H]; discriminate | intros [H _]; discriminate].
Qed.

Lemma bind_returned_throws {A B : Type} (m : outcome A) (k : A -> B) :
  (exists t, (x <- m ;; Returned (k x)) = Threw t) <-> (exists t, m = Threw t).
Proof.
  destruct m; simpl; split; intros [t' H]; try discriminate; eauto.
Qed.

(** X10. [mapSheetRowToExpense] throws in four cases only: the row is
    [null] (or missing); the amount it parses, [Amount] before [amount],
    cannot be converted to a string; its [AmountUSD] is there and cannot be
    converted; or its status, [Status] before [status], is a truthy value
    that is no string. *)
Theorem row_mapping_throws_iff (w : World) (row : value) :
  (exists t, mapSheetRowToExpense w row = Threw t)
  <-> (row = VNull \/ row = VUndefined
       \/ toStringThrows (or_ (or_ (getOptional row "Amount") (getOptional row "amount"))
                              (VNumber (Finite 0))) = true
       \/ (truthy (getOptional row "AmountUSD") = true
           /\ toStringThrows (getOptional row "AmountUSD") = true)
       \/ (truthy (or_ (getOptional row "Status") (getOptional row "status")) = true
           /\ forall text, or_ (getOptional row "Status") (getOptional row "status")
                           <> VString text)).
Proof.
  unfold mapSheetRowToExpense.
  rewrite <- mapStatus_throws_iff.
  assert (Hrest : forall rowTransactionID,
    (exists t,
       (rowAmount <- parseFloatOf w (or_ (or_ (getOptional row "Amount")
                                              (getOptional row "amount"))
                                         (VNumber (Finite 0))) ;;
        rowAmountUSD <- (if truthy (getOptional row "AmountUSD")
                         then n <- parseFloatOf w (getOptional row "AmountUSD") ;;
                              Returned (Some n)
                         else Returned None) ;;
        st <- mapStatus (or_ (getOptional row "Status") (getOptional row "status")) ;;
        Returned
          {| Sheet.id := or_ (or_ rowTransactionID (getOptional row "id"))
                             (VString ("exp-" ++ N_toString (Date_now w)));
             Sheet.transactionId := or_ (getOptional row "TransactionID")
                                        (getOptional row "transactionId");
             Sheet.employeeId := or_ (or_ (getOptional row "EmployeeID")
                                          (getOptional row "employeeId"))
                                     (VString EmptyString);
             Sheet.category := or_ (or_ (getOptional row "Category")
                                        (getOptional row "category"))
                                   (VString "Other");
             Sheet.amount := rowAmount;
             Sheet.amountUSD := rowAmountUSD;
             Sheet.currency := or_ (or_ (getOptional row "Currency")
                                        (getOptional row "currency"))
                                   (VString "USD");
             Sheet.description := or_ (or_ (getOptional row "Description")
                                           (getOptional row "description"))
                                      (VString EmptyString);
             Sheet.vendor := or_ (getOptional row "Vendor") (getOptional row "vendor");
             Sheet.dateIncurred := or_ (or_ (getOptional row "DateIncurred")
                                            (getOptional row "dateIncurred"))
                                       (VString (Date_toISOString w));
             Sheet.dateSubmitted := or_ (getOptional row "DateSubmitted")
                                        (getOptional row "dateSubmitted");
             Sheet.status := st;
             Sheet.paymentMethod := or_ (or_ (getOptional row "PaymentMethod")
                                             (getOptional row "paymentMethod"))
                                        (VString EmptyString);
             Sheet.reimbursementType := or_ (or_ (getOptional row "ReimbursementType")
                                                 (getOptional row "reimbursementType"))
                                            (VString EmptyString);
             Sheet.receiptAttached :=
               if strictEqString (getOptional row "ReceiptAttached") "Y"
                  || strictEqString (getOptional row "receiptAttached") "Y"
               then "Y" else "N" |}) = Threw t)
    <-> (toStringThrows (or_ (or_ (getOptional row "Amount") (getOptional row "amount"))
                             (VNumber (Finite 0))) = true
         \/ (truthy (getOptional row "AmountUSD") = true
             /\ toStringThrows (getOptional row "AmountUSD") = true)
         \/ exists t, mapStatus (or_ (getOptional row "Status") (getOptional row "status"))
                       = Threw t)).
  { intros rowTransactionID. unfold parseFloatOf.
    destruct (toStringThrows (or_ (or_ (getOptional row "Amount")
                                       (getOptional row "amount"))
                                  (VNumber (Finite 0)))); cbn [bind].
    { split; [auto | intros _; eauto]. }
    destruct (truthy (getOptional row "AmountUSD")).
    - destruct (toStringThrows (getOptional row "AmountUSD")); cbn [bind].
      { split; [auto | intros _; eauto]. }
      rewrite bind_returned_throws.
      split; [auto | intros [H | [[_ H] | H]]; [discriminate | discriminate | exact H]].
    - cbn [bind]. rewrite bind_returned_throws.
      split; [auto | intros [H | [[H _] | H]]; [discriminate | discriminate | exact H]]. }
  destruct row; simpl get; cbn [bind];
    try (split; [intros [t H]; auto | intros _; eauto]; fail);
    rewrite Hrest;
    (split; [intros H; right; right; exact H
            | intros [H | [H | H]]; [discriminate | discriminate | exact H]]).
Qed.

(** X11. The shapes of answer [fetchEmployeeExpenses] understands give
    the same expenses: an object with the rows under expenses, that object
    inside an array (what follows it is ignored), the rows under
    body.expenses, the bare array of rows when its first row has a
    TransactionID, and a JSON string that holds the array (there a row that
    cannot be mapped gives the empty list). *)
Theorem answer_shapes_decode_to_the_rows (w : World) (rows : list value) :
  (forall fields,
     lookup "expenses" fields = VArray rows ->
     expensesOfData w (VObject fields) = mapM (mapSheetRowToExpense w) rows)
  /\ (forall fields rest,
        truthy (lookup "TransactionID" fields) = false ->
        lookup "expenses" fields = VArray rows ->
        expensesOfData w (VArray (VObject fields :: rest))
        = mapM (mapSheetRowToExpense w) rows)
  /\ (forall fields bodyFields,
        truthy (lookup "expenses" fields) && isArray (lookup "expenses" fields) = false ->
        lookup "body" fields = VObject bodyFields ->
        lookup "expenses" bodyFields = VArray rows ->
        expensesOfData w (VObject fields) = mapM (mapSheetRowToExpense w) rows)
  /\ (forall first rest transactionID,
        rows = first :: rest ->
        get first "TransactionID" = Returned transactionID ->
        truthy transactionID = true ->
        expensesOfData w (VArray rows) = mapM (mapSheetRowToExpense w) rows)
  /\ (forall text,
        JSON_parse w text = Returned (VArray rows) ->
        expensesOfData w (VString text)
        = tryCatch (mapM (mapSheetRowToExpense w) rows) (fun _ => Returned [])).
Proof.
  repeat split.
  - intros fields Hexp. simpl. unfold expensesOfUnwrapped. simpl.
    rewrite Hexp. reflexivity.
  - intros fields rest Htid Hexp. simpl. rewrite Htid.
    unfold expensesOfUnwrapped. simpl. rewrite Hexp. reflexivity.
  - intros fields bodyFields Hno Hbody Hexp. simpl.
    unfold expensesOfUnwrapped. simpl. rewrite Hno, Hbody. simpl.
    rewrite Hexp. reflexivity.
  - intros first rest transactionID -> Hget Htruthy. simpl.
    rewrite Hget. simpl. rewrite Htruthy. reflexivity.
  - intros text Hparse. simpl. unfold expensesOfUnwrapped. simpl.
    rewrite Hparse. reflexivity.
Qed.

(** X12. A bare array whose first row has no TransactionID is not read as
    a list: when that row has an EmployeeID the answer is that one row and
    the rows after it are dropped, and when it has neither, as a row with
    the lower-case keys only, the answer is the empty list, although
    [mapSheetRowToExpense] would map such a row. *)
Theorem array_without_TransactionID_is_not_a_list
    (w : World) (fields : list (string * value)) (rest : list value) :
  truthy (lookup "TransactionID" fields) = false ->
  truthy (lookup "expenses" fields) && isArray (lookup "expenses" fields) = false ->
  truthy (getOptional (lookup "body" fields) "expenses")
  && isArray (getOptional (lookup "body" fields) "expenses") = false ->
  (truthy (lookup "EmployeeID" fields) = true ->
   expensesOfData w (VArray (VObject fields :: rest))
   = (e <- mapSheetRowToExpense w (VObject fields) ;; Returned [e]))
  /\ (truthy (lookup "EmployeeID" fields) = false ->
      expensesOfData w (VArray (VObject fields :: rest)) = Returned []).
Proof.
  intros Htid Hexp Hbody.
  assert (Hor : truthy (or_ (lookup "TransactionID" fields) (lookup "EmployeeID" fields))
                = truthy (lookup "EmployeeID" fields))
    by (unfold or_; rewrite Htid; reflexivity).
  split; intros Hemp; simpl; rewrite Htid;
    unfold expensesOfUnwrapped; simpl; rewrite Hexp, Hbody; cbn [bind];
    rewrite Hor, Hemp; reflexivity.
Qed.

Lemma array_without_TransactionID_is_not_a_list_witness :
  let w := Samples.worldAt 1700000000123 "2025-09-11T10:00:00.000Z" in
  let row1 := [ ("transactionId", VString "T-001"); ("EmployeeID", VString "EMP-401") ] in
  let row2 := VObject [ ("transactionId", VString "T-002");
                        ("EmployeeID", VString "EMP-401") ] in
  (truthy (lookup "EmployeeID" row1) = true ->
   expensesOfData w (VArray [VObject row1; row2])
   = (e <- mapSheetRowToExpense w (VObject row1) ;; Returned [e]))
  /\ (truthy (lookup "EmployeeID" row1) = false ->
      expensesOfData w (VArray [VObject row1; row2]) = Returned []).
Proof.
  intros w row1 row2.
  apply (array_without_TransactionID_is_not_a_list w row1 [row2]); reflexivity.
Defined.

(** X13. Reading a bare array of rows is all or nothing: with a token at
    hand, [fetchEmployeeExpenses] gives one expense per row, in number, or,
    when some row cannot be mapped, no expense at all. *)
Theorem bare_array_is_read_whole_or_not_at_all
    (w : World) (net : Net) (token : option string) (employeeId : string)
    (response : Response) (responseText : string)
    (first : value) (rest : list value) (transactionID : value) :
  getIdToken w = Returned token ->
  respond net (sent net)
    {| url := N8N_BASE_URL w ++ "/webhook/fetch-expenses"; method := "POST";
       body := FetchExpensesBody "fetch_expenses" employeeId "employee" token |}
  = Returned response ->
  text response = Returned responseText ->
  isEmpty responseText || isEmpty (trim responseText) = false ->
  JSON_parse w responseText = Returned (VArray (first :: rest)) ->
  get first "TransactionID" = Returned transactionID ->
  truthy transactionID = true ->
  exists expenses,
    fst (fetchEmployeeExpenses w employeeId net) = Returned expenses
    /\ (expenses = [] \/ List.length expenses = S (List.length rest))
    /\ (forall bad t, In bad (first :: rest) ->
                      mapSheetRowToExpense w bad = Threw t -> expenses = []).
Proof.
  intros Htoken Hresp Htext Hblank Hparse Hget Htruthy.
  unfold fetchEmployeeExpenses, bindC, tryCatchC, lift, fetch, retC.
  rewrite Htoken, Hresp, Htext, Hblank, Hparse.
  cbn [expensesOfData]. rewrite Hget. cbn [bind]. rewrite Htruthy.
  destruct (mapM (mapSheetRowToExpense w) (first :: rest)) as [expenses | t] eqn:Hmap.
  - exists expenses. split; [reflexivity |]. split.
    + right. exact (mapM_length _ _ _ Hmap).
    + intros bad t Hin Hbad.
      destruct (mapM_throws _ _ _ _ Hin Hbad) as [t' Ht']. congruence.
  - exists []. split; [reflexivity |]. split; [left; reflexivity | reflexivity].
Qed.

Lemma bare_array_is_read_whole_or_not_at_all_witness :
  let w := Replies.worldParsing "[rows]" (VArray Replies.sheetRows) in
  let net := Replies.answering "[rows]" in
  exists expenses,
    fst (fetchEmployeeExpenses w "EMP-401" net) = Returned expenses
    /\ (expenses = [] \/ List.length expenses = 2%nat)
    /\ (forall bad t, In bad Replies.sheetRows ->
                      mapSheetRowToExpense w bad = Threw t -> expenses = []).
Proof.
  intros w net.
  apply (bare_array_is_read_whole_or_not_at_all w net (Some "id-token") "EMP-401"
           (Replies.okResponse "[rows]") "[rows]"
           (VObject [ ("TransactionID", VString "T-123500");
                      ("EmployeeID", VString "EMP-401");
                      ("Category", VString "Travel"); ("Status", VString "Approved") ])
           [ VObject [ ("TransactionID", VString "T-123501");
                       ("EmployeeID", VString "EMP-401");
                       ("Category", VString "Meals"); ("Status", VString "Flagged") ] ]
           (VString "T-123500"));
    reflexivity.
Defined.

Lemma truthy_or_default (a d : value) : truthy d = true -> truthy (or_ a d) = true.
Proof. intros Hd. unfold or_. destruct (truthy a) eqn:Ha; assumption. Qed.

Lemma or_truthy (a b : value) : truthy a = true -> or_ a b = a.
Proof. intros Ha. unfold or_. now rewrite Ha. Qed.

(** X14. An expense that [mapSheetRowToExpense] returns always has an id,
    a category and a currency that are truthy (the defaults see to it), its
    receiptAttached is Y or N, and when the row has a TransactionID that
    value is both its id and its transactionId. *)
Theorem mapped_expense_has_id_category_and_currency
    (w : World) (row : value) (e : Sheet.Expense) :
  mapSheetRowToExpense w row = Returned e ->
  truthy (Sheet.id e) = true
  /\ truthy (Sheet.category e) = true
  /\ truthy (Sheet.currency e) = true
  /\ (Sheet.receiptAttached e = "Y" \/ Sheet.receiptAttached e = "N")
  /\ (truthy (getOptional row "TransactionID") = true ->
      Sheet.id e = getOptional row "TransactionID"
      /\ Sheet.transactionId e = getOptional row "TransactionID").
Proof.
  unfold mapSheetRowToExpense. intros H.
  assert (Hget : get row "TransactionID" = Returned (getOptional row "TransactionID")).
  { destruct row; try reflexivity; simpl in H; discriminate. }
  rewrite Hget in H. cbn [bind] in H.
  destruct (parseFloatOf w _) as [rowAmount |]; [| discriminate]. cbn [bind] in H.
  destruct (if truthy (getOptional row "AmountUSD") then _ else _) as [rowAmountUSD |];
    [| discriminate].
  cbn [bind] in H.
  destruct (mapStatus _) as [st |]; [| discriminate]. cbn [bind] in H.
  injection H as <-. cbn [Sheet.id Sheet.category Sheet.currency Sheet.receiptAttached
                           Sheet.transactionId].
  repeat split.
  - apply truthy_or_default. reflexivity.
  - apply truthy_or_default. reflexivity.
  - apply truthy_or_default. reflexivity.
  - destruct (_ || _); auto.
  - rewrite (or_truthy (getOptional row "TransactionID")) by assumption.
    now apply or_truthy.
  - now apply or_truthy.
Qed.

Lemma mapped_expense_has_id_category_and_currency_witness :
  let w := Samples.worldAt 1700000000123 "2025-09-11T10:00:00.000Z" in
  exists e,
    mapSheetRowToExpense w (VObject [ ("employeeId", VString "EMP-401") ]) = Returned e
    /\ (truthy (Sheet.id e) = true
        /\ truthy (Sheet.category e) = true
        /\ truthy (Sheet.currency e) = true
        /\ (Sheet.receiptAttached e = "Y" \/ Sheet.receiptAttached e = "N")
        /\ (truthy (getOptional (VObject [ ("employeeId", VString "EMP-401") ])
                                "TransactionID") = true ->
            Sheet.id e = getOptional (VObject [ ("employeeId", VString "EMP-401") ])
                                     "TransactionID"
            /\ Sheet.transactionId e
               = getOptional (VObject [ ("employeeId", VString "EMP-401") ])
                             "TransactionID")).
Proof.
  intros w. eexists. split; [reflexivity |].
  apply (mapped_expense_has_id_category_and_currency w
           (VObject [ ("employeeId", VString "EMP-401") ])).
  reflexivity.
Defined.

(** X15. [submitExpense] never reads the success field of the answer: with
    a token at hand, an ok response whose body parses to anything but
    [null] is reported as a success, with the body's message when it has a
    truthy one and the standard text otherwise, and with the body's
    expenseId or else its TransactionID. *)
Theorem ok_answer_is_a_success_whatever_it_says
    (w : World) (net : Net) (token : option string)
    (data : Complete.CompleteExpenseData) (role : UserRole)
    (response : Response) (parsed : value) :
  getIdToken w = Returned token ->
  respond net (sent net)
    {| url := N8N_BASE_URL w ++ "/webhook/submit-expense"; method := "POST";
       body := SubmitExpenseBody
                 {| idToken := token; role := role;
                    submissionType := "manual"; expense := data |} |}
  = Returned response ->
  ok response = true ->
  json w response = Returned parsed ->
  parsed <> VNull -> parsed <> VUndefined ->
  fst (submitExpense w data role net)
  = Returned {| success := true;
                message := or_ (getOptional parsed "message")
                               (VString "Expense submitted successfully");
                expenseId := or_ (getOptional parsed "expenseId")
                                 (getOptional parsed "TransactionID") |}.
Proof.
  intros Htoken Hresp Hok Hjson Hnull Hundef.
  unfold submitExpense, bindC, tryCatchC, lift, fetch, retC, throwC.
  rewrite Htoken, Hresp, Hok. simpl negb. cbv iota. rewrite Hjson.
  rewrite !(get_not_nullish parsed) by assumption.
  reflexivity.
Qed.

Lemma ok_answer_is_a_success_whatever_it_says_witness :
  let parsed := VObject [ ("success", VBool false);
                          ("message", VString "Duplicate transaction") ] in
  let w := Replies.worldParsing "{refused}" parsed in
  let data :=
    {| Complete.formFields := Samples.taxiForm 42.10;
       Complete.transactionId := "T-123500";
       Complete.dateSubmitted := "2025-09-11";
       Complete.receiptAttached := "N" |} in
  fst (submitExpense w data Employee (Replies.answering "{refused}"))
  = Returned {| success := true;
                message := VString "Duplicate transaction";
                expenseId := VUndefined |}.
Proof.
  intros parsed w data.
  apply (ok_answer_is_a_success_whatever_it_says w (Replies.answering "{refused}")
           (Some "id-token") data Employee (Replies.okResponse "{refused}") parsed);
    try reflexivity; discriminate.
Defined.

End N8nClientDecodingFacts.

(** ** The dashboard *)

Section EmployeeDashboardFacts.
Import Js Types N8nClient JsEngine EmployeeDashboard.

Lemma status_counts_partition (expenses : list Sheet.Expense) :
  (List.length (filter (statusIs "pending") expenses)
   + List.length (filter (statusIs "approved") expenses)
   + List.length (filter (statusIs "denied") expenses)
   + List.length (filter (statusIs "flagged") expenses)
   = List.length expenses)%nat.
Proof.
  induction expenses as [| e expenses IH]; [reflexivity |].
  unfold statusIs in *. cbn [filter].
  destruct (Sheet.status e); cbn [StatusNames.statusName String.eqb Ascii.eqb Bool.eqb];
    cbn [List.length]; lia.
Qed.

Lemma no_flagged_iff (expenses : list Sheet.Expense) :
  List.length (filter (statusIs "flagged") expenses) = 0%nat
  <-> (forall e, In e expenses -> Sheet.status e <> Flagged).
Proof.
  induction expenses as [| e expenses IH].
  - split; [intros _ ? [] | reflexivity].
  - cbn [filter]. unfold statusIs at 1.
    destruct (Sheet.status e) eqn:Hstatus;
      cbn [StatusNames.statusName String.eqb Ascii.eqb Bool.eqb]; cbn [List.length].
    1-3: rewrite IH; split;
      [ intros H e' [<- | Hin]; [congruence | now apply H]
      | intros H e' Hin; apply H; now right ].
    split; [discriminate |].
    intros H. exfalso. apply (H e); [now left | assumption].
Qed.

(** X16. The three counts of the dashboard leave the flagged expenses
    out: together with them they make up the list, so the counts add up to
    the number of expenses exactly when no expense is flagged. *)
Theorem dashboard_counts_leave_out_the_flagged
    (engine : Engine) (expenses : list Sheet.Expense) :
  let stats := statsOf engine expenses in
  (pendingCount stats + approvedCount stats + deniedCount stats
   + List.length (filter (statusIs "flagged") expenses)
   = List.length expenses)%nat
  /\ ((pendingCount stats + approvedCount stats + deniedCount stats
       = List.length expenses)%nat
      <-> (forall e, In e expenses -> Sheet.status e <> Flagged)).
Proof.
  cbn [statsOf pendingCount approvedCount deniedCount].
  pose proof (status_counts_partition expenses) as Hsum.
  split; [exact Hsum |].
  rewrite <- no_flagged_iff. lia.
Qed.



End EmployeeDashboardFacts.

(** ** The chat *)

Section ChatFacts.
Import Js Types N8nClient JsEngine Chat.

(** The inner [try] of [sendChatMessage] cannot fail: what it throws is
    replaced by the raw text. *)
Lemma chat_reply_is_returned (engine : Engine) (w : World) (responseText : string) :
  exists reply,
    tryCatch (jsonResult <- JSON_parse w responseText ;; replyOf engine jsonResult)
             (fun _ => Returned (VString responseText))
    = Returned reply
    /\ (forall t, JSON_parse w responseText = Threw t -> reply = VString responseText)
    /\ (JSON_parse w responseText = Returned VNull -> reply = VString responseText)
    /\ (forall fields,
          JSON_parse w responseText = Returned (VObject fields) ->
          truthy (lookup "output" fields) = true ->
          reply = lookup "output" fields).
Proof.
  destruct (JSON_parse w responseText) as [jsonResult | t] eqn:Hparse; cbn [bind tryCatch].
  - destruct jsonResult; cbn [replyOf get bind tryCatch];
      (eexists; split; [reflexivity |]);
      (split; [discriminate |]);
      (split; [first [discriminate | intros _; reflexivity] |]);
      try discriminate.
    intros fields' [= <-] Houtput. cbn [getOptional].
    do 4 (rewrite (or_truthy (lookup "output" fields)) by assumption).
    reflexivity.
  - eexists. split; [reflexivity |].
    split; [reflexivity |]. split; discriminate.
Qed.

(** X18. With a token at hand, [sendChatMessage] always resolves, and with
    [success: false] only when the request failed, the body could not be
    read or the status was not ok.  Text that is no JSON, and the JSON text
    [null], are shown as they came; an object's [output] is shown when it
    is truthy, whatever its other fields. *)
Theorem chat_fails_only_when_the_answer_cannot_be_read
    (engine : Engine) (w : World) (fetchChat : ChatRequest -> outcome Response)
    (userMessage : string) (userRole : UserRole) (token : option string) :
  getIdToken w = Returned token ->
  let request :=
    {| url := N8N_BASE_URL w ++ "/webhook/Lighthouse-input"; method := "POST";
       contentType := "application/json";
       body := {| text := userMessage; role := userRole; idToken := token |} |} in
  exists result,
    sendChatMessage engine w fetchChat userMessage userRole = Returned result
    /\ (success result = false
        <-> (exists t, fetchChat request = Threw t)
            \/ (exists response,
                  fetchChat request = Returned response
                  /\ ((exists t, N8nClient.text response = Threw t)
                      \/ ok response = false)))
    /\ (forall response responseText,
          fetchChat request = Returned response ->
          ok response = true ->
          N8nClient.text response = Returned responseText ->
          isEmpty responseText || isEmpty (trim responseText) = false ->
          (forall t, JSON_parse w responseText = Threw t ->
                     message result = VString responseText)
          /\ (JSON_parse w responseText = Returned VNull ->
              message result = VString responseText)
          /\ (forall fields,
                JSON_parse w responseText = Returned (VObject fields) ->
                truthy (lookup "output" fields) = true ->
                message result = lookup "output" fields)).
Proof.
  intros Htoken request.
  unfold sendChatMessage. rewrite Htoken. cbn [bind]. fold request.
  destruct (fetchChat request) as [response | t] eqn:Hfetch; cbn [bind tryCatch].
  - destruct (N8nClient.text response) as [responseText | t] eqn:Htext;
      cbn [bind tryCatch].
    + destruct (ok response) eqn:Hok; cbn [negb tryCatch].
      * destruct (isEmpty responseText || isEmpty (trim responseText)) eqn:Hblank;
          cbn [tryCatch].
        -- eexists. split; [reflexivity |]. split.
           ++ cbn [success]. split; [discriminate |].
              intros [[t Ht] | (r & [= <-] & [[t Ht] | Hno])]; congruence.
           ++ intros r rt [= <-] _ Hrt Hnot. congruence.
        -- destruct (chat_reply_is_returned engine w responseText)
             as (reply & -> & Hreply).
           cbn [bind tryCatch].
           eexists. split; [reflexivity |]. split.
           ++ cbn [success]. split; [discriminate |].
              intros [[t Ht] | (r & [= <-] & [[t Ht] | Hno])]; congruence.
           ++ intros r rt [= <-] _ Hrt _. rewrite Htext in Hrt.
              injection Hrt as <-. cbn [message]. exact Hreply.
      * eexists. split; [reflexivity |]. split.
        -- cbn [success]. split; [| reflexivity].
           intros _. right. exists response. split; [reflexivity |]. now right.
        -- intros r rt [= <-] Hyes. congruence.
    + eexists. split; [reflexivity |]. split.
      * cbn [success]. split; [| reflexivity].
        intros _. right. exists response. split; [reflexivity |]. left. now exists t.
      * intros r rt [= <-] _ Hread. congruence.
  - eexists. split; [reflexivity |]. split.
    + cbn [success]. split; [| reflexivity]. intros _. left. now exists t.
    + intros r rt Hr. discriminate.
Qed.

Lemma chat_fails_only_when_the_answer_cannot_be_read_witness :
  let w := Replies.worldParsing "null" VNull in
  let fetchChat := fun _ : ChatRequest => Returned (Replies.okResponse "null") in
  exists result,
    sendChatMessage Replies.plainEngine w fetchChat "What is the meal limit?" Employee
    = Returned result
    /\ success result = true
    /\ message result = VString "null".
Proof.
  intros w fetchChat.
  destruct (chat_fails_only_when_the_answer_cannot_be_read
              Replies.plainEngine w fetchChat "What is the meal limit?" Employee
              (Some "id-token") eq_refl)
    as (result & Hcall & Hfails & Hshown).
  exists result. split; [exact Hcall |]. split.
  - destruct (success result) eqn:Hsuccess; [reflexivity |].
    destruct (proj1 Hfails eq_refl) as [[t Ht] | (r & [= <-] & [[t Ht] | Hno])];
      discriminate.
  - destruct (Hshown (Replies.okResponse "null") "null" eq_refl eq_refl eq_refl eq_refl)
      as (_ & Hnull & _).
    exact (Hnull eq_refl).
Defined.

End ChatFacts.

(** ** The file upload *)

Section CsvUploadFacts.
Import Js Types N8nClient JsEngine CsvUpload.

Lemma strictEq_false_iff (v : value) :
  strictEq v (VBool false) = true <-> v = VBool false.
Proof.
  destruct v as [| | [] | | | |]; cbn; split; congruence.
Qed.

Lemma truthy_not_nullish (v : value) :
  truthy v = true -> v <> VNull /\ v <> VUndefined.
Proof. destruct v; cbn; intros H; split; congruence. Qed.

Lemma get_returned_not_nullish (v r : value) (key : string) :
  get v key = Returned r -> v <> VNull /\ v <> VUndefined.
Proof. destruct v; cbn; intros H; split; congruence. Qed.

(** The body [extractBody] settles on can be read from. *)
Lemma extractBody_not_nullish (result body : value) :
  extractBody result = Returned body -> body <> VNull /\ body <> VUndefined.
Proof.
  assert (Hor : forall v inner,
            get v "body" = Returned inner ->
            or_ inner v <> VNull /\ or_ inner v <> VUndefined).
  { intros v inner Hget. unfold or_.
    destruct (truthy inner) eqn:Hinner.
    - now apply truthy_not_nullish.
    - exact (get_returned_not_nullish _ _ _ Hget). }
  unfold extractBody.
  destruct result as [| | | | | [| first rest] |];
    try (cbn; discriminate);
    try (cbn [get bind]; intros [= <-]; apply Hor; reflexivity).
  destruct (get first "body") as [inner |] eqn:Hget; cbn [bind]; [| discriminate].
  intros [= <-]. now apply Hor.
Qed.

Lemma wholeNumber_inject_Z (z : Z) : wholeNumber (inject_Z z) = Some z.
Proof.
  unfold wholeNumber, inject_Z. cbn [Qnum Qden].
  rewrite Z.mod_1_r, Z.div_1_r. reflexivity.
Qed.

Lemma numberText_ofNat (engine : Engine) (n : nat) :
  (Z.of_nat n <= 2 ^ 53)%Z ->
  numberText engine (ofNat n) = N_toString (N.of_nat n).
Proof.
  intros Hsmall. unfold numberText, ofNat, ofZ.
  rewrite wholeNumber_inject_Z.
  replace (Z.abs (Z.of_nat n) <=? 2 ^ 53)%Z with true
    by (symmetry; apply Z.leb_le; lia).
  replace (Z.of_nat n <? 0)%Z with false by (symmetry; apply Z.ltb_ge; lia).
  f_equal. lia.
Qed.

Lemma truthy_ofNat (n : nat) : truthy (VNumber (ofNat n)) = negb (Nat.eqb n 0).
Proof.
  destruct n as [| n]; [reflexivity |].
  cbn [truthy truthyNumber ofNat ofZ Nat.eqb negb]. apply negb_true_iff.
  unfold Qeq_bool, inject_Z. cbn [Qnum Qden].
  apply Z.eqb_neq. lia.
Qed.

Lemma greaterThanZero_ofNat (engine : Engine) (n : nat) :
  greaterThanZero engine (VNumber (ofNat n)) = Returned (negb (Nat.eqb n 0)).
Proof.
  destruct n as [| n]; [reflexivity |].
  unfold greaterThanZero, ToNumber.
  cbn [toStringThrows numberOf bind]. unfold ofNat, ofZ. cbn [leZero Nat.eqb negb].
  replace (Qle_bool (inject_Z (Z.of_nat (S n))) 0) with false; [reflexivity |].
  symmetry. unfold Qle_bool, inject_Z. cbn [Qnum Qden].
  apply Z.leb_gt. lia.
Qed.


(** The count [submitExpenseCSV] reads off an array of validated rows. *)
Lemma validated_count_of_rows (engine : Engine) (rows : list value) :
  or_ (lengthOf engine (VArray rows)) (VNumber (Finite 0))
  = VNumber (ofNat (List.length rows)).
Proof.
  unfold or_. cbn [lengthOf]. rewrite truthy_ofNat.
  destruct rows; reflexivity.
Qed.



(** X20. With a token at hand [submitExpenseCSV] always resolves.  A
    request that fails, a body that cannot be read and a status that is not
    ok give [success: false]; an ok answer with a blank body, or with text
    that is no JSON, is a success that has no [validatedRows]. *)
Theorem upload_always_resolves
    (engine : Engine) (w : World) (fetchUpload : UploadRequest -> outcome Response)
    (file : File) (role : UserRole) (token : option string) :
  getIdToken w = Returned token ->
  let request :=
    {| uploadUrl := N8N_BASE_URL w ++ "/webhook/Lighthouse-input";
       uploadMethod := "POST";
       formData := uploadForm file role token |} in
  exists r,
    submitExpenseCSV engine w fetchUpload file role = Returned r
    /\ (forall t, fetchUpload request = Threw t -> success r = false)
    /\ (forall response,
          fetchUpload request = Returned response ->
          (forall t, text response = Threw t -> success r = false)
          /\ (forall responseText,
                text response = Returned responseText ->
                (ok response = false ->
                 r = {| success := false;
                        message := VString ("HTTP error! status: "
                                            ++ N_toString (status response));
                        validatedRows := VUndefined; errors := VUndefined |})
                /\ (ok response = true ->
                    isEmpty responseText || isEmpty (trim responseText) = true ->
                    r = {| success := true;
                           message := VString "File uploaded and processed successfully.";
                           validatedRows := VUndefined; errors := VUndefined |})
                /\ (ok response = true ->
                    isEmpty responseText || isEmpty (trim responseText) = false ->
                    forall t, JSON_parse w responseText = Threw t ->
                    r = {| success := true;
                           message := VString responseText;
                           validatedRows := VUndefined; errors := VUndefined |}))).
Proof.
  intros Htoken request.
  unfold submitExpenseCSV. rewrite Htoken. cbn [bind]. fold request.
  destruct (fetchUpload request) as [response | t] eqn:Hfetch; cbn [bind tryCatch].
  2: { eexists. split; [reflexivity |]. split; [reflexivity | discriminate]. }
  destruct (text response) as [responseText | t] eqn:Htext; cbn [bind tryCatch].
  2: { eexists. split; [reflexivity |]. split; [discriminate |].
       intros r [= <-]. split; [reflexivity |]. intros rt Hrt. congruence. }
  destruct (ok response) eqn:Hok; cbn [negb tryCatch].
  2: { eexists. split; [reflexivity |]. split; [discriminate |].
       intros r [= <-]. split; [intros; congruence |].
       intros rt Hrt. rewrite Hok.
       split; [reflexivity |]. split; discriminate. }
  destruct (isEmpty responseText || isEmpty (trim responseText)) eqn:Hblank;
    cbn [tryCatch].
  { eexists. split; [reflexivity |]. split; [discriminate |].
    intros r [= <-]. split; [intros; congruence |].
    intros rt Hrt. rewrite Htext in Hrt. injection Hrt as <-.
    split; [intros; congruence |]. split; [reflexivity |]. intros _ Hnot. congruence. }
  destruct (JSON_parse w responseText) as [result | t] eqn:Hparse; cbn [tryCatch].
  - destruct (resultOfParsed engine result) as [r0 | t] eqn:Hresult; cbn [tryCatch];
      (eexists; split; [reflexivity |]); (split; [discriminate |]);
      intros r [= <-]; (split; [intros; congruence |]);
      intros rt Hrt; rewrite Htext in Hrt; injection Hrt as <-;
      (split; [intros; congruence |]); (split; [intros _ Hyes; congruence |]);
      intros _ _ t' Ht'; congruence.
  - eexists. split; [reflexivity |]. split; [discriminate |].
    intros r [= <-]. split; [intros; congruence |].
    intros rt Hrt. rewrite Htext in Hrt. injection Hrt as <-.
    split; [intros; congruence |]. split; [intros _ Hyes; congruence |].
    reflexivity.
Qed.

Lemma upload_always_resolves_witness :
  let w := Replies.worldParsing "[rows]" (VArray Replies.sheetRows) in
  let fetchUpload := fun _ : UploadRequest => Returned (Replies.okResponse "Workflow was started") in
  submitExpenseCSV Replies.plainEngine w fetchUpload Replies.report Employee
  = Returned {| success := true;
                message := VString "Workflow was started";
                validatedRows := VUndefined; errors := VUndefined |}.
Proof.
  intros w fetchUpload.
  destruct (upload_always_resolves Replies.plainEngine w fetchUpload Replies.report
              Employee (Some "id-token") eq_refl)
    as (r & -> & _ & Hanswer).
  destruct (Hanswer (Replies.okResponse "Workflow was started") eq_refl) as (_ & Htext).
  destruct (Htext "Workflow was started" eq_refl) as (_ & _ & Hplain).
  now rewrite (Hplain eq_refl eq_refl (ErrorObject "Unexpected token in JSON") eq_refl).
Defined.
(** [submitExpenseCSV] once an ok answer has been read. *)
Lemma upload_of_an_ok_answer
    (engine : Engine) (w : World) (fetchUpload : UploadRequest -> outcome Response)
    (file : File) (role : UserRole) (token : option string)
    (response : Response) (responseText : string) :
  getIdToken w = Returned token ->
  fetchUpload {| uploadUrl := N8N_BASE_URL w ++ "/webhook/Lighthouse-input";
                 uploadMethod := "POST";
                 formData := uploadForm file role token |}
  = Returned response ->
  ok response = true ->
  text response = Returned responseText ->
  (isEmpty responseText || isEmpty (trim responseText) = true ->
   submitExpenseCSV engine w fetchUpload file role
   = Returned {| success := true;
                 message := VString "File uploaded and processed successfully.";
                 validatedRows := VUndefined; errors := VUndefined |})
  /\ (isEmpty responseText || isEmpty (trim responseText) = false ->
      (forall t, JSON_parse w responseText = Threw t ->
         submitExpenseCSV engine w fetchUpload file role
         = Returned {| success := true;
                       message := VString responseText;
                       validatedRows := VUndefined; errors := VUndefined |})
      /\ (forall result r,
            JSON_parse w responseText = Returned result ->
            resultOfParsed engine result = Returned r ->
            submitExpenseCSV engine w fetchUpload file role = Returned r)).
Proof.
  intros Htoken Hfetch Hok Htext.
  unfold submitExpenseCSV. rewrite Htoken. cbn [bind].
  rewrite Hfetch. cbn [bind]. rewrite Htext. cbn [bind]. rewrite Hok. cbn [negb].
  split.
  - intros ->. reflexivity.
  - intros ->. split.
    + intros t ->. reflexivity.
    + intros result r -> ->. reflexivity.
Qed.

End CsvUploadFacts.

(** ** The CSV tab of the new-expense page *)

Section CsvUploadPageFacts.
Import Js Types N8nClient JsEngine CsvUploadPage.

(** X21. An upload that is answered with a blank body or with text that is
    no JSON is shown as a success whose row count reads undefined: the
    message is followed by (undefined rows processed), and the redirect to
    the dashboard is scheduled. *)
Theorem upload_answered_without_json_shows_undefined_rows
    (engine : Engine) (w : World)
    (fetchUpload : CsvUpload.UploadRequest -> outcome Response)
    (role : option UserRole) (st : PageState)
    (file : CsvUpload.File) (data : string) (token : option string)
    (response : Response) (responseText : string) :
  csvFile st = Some file ->
  csvFileData st = Some data ->
  getIdToken w = Returned token ->
  fetchUpload
    {| CsvUpload.uploadUrl := N8N_BASE_URL w ++ "/webhook/Lighthouse-input";
       CsvUpload.uploadMethod := "POST";
       CsvUpload.formData :=
         CsvUpload.uploadForm
           {| CsvUpload.fileName := CsvUpload.fileName file;
              CsvUpload.fileType := CsvUpload.fileType file;
              CsvUpload.fileData := data |}
           (match role with Some r => r | None => Employee end) token |}
  = Returned response ->
  ok response = true ->
  N8nClient.text response = Returned responseText ->
  (isEmpty responseText || isEmpty (trim responseText) = true
   \/ exists t, JSON_parse w responseText = Threw t) ->
  let st' := handleCsvSubmit engine w fetchUpload role st in
  success st'
  = Some (VString ((if isEmpty responseText || isEmpty (trim responseText)
                    then "File uploaded and processed successfully."
                    else responseText)
                   ++ " (undefined rows processed)"))
  /\ error st' = None
  /\ navigateScheduled st' = true
  /\ loading st' = false.
Proof.
  intros Hfile Hdata Htoken Hfetch Hok Htext Hplain.
  destruct (upload_of_an_ok_answer engine w fetchUpload _ _ token response responseText
              Htoken Hfetch Hok Htext) as [Hblank Hfull].
  cbv zeta. unfold handleCsvSubmit. rewrite Hfile, Hdata.
  destruct (isEmpty responseText || isEmpty (trim responseText)) eqn:Hb.
  - rewrite (Hblank eq_refl). cbn. repeat split.
  - destruct Hplain as [Habs | [t Ht]]; [discriminate |].
    rewrite (proj1 (Hfull eq_refl) t Ht). cbn. repeat split.
Qed.

Lemma upload_answered_without_json_shows_undefined_rows_witness :
  let w := Replies.worldParsing "[rows]" (VArray Replies.sheetRows) in
  let fetchUpload :=
    fun _ : CsvUpload.UploadRequest => Returned (Replies.okResponse "Workflow was started") in
  let st' := handleCsvSubmit Replies.plainEngine w fetchUpload None Replies.reportChosen in
  success st' = Some (VString "Workflow was started (undefined rows processed)")
  /\ error st' = None
  /\ navigateScheduled st' = true
  /\ loading st' = false.
Proof.
  intros w fetchUpload.
  apply (upload_answered_without_json_shows_undefined_rows
           Replies.plainEngine w fetchUpload None Replies.reportChosen
           Replies.report "EmployeeID,Amount" (Some "id-token")
           (Replies.okResponse "Workflow was started") "Workflow was started");
    try reflexivity.
  right. exists (ErrorObject "Unexpected token in JSON"). reflexivity.
Defined.

(** X22. An upload whose answer lists the validated rows is shown with
    their number, twice: in the message of [submitExpenseCSV] and in the
    count the page appends; with no row the message is the plain one,
    followed by (0 rows processed). *)
Theorem upload_with_validated_rows_shows_their_number
    (engine : Engine) (w : World)
    (fetchUpload : CsvUpload.UploadRequest -> outcome Response)
    (role : option UserRole) (st : PageState)
    (file : CsvUpload.File) (data : string) (token : option string)
    (response : Response) (responseText : string)
    (result body : value) (rows : list value) :
  csvFile st = Some file ->
  csvFileData st = Some data ->
  getIdToken w = Returned token ->
  fetchUpload
    {| CsvUpload.uploadUrl := N8N_BASE_URL w ++ "/webhook/Lighthouse-input";
       CsvUpload.uploadMethod := "POST";
       CsvUpload.formData :=
         CsvUpload.uploadForm
           {| CsvUpload.fileName := CsvUpload.fileName file;
              CsvUpload.fileType := CsvUpload.fileType file;
              CsvUpload.fileData := data |}
           (match role with Some r => r | None => Employee end) token |}
  = Returned response ->
  ok response = true ->
  N8nClient.text response = Returned responseText ->
  isEmpty responseText || isEmpty (trim responseText) = false ->
  JSON_parse w responseText = Returned result ->
  CsvUpload.extractBody result = Returned body ->
  getOptional body "allowed" <> VBool false ->
  getOptional body "validated_data" = VArray rows ->
  (Z.of_nat (List.length rows) < 2 ^ 32)%Z ->
  let rowCount := N_toString (N.of_nat (List.length rows)) in
  success (handleCsvSubmit engine w fetchUpload role st)
  = Some (VString (match rows with
                   | [] => "File uploaded and processed successfully (0 rows processed)"
                   | _ :: _ => "Successfully processed " ++ rowCount
                               ++ " expense(s) (" ++ rowCount ++ " rows processed)"
                   end)).
Proof.
  intros Hfile Hdata Htoken Hfetch Hok Htext Hblank Hparse Hbody Hallowed Hrows Hfew.
  destruct (upload_of_an_ok_answer engine w fetchUpload _ _ token response responseText
              Htoken Hfetch Hok Htext) as [_ Hfull].
  destruct (Hfull Hblank) as [_ Hparsed].
  destruct (extractBody_not_nullish _ _ Hbody) as [Hnull Hundef].
  assert (Hresult :
    CsvUpload.resultOfParsed engine result
    = Returned
        {| CsvUpload.success := true;
           CsvUpload.message :=
             VString (if negb (Nat.eqb (List.length rows) 0)
                      then "Successfully processed "
                           ++ N_toString (N.of_nat (List.length rows)) ++ " expense(s)"
                      else "File uploaded and processed successfully");
           CsvUpload.validatedRows := VNumber (ofNat (List.length rows));
           CsvUpload.errors := VUndefined |}).
  { unfold CsvUpload.resultOfParsed. rewrite Hbody. cbn [bind].
    rewrite (get_not_nullish body "allowed" Hnull Hundef). cbn [bind].
    destruct (strictEq (getOptional body "allowed") (VBool false)) eqn:Hstrict.
    - apply strictEq_false_iff in Hstrict. congruence.
    - rewrite Hrows, validated_count_of_rows, greaterThanZero_ofNat. cbn [bind].
      destruct rows as [| row rows]; [reflexivity |].
      cbn [Nat.eqb negb List.length]. unfold ToString.
      cbn [toStringThrows bind textOf]. rewrite numberText_ofNat by (cbn [List.length] in *; lia).
      reflexivity. }
  cbv zeta. unfold handleCsvSubmit. rewrite Hfile, Hdata.
  rewrite (Hparsed _ _ Hparse Hresult).
  cbn [CsvUpload.success CsvUpload.message CsvUpload.validatedRows].
  unfold ToString. cbn [toStringThrows bind textOf].
  rewrite numberText_ofNat by lia. cbn [success].
  destruct rows as [| row rows]; [reflexivity |].
  cbn [List.length Nat.eqb negb].
  rewrite !string_app_assoc. reflexivity.
Qed.

Lemma upload_with_validated_rows_shows_their_number_witness :
  let answer := VObject [ ("allowed", VBool true);
                          ("validated_data", VArray Replies.sheetRows) ] in
  let w := Replies.worldParsing "{validated}" (VArray [ VObject [ ("body", answer) ] ]) in
  let fetchUpload :=
    fun _ : CsvUpload.UploadRequest => Returned (Replies.okResponse "{validated}") in
  success (handleCsvSubmit Replies.plainEngine w fetchUpload (Some Admin)
             Replies.reportChosen)
  = Some (VString "Successfully processed 2 expense(s) (2 rows processed)").
Proof.
  intros answer w fetchUpload.
  apply (upload_with_validated_rows_shows_their_number
           Replies.plainEngine w fetchUpload (Some Admin) Replies.reportChosen
           Replies.report "EmployeeID,Amount" (Some "id-token")
           (Replies.okResponse "{validated}") "{validated}"
           (VArray [ VObject [ ("body", answer) ] ]) answer Replies.sheetRows);
    try reflexivity.
  discriminate.
Defined.

(** X23. [handleCsvChange] sets the file at once and its bytes when the
    read has settled.  A selection that runs alone leaves both there or both
    missing, and a failed read counts as no file: [handleCsvSubmit] then
    asks for one, whatever the network would answer.  While a read is under
    way the page holds the new file with the bytes it had before; and when
    a second file is chosen during the read of a first whose read settles
    last, the page ends with the second file and the bytes of the first. *)
Theorem file_and_bytes_are_set_in_two_steps
    (st : PageState) (fileA fileB : CsvUpload.File) (bytesA bytesB : string)
    (file : option CsvUpload.File) (read : outcome string) :
  (let alone := handleCsvChange file read st in
   (csvFile alone = None <-> csvFileData alone = None)
   /\ (forall chosen,
         csvFile alone = Some chosen ->
         file = Some chosen
         /\ exists bytes, read = Returned bytes /\ csvFileData alone = Some bytes)
   /\ (forall engine w fetchUpload role,
         csvFile alone = None ->
         let submitted := handleCsvSubmit engine w fetchUpload role alone in
         error submitted = Some (VString "Please select a CSV file to upload.")
         /\ success submitted = None))
  /\ (let reading := handleCsvChangeBegins (Some fileB) st in
      csvFile reading = Some fileB /\ csvFileData reading = csvFileData st)
  /\ (let overlapped :=
        handleCsvChangeSettles (Returned bytesA)
          (handleCsvChangeSettles (Returned bytesB)
             (handleCsvChangeBegins (Some fileB)
                (handleCsvChangeBegins (Some fileA) st))) in
      csvFile overlapped = Some fileB /\ csvFileData overlapped = Some bytesA)
  /\ (forall t,
        let failed := handleCsvChangeSettles (Threw t) st in
        csvFile failed = None /\ csvFileData failed = None
        /\ error failed = Some (VString "Failed to read file. Please try again.")).
Proof.
  split; [| repeat split].
  cbv zeta. unfold handleCsvChange, handleCsvChangeSettles, handleCsvChangeBegins.
  destruct file as [f |]; [destruct read as [bytes | t] |]; cbn.
  - split; [split; discriminate |].
    split; [intros chosen [= <-]; split; [reflexivity | now exists bytes] |].
    discriminate.
  - split; [split; reflexivity |].
    split; [discriminate |].
    intros. repeat split.
  - split; [split; reflexivity |].
    split; [discriminate |].
    intros. repeat split.
Qed.

(** X24. [handleCsvSubmit] sends one request at most: the bytes read when
    the file was chosen, under the file's name, with the role.  The page
    after the submit depends on the network through the answer to that
    request alone. *)
Theorem upload_sends_the_bytes_read_at_selection
    (engine : Engine) (w : World)
    (network other : CsvUpload.UploadRequest -> outcome Response)
    (role : option UserRole) (st : PageState)
    (file : CsvUpload.File) (data : string) (token : option string) :
  csvFile st = Some file ->
  csvFileData st = Some data ->
  getIdToken w = Returned token ->
  network
    {| CsvUpload.uploadUrl := N8N_BASE_URL w ++ "/webhook/Lighthouse-input";
       CsvUpload.uploadMethod := "POST";
       CsvUpload.formData :=
         (( "data",
            CsvUpload.FileEntry
              {| CsvUpload.fileName := CsvUpload.fileName file;
                 CsvUpload.fileType := CsvUpload.fileType file;
                 CsvUpload.fileData := data |}
              (CsvUpload.fileName file) )
          :: match token with
             | Some t => if isEmpty t then [] else [ ("idToken", CsvUpload.TextEntry t) ]
             | None => []
             end
          ++ [ ("role",
                CsvUpload.TextEntry
                  match role with Some Admin => "admin" | _ => "employee" end) ])%list |}
  = other
      {| CsvUpload.uploadUrl := N8N_BASE_URL w ++ "/webhook/Lighthouse-input";
         CsvUpload.uploadMethod := "POST";
         CsvUpload.formData :=
           (( "data",
              CsvUpload.FileEntry
                {| CsvUpload.fileName := CsvUpload.fileName file;
                   CsvUpload.fileType := CsvUpload.fileType file;
                   CsvUpload.fileData := data |}
                (CsvUpload.fileName file) )
            :: match token with
               | Some t => if isEmpty t then [] else [ ("idToken", CsvUpload.TextEntry t) ]
               | None => []
               end
            ++ [ ("role",
                  CsvUpload.TextEntry
                    match role with Some Admin => "admin" | _ => "employee" end) ])%list |} ->
  handleCsvSubmit engine w network role st = handleCsvSubmit engine w other role st.
Proof.
  intros Hfile Hdata Htoken Hsame.
  unfold handleCsvSubmit. rewrite Hfile, Hdata.
  assert (Hcall :
    CsvUpload.submitExpenseCSV engine w network
      {| CsvUpload.fileName := CsvUpload.fileName file;
         CsvUpload.fileType := CsvUpload.fileType file;
         CsvUpload.fileData := data |}
      (match role with Some r => r | None => Employee end)
    = CsvUpload.submitExpenseCSV engine w other
        {| CsvUpload.fileName := CsvUpload.fileName file;
           CsvUpload.fileType := CsvUpload.fileType file;
           CsvUpload.fileData := data |}
        (match role with Some r => r | None => Employee end)).
  { unfold CsvUpload.submitExpenseCSV. rewrite Htoken. cbn [bind].
    unfold CsvUpload.uploadForm. cbn [CsvUpload.fileName app].
    replace (CsvUpload.roleString match role with Some r => r | None => Employee end)
      with (match role with Some Admin => "admin" | _ => "employee" end)
      by (destruct role as [[] |]; reflexivity).
    rewrite Hsame. reflexivity. }
  rewrite Hcall. reflexivity.
Qed.

Lemma upload_sends_the_bytes_read_at_selection_witness :
  let w := Replies.worldParsing "[rows]" (VArray Replies.sheetRows) in
  let network :=
    fun request : CsvUpload.UploadRequest =>
      match CsvUpload.formData request with
      | [ ("data", CsvUpload.FileEntry _ "report.csv"); _; _ ] =>
          Returned (Replies.okResponse "Workflow was started")
      | _ => Threw (ErrorObject "Failed to fetch")
      end in
  let other :=
    fun _ : CsvUpload.UploadRequest => Returned (Replies.okResponse "Workflow was started") in
  handleCsvSubmit Replies.plainEngine w network None Replies.reportChosen
  = handleCsvSubmit Replies.plainEngine w other None Replies.reportChosen.
Proof.
  intros w network other.
  apply (upload_sends_the_bytes_read_at_selection
           Replies.plainEngine w network other None Replies.reportChosen
           Replies.report "EmployeeID,Amount" (Some "id-token"));
    reflexivity.
Defined.

End CsvUploadPageFacts.

(** ** The admin's review, beyond the success *)

Section AdminReviewPageFacts.
Import Js Types N8nClient AdminReviewPage.

(** X25. [handleDecision] sends nothing and only ever removes from the
    list.  When the token cannot be had the list, the selection and the
    success message stay and the error is shown; when it can, and the
    selected expense has a string id, exactly the listed expenses with that
    id are taken off, duplicates included. *)
Theorem decision_sends_nothing_and_removes_by_id
    (w : World) (decision : AdminDecision) (st : PageState) (net : Net) :
  let st' := fst (handleDecision w decision st net) in
  snd (handleDecision w decision st net) = net
  /\ (forall e, In e (expenses st') -> In e (expenses st))
  /\ (selectedExpense st = None -> st' = st)
  /\ (forall t selected,
        getIdToken w = Threw t ->
        selectedExpense st = Some selected ->
        expenses st' = expenses st
        /\ selectedExpense st' = Some selected
        /\ error st' = Some (VString "Failed to process decision. Please try again.")
        /\ success st' = success st)
  /\ (forall token selected id,
        getIdToken w = Returned token ->
        selectedExpense st = Some selected ->
        Sheet.id selected = VString id ->
        forall e, In e (expenses st')
                  <-> In e (expenses st) /\ Sheet.id e <> VString id).
Proof.
  cbv zeta. unfold handleDecision, sendAdminDecision, bindC, lift, retC.
  destruct (selectedExpense st) as [selected |] eqn:Hselected.
  2: { repeat split; try discriminate; auto. }
  destruct (getIdToken w) as [token | t] eqn:Htoken; cbn.
  - split; [reflexivity |].
    split; [intros e He; apply filter_In in He; tauto |].
    split; [discriminate |].
    split; [discriminate |].
    intros _ selected' id _ [= <-] Hid e.
    rewrite filter_In, Hid, negb_true_iff.
    split; intros [Hin Hne]; (split; [exact Hin |]).
    + intros Heq. rewrite Heq in Hne. cbn in Hne. now rewrite String.eqb_refl in Hne.
    + destruct (Sheet.id e) as [| | | | s | |]; try reflexivity.
      cbn. apply String.eqb_neq. congruence.
  - split; [reflexivity |].
    split; [auto |].
    split; [discriminate |].
    split; [| discriminate].
    intros _ selected' _ [= <-]. repeat split.
Qed.

End AdminReviewPageFacts.
